(** * rp-platform: sessions, viewers, inboxes and direct-message threads

    A shallow embedding of the parts of the roleplay platform that keep
    books: the SQL schema with its CHECK constraints, row-level-security
    policies and trigger functions ([session_schema.sql],
    [add_session_viewers.sql], [complete_session_viewers_migration.sql]),
    and the client functions that query and write those tables
    ([app/session/[sessionId]/page.tsx], the sessions page, the DM inbox
    and [openDmWith]).

    Conventions of the embedding.
    - A table is the list of its rows in physical order; a query filters,
      orders and limits that list.
    - A UUID is its text, as the client sees it.
    - A timestamp is an integer number of milliseconds since the epoch, the
      resolution of the JavaScript [Date] values through which the client
      reads and writes every timestamp column; the microsecond digits of
      [timestamptz] are not modelled.
    - [auth.uid()] is [Some u] for a signed-in user and [None] (SQL NULL)
      for the anonymous role.
    - Columns that no modelled statement reads ([closed_by], [closed_at],
      [updated_at], the generated [id]/[created_at] of [rp_response_times]
      and [rp_session_viewers.id]) are left out of the row records, and
      with [updated_at] the trigger that stamps it on every UPDATE of
      [rp_sessions]: an equation between session rows or tables speaks of
      the twelve columns carried (see [same_columns]).
    - Of the constraints, the CHECKs, the primary key of [rp_sessions], the
      references to [rp_sessions] and the UNIQUE key of
      [rp_session_viewers] are modelled. The references to [auth.users] and
      [characters] are not, and the deferred [unique_active_session] is
      checked only for the requests of [SessionActions]: they only make
      more statements fail.
    - Trigger functions are SECURITY INVOKER (none is declared otherwise):
      the statements inside them go through the row-level-security
      policies of the user whose statement fired the trigger. *)

From Stdlib Require Import ZArith List String Bool Lia Sorted Permutation.
Import ListNotations.
Local Open Scope string_scope.
Local Open Scope Z_scope.
Local Open Scope list_scope.

(* ================================================================== *)
(** ** SQL and PostgREST vocabulary *)
(* ================================================================== *)

Module Sql.

Definition uuid := string.
Definition timestamptz := Z.

(** [auth.uid() = x]: NULL for the anonymous role, hence not true. *)
Definition uid_is (uid : option uuid) (x : uuid) : bool :=
  match uid with
  | Some u => String.eqb u x
  | None => false
  end.

(** Errors that abort a statement. *)
Inductive sqlstate : Type :=
  | check_violation
  | foreign_key_violation
  | unique_violation
  | insufficient_privilege       (* new row violates row-level security *)
  | numeric_value_out_of_range.

Inductive result (A : Type) : Type :=
  | Ok (a : A)
  | Raise (e : sqlstate).
Arguments Ok {A} a.
Arguments Raise {A} e.

Definition bind {A B : Type} (r : result A) (k : A -> result B) : result B :=
  match r with
  | Ok a => k a
  | Raise e => Raise e
  end.

(** A failed statement leaves the database as it was. *)
Definition or_unchanged {A : Type} (r : result A) (old : A) : A :=
  match r with
  | Ok a => a
  | Raise _ => old
  end.

Section StableSort.
Context {A : Type} (cmp : A -> A -> Z).

(** [x] goes in front of the first element it does not compare greater
    than, so elements that compare equal keep their relative order. *)
Fixpoint insert_sorted (x : A) (l : list A) : list A :=
  match l with
  | [] => [x]
  | y :: l' => if cmp x y <=? 0 then x :: y :: l' else y :: insert_sorted x l'
  end.

Definition stable_sort (l : list A) : list A :=
  fold_right insert_sorted [] l.
End StableSort.

(** [ORDER BY key DESC] and [ORDER BY key ASC]; rows with equal keys stay in
    table order (PostgreSQL leaves their order open). *)
Definition order_by_desc {A : Type} (key : A -> Z) : list A -> list A :=
  stable_sort (fun a b => key b - key a).
Definition order_by_asc {A : Type} (key : A -> Z) : list A -> list A :=
  stable_sort (fun a b => key a - key b).

Definition limit {A : Type} (n : nat) (rows : list A) : list A := firstn n rows.

(** [SELECT ... INTO v]: the first row, or NULL when there is none. *)
Definition select_into {A : Type} (rows : list A) : option A := hd_error rows.

(** The [data] of PostgREST's [.single()] and [.maybeSingle()]: the row when
    there is exactly one. [.single()] also reports an error for no row,
    [.maybeSingle()] only for several; [data] is null in every other case. *)
Definition single {A : Type} (rows : list A) : option A :=
  match rows with
  | [r] => Some r
  | _ => None
  end.
Definition maybeSingle {A : Type} (rows : list A) : option A := single rows.

(** [numeric::INTEGER] of a number of seconds given in milliseconds:
    rounds to the nearest integer, ties away from zero, and raises outside
    the 32-bit range. *)
Definition round_seconds (ms : Z) : Z :=
  if 0 <=? ms then (ms + 500) / 1000 else - ((- ms + 500) / 1000).

Definition to_integer (n : Z) : result Z :=
  if (- 2147483648 <=? n) && (n <=? 2147483647) then Ok n
  else Raise numeric_value_out_of_range.

End Sql.
Import Sql.

Notation "x <- r ;; k" := (bind r (fun x => k))
  (at level 61, r at next level, right associativity).

(* ================================================================== *)
(** ** Tables *)
(* ================================================================== *)

Module Schema.

(** [public.rp_sessions], with the columns added by the migrations. *)
Record rp_session : Type := mk_rp_session {
  s_id : uuid;
  s_user_a : uuid;
  s_user_b : uuid;
  s_status : string;
  s_is_active : bool;
  s_last_message_at : option timestamptz;
  s_reminder_sent_at : option timestamptz;
  s_created_at : timestamptz;
  s_name : option string;
  s_style : option string;
  s_is_public : bool;
  s_max_viewers : option Z
}.

(** [public.rp_session_messages]. *)
Record rp_session_message : Type := mk_rp_session_message {
  m_id : uuid;
  m_session_id : uuid;
  m_sender_id : uuid;
  m_message_type : string;
  m_body : string;
  m_character_id : option uuid;
  m_created_at : timestamptz;
  m_edited_at : option timestamptz
}.

(** [public.rp_response_times]. *)
Record rp_response_time : Type := mk_rp_response_time {
  rt_user_id : uuid;
  rt_session_id : uuid;
  rt_response_time_seconds : Z
}.

(** [public.rp_session_viewers]. *)
Record rp_session_viewer : Type := mk_rp_session_viewer {
  v_session_id : uuid;
  v_user_id : uuid;
  v_joined_at : timestamptz;
  v_last_seen : timestamptz
}.

(** [writers]. *)
Record writer : Type := mk_writer {
  w_user_id : uuid;
  w_name : string;
  w_portrait_url : option string
}.

(** Modelled from the spec: the definitions of the read-tracking tables
    [rp_session_reads] and [dm_thread_reads] and of [dm_threads] and
    [dm_messages] are not among the SQL files; the columns are the ones
    the client selects, filters on and writes. One record serves both
    read-tracking tables and one both message tables; [rd_thread_id] is
    [session_id] for the former and [thread_id] for the latter. *)
Record read_mark : Type := mk_read_mark {
  rd_thread_id : uuid;
  rd_user_id : uuid;
  rd_last_read_at : option timestamptz;
  rd_last_read_message_id : option uuid
}.

Record dm_thread : Type := mk_dm_thread {
  t_id : uuid;
  t_user_a : uuid;
  t_user_b : uuid;
  t_created_at : timestamptz
}.

Record dm_message : Type := mk_dm_message {
  dm_id : uuid;
  dm_thread_id : uuid;
  dm_sender_id : uuid;
  dm_body : string;
  dm_created_at : timestamptz
}.

Record database : Type := mk_database {
  rp_sessions : list rp_session;
  rp_session_messages : list rp_session_message;
  rp_response_times : list rp_response_time;
  rp_session_viewers : list rp_session_viewer;
  writers : list writer;
  rp_session_reads : list read_mark
}.

Definition empty_database : database :=
  mk_database [] [] [] [] [] [].

Definition set_rp_sessions (db : database) (rows : list rp_session) : database :=
  mk_database rows (rp_session_messages db) (rp_response_times db)
    (rp_session_viewers db) (writers db) (rp_session_reads db).

Definition set_rp_session_messages (db : database)
    (rows : list rp_session_message) : database :=
  mk_database (rp_sessions db) rows (rp_response_times db)
    (rp_session_viewers db) (writers db) (rp_session_reads db).

Definition set_rp_response_times (db : database)
    (rows : list rp_response_time) : database :=
  mk_database (rp_sessions db) (rp_session_messages db) rows
    (rp_session_viewers db) (writers db) (rp_session_reads db).

Definition set_rp_session_viewers (db : database)
    (rows : list rp_session_viewer) : database :=
  mk_database (rp_sessions db) (rp_session_messages db) (rp_response_times db)
    rows (writers db) (rp_session_reads db).

(** Column assignments of the session row. *)
Definition with_last_message_at (t : option timestamptz) (s : rp_session) :=
  mk_rp_session (s_id s) (s_user_a s) (s_user_b s) (s_status s) (s_is_active s)
    t (s_reminder_sent_at s) (s_created_at s) (s_name s) (s_style s)
    (s_is_public s) (s_max_viewers s).

Definition with_reminder_sent_at (t : option timestamptz) (s : rp_session) :=
  mk_rp_session (s_id s) (s_user_a s) (s_user_b s) (s_status s) (s_is_active s)
    (s_last_message_at s) t (s_created_at s) (s_name s) (s_style s)
    (s_is_public s) (s_max_viewers s).

Definition with_max_viewers (n : option Z) (s : rp_session) :=
  mk_rp_session (s_id s) (s_user_a s) (s_user_b s) (s_status s) (s_is_active s)
    (s_last_message_at s) (s_reminder_sent_at s) (s_created_at s) (s_name s)
    (s_style s) (s_is_public s) n.

Definition with_is_active (b : bool) (s : rp_session) :=
  mk_rp_session (s_id s) (s_user_a s) (s_user_b s) (s_status s) b
    (s_last_message_at s) (s_reminder_sent_at s) (s_created_at s) (s_name s)
    (s_style s) (s_is_public s) (s_max_viewers s).

Definition with_is_public (b : bool) (s : rp_session) :=
  mk_rp_session (s_id s) (s_user_a s) (s_user_b s) (s_status s) (s_is_active s)
    (s_last_message_at s) (s_reminder_sent_at s) (s_created_at s) (s_name s)
    (s_style s) b (s_max_viewers s).

Definition with_status (st : string) (s : rp_session) :=
  mk_rp_session (s_id s) (s_user_a s) (s_user_b s) st (s_is_active s)
    (s_last_message_at s) (s_reminder_sent_at s) (s_created_at s) (s_name s)
    (s_style s) (s_is_public s) (s_max_viewers s).

Definition with_name (n : option string) (s : rp_session) :=
  mk_rp_session (s_id s) (s_user_a s) (s_user_b s) (s_status s) (s_is_active s)
    (s_last_message_at s) (s_reminder_sent_at s) (s_created_at s) n
    (s_style s) (s_is_public s) (s_max_viewers s).

Definition with_style (st : option string) (s : rp_session) :=
  mk_rp_session (s_id s) (s_user_a s) (s_user_b s) (s_status s) (s_is_active s)
    (s_last_message_at s) (s_reminder_sent_at s) (s_created_at s) (s_name s)
    st (s_is_public s) (s_max_viewers s).



(** [s'] holds the values of [s] in every column the row record carries.
    The record leaves out [updated_at], which the trigger
    [update_rp_sessions_updated_at_trigger] sets to [NOW()] in every row
    an UPDATE touches: agreement of two versions of a row is agreement on
    these twelve columns, and says nothing of [updated_at]. *)
Definition same_columns (s s' : rp_session) : Prop :=
  s_id s' = s_id s /\ s_user_a s' = s_user_a s /\ s_user_b s' = s_user_b s
  /\ s_status s' = s_status s /\ s_is_active s' = s_is_active s
  /\ s_last_message_at s' = s_last_message_at s
  /\ s_reminder_sent_at s' = s_reminder_sent_at s
  /\ s_created_at s' = s_created_at s /\ s_name s' = s_name s
  /\ s_style s' = s_style s /\ s_is_public s' = s_is_public s
  /\ s_max_viewers s' = s_max_viewers s.

(** The same for every column carried but [max_viewers]. *)
Definition same_columns_but_max_viewers (s s' : rp_session) : Prop :=
  s_id s' = s_id s /\ s_user_a s' = s_user_a s /\ s_user_b s' = s_user_b s
  /\ s_status s' = s_status s /\ s_is_active s' = s_is_active s
  /\ s_last_message_at s' = s_last_message_at s
  /\ s_reminder_sent_at s' = s_reminder_sent_at s
  /\ s_created_at s' = s_created_at s /\ s_name s' = s_name s
  /\ s_style s' = s_style s /\ s_is_public s' = s_is_public s.

Definition with_last_seen (t : timestamptz) (v : rp_session_viewer) :=
  mk_rp_session_viewer (v_session_id v) (v_user_id v) (v_joined_at v) t.

(** [CHECK (status IN ('active', 'closed'))]. *)
Definition rp_sessions_status_check (s : rp_session) : bool :=
  String.eqb (s_status s) "active" || String.eqb (s_status s) "closed".

(** [CHECK (message_type IN ('ooc', 'narration'))]. *)
Definition rp_session_messages_message_type_check
    (m : rp_session_message) : bool :=
  String.eqb (m_message_type m) "ooc" || String.eqb (m_message_type m) "narration".

(** [REFERENCES public.rp_sessions(id)]. *)
Definition references_rp_sessions (db : database) (sid : uuid) : bool :=
  existsb (fun s => String.eqb (s_id s) sid) (rp_sessions db).

(** [UNIQUE(session_id, user_id)] on [rp_session_viewers]. *)
Definition viewer_key (v : rp_session_viewer) : uuid * uuid :=
  (v_session_id v, v_user_id v).

Definition same_viewer_key (sid uid : uuid) (v : rp_session_viewer) : bool :=
  String.eqb (v_session_id v) sid && String.eqb (v_user_id v) uid.

End Schema.
Import Schema.

(* ================================================================== *)
(** ** Row-level-security policies *)
(* ================================================================== *)

Module Policies.

Definition is_participant (uid : option uuid) (s : rp_session) : bool :=
  uid_is uid (s_user_a s) || uid_is uid (s_user_b s).

(** ["rp_sessions_select_participants"] or ["Anyone can view public
    sessions"]: permissive policies of one command are OR-ed. *)
Definition rp_sessions_select (uid : option uuid) (s : rp_session) : bool :=
  is_participant uid s || s_is_public s.

(** ["rp_sessions_insert_participants"]. *)
Definition rp_sessions_insert_participants := is_participant.

(** ["rp_sessions_update_participants"]: the same expression is both the
    USING clause (on the stored row) and the WITH CHECK clause (on the new
    row). *)
Definition rp_sessions_update_participants := is_participant.

(** The rows of [rp_sessions] a query run for [uid] can see. *)
Definition visible_rp_sessions (uid : option uuid) (db : database) :=
  filter (rp_sessions_select uid) (rp_sessions db).

(** ["rp_session_messages_select_participants"] as redefined by the viewers
    migration; the inner SELECT reads [rp_sessions] through its own
    policies. *)
Definition rp_session_messages_select (uid : option uuid) (db : database)
    (m : rp_session_message) : bool :=
  existsb (fun s => String.eqb (s_id s) (m_session_id m)
                    && (is_participant uid s || s_is_public s))
          (visible_rp_sessions uid db).

Definition visible_rp_session_messages (uid : option uuid) (db : database) :=
  filter (rp_session_messages_select uid db) (rp_session_messages db).

(** ["rp_session_messages_insert_sender"]. *)
Definition rp_session_messages_insert_sender (uid : option uuid)
    (db : database) (m : rp_session_message) : bool :=
  uid_is uid (m_sender_id m)
  && existsb (fun s => String.eqb (s_id s) (m_session_id m) && is_participant uid s)
             (visible_rp_sessions uid db).


(** ["rp_response_times_insert_trigger"]: [WITH CHECK (true)]. *)
Definition rp_response_times_insert_trigger (uid : option uuid)
    (r : rp_response_time) : bool := true.

(** ["Anyone can view session viewers"]. *)
Definition rp_session_viewers_select (uid : option uuid) (db : database)
    (v : rp_session_viewer) : bool :=
  existsb (fun s => String.eqb (s_id s) (v_session_id v) && s_is_public s)
          (visible_rp_sessions uid db)
  || existsb (fun s => String.eqb (s_id s) (v_session_id v) && is_participant uid s)
             (visible_rp_sessions uid db).

Definition visible_rp_session_viewers (uid : option uuid) (db : database) :=
  filter (rp_session_viewers_select uid db) (rp_session_viewers db).

(** ["Users can join as viewers"], ["Users can update their viewer status"]
    (USING and WITH CHECK alike) and ["Users can leave session view"]. *)
Definition viewer_is_self (uid : option uuid) (v : rp_session_viewer) : bool :=
  uid_is uid (v_user_id v).

End Policies.
Import Policies.

(* ================================================================== *)
(** ** Statements and trigger functions *)
(* ================================================================== *)

Module Triggers.

(** [UPDATE public.rp_sessions SET ... WHERE ...] run for [uid]. The rows
    touched are those the WHERE clause selects among the rows the SELECT and
    UPDATE policies let [uid] see; the others are silently skipped. Each new
    row must pass the policy's WITH CHECK and the table's CHECK constraint. *)
Definition update_target (uid : option uuid) (where_ : rp_session -> bool)
    (s : rp_session) : bool :=
  where_ s && rp_sessions_select uid s && rp_sessions_update_participants uid s.

Definition update_rp_sessions (uid : option uuid) (where_ : rp_session -> bool)
    (set : rp_session -> rp_session) (db : database) : result database :=
  let targets := filter (update_target uid where_) (rp_sessions db) in
  if negb (forallb (fun s => rp_sessions_update_participants uid (set s)) targets)
  then Raise insufficient_privilege
  else if negb (forallb (fun s => rp_sessions_status_check (set s)) targets)
  then Raise check_violation
  else Ok (set_rp_sessions db
             (map (fun s => if update_target uid where_ s then set s else s)
                  (rp_sessions db))).

(** [INSERT INTO public.rp_sessions]. *)
Definition insert_rp_session (uid : option uuid) (NEW : rp_session)
    (db : database) : result database :=
  if negb (rp_sessions_status_check NEW) then Raise check_violation
  else if existsb (fun s => String.eqb (s_id s) (s_id NEW)) (rp_sessions db)
  then Raise unique_violation
  else if negb (rp_sessions_insert_participants uid NEW)
  then Raise insufficient_privilege
  else Ok (set_rp_sessions db (rp_sessions db ++ [NEW])).

(** [prev_message IS NOT NULL] on a RECORD variable: a row value is
    [IS NOT NULL] only when every one of its fields is non-null. After
    [SELECT * INTO] the fields are the table's eight columns; the six
    declared NOT NULL always hold a value, [character_id] and [edited_at]
    may not. A record left unassigned by an empty result is all-null. *)
Definition record_is_not_null (r : option rp_session_message) : bool :=
  match r with
  | None => false
  | Some m =>
      match m_character_id m, m_edited_at m with
      | Some _, Some _ => true
      | _, _ => false
      end
  end.

(** The rows the trigger's inner SELECT for the previous message ranges
    over. *)
Definition earlier_from_other (NEW m : rp_session_message) : bool :=
  String.eqb (m_session_id m) (m_session_id NEW)
  && negb (String.eqb (m_sender_id m) (m_sender_id NEW))
  && (m_created_at m <? m_created_at NEW).

(** [calculate_response_time()], fired AFTER INSERT on
    [rp_session_messages] FOR EACH ROW; [db] already holds [NEW]. The
    function is SECURITY INVOKER, so its statements run for the inserting
    user [uid]. *)
Definition calculate_response_time (uid : option uuid)
    (NEW : rp_session_message) (db : database) : result database :=
  let session_is_active :=
    select_into
      (map s_is_active
         (filter (fun s => String.eqb (s_id s) (m_session_id NEW))
                 (visible_rp_sessions uid db))) in
  db1 <- match session_is_active with
         | Some true =>
             let prev_message :=
               select_into
                 (limit 1
                    (order_by_desc m_created_at
                       (filter (earlier_from_other NEW)
                               (visible_rp_session_messages uid db)))) in
             match prev_message with
             | Some prev =>
                 if record_is_not_null prev_message then
                   response_seconds <-
                     to_integer (round_seconds (m_created_at NEW - m_created_at prev)) ;;
                   let row := mk_rp_response_time (m_sender_id NEW)
                                (m_session_id NEW) response_seconds in
                   if rp_response_times_insert_trigger uid row
                   then Ok (set_rp_response_times db (rp_response_times db ++ [row]))
                   else Raise insufficient_privilege
                 else Ok db
             | None => Ok db
             end
         | _ => Ok db
         end ;;
  update_rp_sessions uid
    (fun s => String.eqb (s_id s) (m_session_id NEW))
    (with_last_message_at (Some (m_created_at NEW))) db1.

(** [INSERT INTO public.rp_session_messages] run for [uid]: constraints,
    the insert policy, then the row trigger. *)
Definition insert_rp_session_message (uid : option uuid)
    (NEW : rp_session_message) (db : database) : result database :=
  if negb (rp_session_messages_message_type_check NEW) then Raise check_violation
  else if negb (references_rp_sessions db (m_session_id NEW))
  then Raise foreign_key_violation
  else if negb (rp_session_messages_insert_sender uid db NEW)
  then Raise insufficient_privilege
  else calculate_response_time uid NEW
         (set_rp_session_messages db (rp_session_messages db ++ [NEW])).



(** [update_session_max_viewers()], fired AFTER INSERT and AFTER UPDATE on
    [rp_session_viewers]. [session_uuid] is
    [COALESCE(NEW.session_id, OLD.session_id)]. The function is SECURITY
    INVOKER: both SELECTs and the UPDATE go through the policies of the user
    whose statement fired the trigger. A NULL [current_max_viewers] (no
    visible session row) makes the comparison NULL and the IF is skipped. *)
Definition update_session_max_viewers (uid : option uuid)
    (NEW OLD : option rp_session_viewer) (db : database) : result database :=
  let session_uuid :=
    match NEW with
    | Some n => Some (v_session_id n)
    | None => option_map v_session_id OLD
    end in
  match session_uuid with
  | None => Ok db
  | Some sid =>
      let current_viewer_count :=
        Z.of_nat (List.length (filter (fun v => String.eqb (v_session_id v) sid)
                                 (visible_rp_session_viewers uid db))) in
      let current_max_viewers :=
        select_into
          (map (fun s => match s_max_viewers s with Some n => n | None => 0 end)
               (filter (fun s => String.eqb (s_id s) sid)
                       (visible_rp_sessions uid db))) in
      match current_max_viewers with
      | Some cur =>
          if current_viewer_count >? cur then
            update_rp_sessions uid (fun s => String.eqb (s_id s) sid)
              (with_max_viewers (Some current_viewer_count)) db
          else Ok db
      | None => Ok db
      end
  end.

(** [INSERT INTO public.rp_session_viewers] run for [uid]. *)
Definition insert_rp_session_viewer (uid : option uuid)
    (NEW : rp_session_viewer) (db : database) : result database :=
  if negb (viewer_is_self uid NEW) then Raise insufficient_privilege
  else if negb (references_rp_sessions db (v_session_id NEW))
  then Raise foreign_key_violation
  else if existsb (same_viewer_key (v_session_id NEW) (v_user_id NEW))
                  (rp_session_viewers db)
  then Raise unique_violation
  else update_session_max_viewers uid (Some NEW) None
         (set_rp_session_viewers db (rp_session_viewers db ++ [NEW])).

(** The row triggers of an UPDATE, one per changed row and only
    [WHEN (OLD.last_seen IS DISTINCT FROM NEW.last_seen)]. *)
Fixpoint fire_update_triggers (uid : option uuid)
    (changed : list (rp_session_viewer * rp_session_viewer))
    (db : database) : result database :=
  match changed with
  | [] => Ok db
  | (old, new) :: rest =>
      db1 <- (if v_last_seen old =? v_last_seen new then Ok db
              else update_session_max_viewers uid (Some new) (Some old) db) ;;
      fire_update_triggers uid rest db1
  end.

(** [UPDATE public.rp_session_viewers SET last_seen = t WHERE session_id =
    sid AND user_id = who] run for [uid]. *)
Definition viewer_update_target (uid : option uuid) (db : database)
    (sid who : uuid) (v : rp_session_viewer) : bool :=
  same_viewer_key sid who v
  && rp_session_viewers_select uid db v && viewer_is_self uid v.

Definition update_rp_session_viewer_last_seen (uid : option uuid)
    (sid who : uuid) (t : timestamptz) (db : database) : result database :=
  let hit := viewer_update_target uid db sid who in
  let changed :=
    map (fun v => (v, with_last_seen t v)) (filter hit (rp_session_viewers db)) in
  fire_update_triggers uid changed
    (set_rp_session_viewers db
       (map (fun v => if hit v then with_last_seen t v else v)
            (rp_session_viewers db))).

(** PostgREST's [upsert(row, { onConflict: "session_id,user_id" })]:
    [INSERT ... ON CONFLICT (session_id, user_id) DO UPDATE SET] the columns
    sent. The insert policy is checked on the proposed row in either case;
    it is also what the update policy asks of the existing row, which has
    the same [user_id]. Because [ON CONFLICT DO UPDATE] reads the table,
    the SELECT policy is applied as a check too: to the proposed row and,
    on the conflict path, to the existing row and its new version, which
    all carry the same [session_id]; a row the user could not read back
    makes the statement fail. [joined_at] comes from its default [NOW()]
    on the insert path only. *)
Definition upsert_rp_session_viewer (uid : option uuid) (sid who : uuid)
    (last_seen now : timestamptz) (db : database) : result database :=
  let proposed := mk_rp_session_viewer sid who now last_seen in
  if negb (viewer_is_self uid proposed) then Raise insufficient_privilege
  else if negb (rp_session_viewers_select uid db proposed)
  then Raise insufficient_privilege
  else if existsb (same_viewer_key sid who) (rp_session_viewers db) then
    let changed :=
      map (fun v => (v, with_last_seen last_seen v))
          (filter (same_viewer_key sid who) (rp_session_viewers db)) in
    fire_update_triggers uid changed
      (set_rp_session_viewers db
         (map (fun v => if same_viewer_key sid who v
                        then with_last_seen last_seen v else v)
              (rp_session_viewers db)))
  else insert_rp_session_viewer uid proposed db.

(** [DELETE FROM public.rp_session_viewers WHERE session_id = sid AND
    user_id = who] run for [uid]; no trigger is attached to DELETE. *)
Definition delete_rp_session_viewer (uid : option uuid) (sid who : uuid)
    (db : database) : database :=
  set_rp_session_viewers db
    (filter (fun v => negb (same_viewer_key sid who v
                            && rp_session_viewers_select uid db v
                            && viewer_is_self uid v))
            (rp_session_viewers db)).

End Triggers.
Import Triggers.

(* ================================================================== *)
(** ** The session page, [app/session/[sessionId]/page.tsx] *)
(* ================================================================== *)

Module SessionPage.

(** The outcome of [supabase.auth.getUser()]. *)
Inductive getUser_result : Type :=
  | AuthError (message : string)
  | NoUser
  | User (id : uuid).

Definition truthy (s : option string) : bool :=
  match s with
  | Some EmptyString => false
  | Some _ => true
  | None => false
  end.

(** [type Viewer]. *)
Record Viewer : Type := mk_Viewer {
  viewer_user_id : uuid;
  viewer_name : string;
  viewer_portrait_url : option string;
  viewer_joined_at : timestamptz
}.

(** The React state of the page that the modelled functions set, and the
    address [window.location.href] was last sent to. *)
Record page_state : Type := mk_page_state {
  me : option uuid;
  loading : bool;
  error : option string;
  session : option rp_session;
  messages : list rp_session_message;
  isPublicView : bool;
  maxViewers : Z;
  location_href : option string
}.

Definition initial_state : page_state :=
  mk_page_state None true None None [] false 0 None.

(** The participant check of [load] (the block commented "Check if this is
    a public view"), on the row the session query returned. *)
Inductive access : Type :=
  | AsParticipant
  | AsPublicView
  | NoAccess            (* "You don't have access to this session" *)
  | LoginRequired.      (* "You need to be logged in to view this session" *)

Definition access_check (userId : option uuid) (sessionData : rp_session)
    : access :=
  match userId with
  | Some u =>
      let isParticipant :=
        String.eqb (s_user_a sessionData) u || String.eqb (s_user_b sessionData) u in
      if negb isParticipant then
        if s_is_public sessionData then AsPublicView else NoAccess
      else AsParticipant
  | None =>
      if s_is_public sessionData then AsPublicView else LoginRequired
  end.

(** [upsert] into [rp_session_reads] on conflict [session_id,user_id]. *)
Definition upsert_read_mark (sid uid : uuid) (t : timestamptz) (mid : uuid)
    (reads : list read_mark) : list read_mark :=
  let same r := String.eqb (rd_thread_id r) sid && String.eqb (rd_user_id r) uid in
  let row := mk_read_mark sid uid (Some t) (Some mid) in
  if existsb same reads
  then map (fun r => if same r then row else r) reads
  else reads ++ [row].

Definition set_rp_session_reads (db : database) (rows : list read_mark) :=
  mk_database (rp_sessions db) (rp_session_messages db) (rp_response_times db)
    (rp_session_viewers db) (writers db) rows.

(** [load()] of the page's main effect, with the component mounted. The
    queries are the ones [load] sends, answered by the database for the
    signed-in user. The writer, character and feedback look-ups that only
    decorate the header and the message rows are not modelled. Every
    request is taken to be answered: the branch for a failed messages
    query ([messagesError]) and the [catch] around [getUser], which put
    the failure's own message into [error], are not modelled either. *)
Definition load (getUser : getUser_result) (sessionId : uuid)
    (now : timestamptz) (db : database) (st : page_state)
    : page_state * database :=
  let st := mk_page_state (me st) true None (session st) (messages st)
              (isPublicView st) (maxViewers st) (location_href st) in
  match getUser with
  | AuthError message =>
      let msg := if truthy (Some message) then message
                 else "Failed to authenticate. Please check your connection and try again." in
      (mk_page_state (me st) false (Some msg) (session st) (messages st)
         (isPublicView st) (maxViewers st) (Some "/login"), db)
  | NoUser =>
      (mk_page_state (me st) (loading st) (error st) (session st) (messages st)
         (isPublicView st) (maxViewers st) (Some "/login"), db)
  | User userId =>
      let uid := Some userId in
      let sessionData :=
        single (filter (fun s => String.eqb (s_id s) sessionId)
                       (visible_rp_sessions uid db)) in
      match sessionData with
      | None =>
          (mk_page_state uid false (Some "Session not found") (session st)
             (messages st) (isPublicView st) (maxViewers st) (location_href st), db)
      | Some sessionData =>
          match access_check uid sessionData with
          | NoAccess =>
              (mk_page_state uid false (Some "You don't have access to this session")
                 (session st) (messages st) (isPublicView st) (maxViewers st)
                 (location_href st), db)
          | LoginRequired =>
              (mk_page_state uid false
                 (Some "You need to be logged in to view this session")
                 (session st) (messages st) (isPublicView st) (maxViewers st)
                 (Some "/login"), db)
          | granted =>
              let public :=
                match granted with AsPublicView => true | _ => isPublicView st end in
              let messagesData :=
                order_by_asc m_created_at
                  (filter (fun m => String.eqb (m_session_id m) sessionId)
                          (visible_rp_session_messages uid db)) in
              let db' :=
                match hd_error (rev messagesData) with
                | Some latestMessage =>
                    set_rp_session_reads db
                      (upsert_read_mark sessionId userId now (m_id latestMessage)
                         (rp_session_reads db))
                | None => db
                end in
              (mk_page_state uid false None (Some sessionData) messagesData public
                 (match s_max_viewers sessionData with
                  | Some n => n
                  | None => 0
                  end)
                 (location_href st), db')
          end
      end
  end.

(** [checkInactivity] inside the inactivity effect, which first returns
    when there is no session, no user or the session is paused. [now] and
    [now'] are the two successive readings of the clock. The quotient
    [(now - lastMessageTime) / (1000 * 60)] is a double; for the integer
    millisecond counts of [getTime] it is at least 5 exactly when the
    difference is at least [5 * (1000 * 60)]. The result tells whether
    [sendInactivityReminder] is called. *)
Definition checkInactivity (session : rp_session)
    (inactivityReminder : option string) (now now' : timestamptz) : bool :=
  match s_last_message_at session with
  | None => false
  | Some lastMessageTime =>
      if (5 * (1000 * 60) <=? now - lastMessageTime)
         && negb (truthy inactivityReminder)
      then
        match s_reminder_sent_at session with
        | None => true
        | Some sent => now' - sent >? 60 * 60 * 1000
        end
      else false
  end.

Definition inactivity_effect (session : option rp_session) (me : option uuid)
    (inactivityReminder : option string) (now now' : timestamptz) : bool :=
  match session, me with
  | Some s, Some _ =>
      if s_is_active s then checkInactivity s inactivityReminder now now'
      else false
  | _, _ => false
  end.

Definition reminderText : string :=
  "⏸️ This session has been inactive for 5 minutes. Consider pausing the session if you'll be away, or let your partner know you'll be back soon!".

(** The row [sendInactivityReminder] inserts; [id] and [created_at] are
    filled in by the column defaults. *)
Definition reminder_message (sessionId me id : uuid) (created_at : timestamptz)
    : rp_session_message :=
  mk_rp_session_message id sessionId me "ooc" reminderText None created_at None.

(** [sendInactivityReminder()]: the new database and the new value of the
    [inactivityReminder] state. [now] is the clock reading taken for
    [reminder_sent_at]. The result of the UPDATE is not inspected. *)
Definition sendInactivityReminder (session : option rp_session)
    (me : option uuid) (sessionId : uuid) (inactivityReminder : option string)
    (id : uuid) (created_at now : timestamptz) (db : database)
    : database * option string :=
  match session, me with
  | Some _, Some u =>
      match insert_rp_session_message me (reminder_message sessionId u id created_at) db with
      | Ok db1 =>
          (or_unchanged
             (update_rp_sessions me (fun s => String.eqb (s_id s) sessionId)
                (with_reminder_sent_at (Some now)) db1) db1,
           Some reminderText)
      | Raise _ => (db, inactivityReminder)
      end
  | _, _ => (db, inactivityReminder)
  end.

(** The name shown for a user: the writer's name, or ["User "] and the
    first eight characters of the id. *)
Definition display_writer (db : database) (user_id : uuid)
    : string * option string :=
  let writer := maybeSingle (filter (fun w => String.eqb (w_user_id w) user_id)
                                    (writers db)) in
  (match writer with
   | Some w => if truthy (Some (w_name w)) then w_name w
               else String.append "User " (substring 0 8 user_id)
   | None => String.append "User " (substring 0 8 user_id)
   end,
   match writer with
   | Some w => if truthy (w_portrait_url w) then w_portrait_url w else None
   | None => None
   end).

(** [loadViewers()] of the viewer-tracking effect: the list handed to
    [setViewers]. [now] is [Date.now()]. *)
Definition loadViewers (me : option uuid) (session : rp_session)
    (sessionId : uuid) (now : timestamptz) (db : database) : list Viewer :=
  let twoMinutesAgo := now - 2 * 60 * 1000 in
  let viewersData :=
    limit 20
      (order_by_desc v_joined_at
         (filter (fun v => String.eqb (v_session_id v) sessionId
                           && (twoMinutesAgo <=? v_last_seen v))
                 (visible_rp_session_viewers me db))) in
  match viewersData with
  | [] => []
  | _ =>
      let viewersWithDetails :=
        map (fun v => mk_Viewer (v_user_id v)
                        (fst (display_writer db (v_user_id v)))
                        (snd (display_writer db (v_user_id v)))
                        (v_joined_at v))
            viewersData in
      let nonParticipantViewers :=
        filter (fun viewer =>
                  negb (String.eqb (viewer_user_id viewer) (s_user_a session))
                  && negb (String.eqb (viewer_user_id viewer) (s_user_b session)))
               viewersWithDetails in
      let sorted :=
        stable_sort (fun a b => viewer_joined_at b - viewer_joined_at a)
                    nonParticipantViewers in
      firstn 10 sorted
  end.

(** The viewer list in the words of the specification: of the session's
    viewer rows seen within the past two minutes and not belonging to
    [user_a] or [user_b], the ten that joined last, latest first. *)
Definition viewer_of (db : database) (v : rp_session_viewer) : Viewer :=
  mk_Viewer (v_user_id v) (fst (display_writer db (v_user_id v)))
    (snd (display_writer db (v_user_id v))) (v_joined_at v).

Definition active_spectator (session : rp_session) (sessionId : uuid)
    (now : timestamptz) (v : rp_session_viewer) : bool :=
  (String.eqb (v_session_id v) sessionId && (now - 2 * 60 * 1000 <=? v_last_seen v))
  && (negb (String.eqb (v_user_id v) (s_user_a session))
      && negb (String.eqb (v_user_id v) (s_user_b session))).

Definition viewer_list_spec (session : rp_session) (sessionId : uuid)
    (now : timestamptz) (db : database) : list Viewer :=
  map (viewer_of db)
      (firstn 10
         (order_by_desc v_joined_at
            (filter (active_spectator session sessionId now)
                    (rp_session_viewers db)))).

(** [trackViewer()]: returns at once without a user; otherwise upserts the
    viewer row ([now] is the client clock, [db_now] the server's [NOW()]). *)
Definition trackViewer (me : option uuid) (sessionId : uuid)
    (now db_now : timestamptz) (db : database) : database :=
  match me with
  | None => db
  | Some u =>
      or_unchanged (upsert_rp_session_viewer me sessionId u now db_now db) db
  end.

(** The heartbeat [trackViewer] installs with [setInterval(..., 30000)]. *)
Definition heartbeat_interval : Z := 30000.

Definition heartbeat (me : option uuid) (mounted : bool) (sessionId : uuid)
    (now : timestamptz) (db : database) : database :=
  match me with
  | Some u =>
      if mounted then
        or_unchanged (update_rp_session_viewer_last_seen me sessionId u now db) db
      else db
  | None => db
  end.

(** An interval timer armed at [t0] fires for the [n]-th time at
    [t0 + n * delay] (timers taken as exact). [heartbeats n] is the database
    after the first [n] firings of the heartbeat, each of which writes the
    clock reading of its firing. *)
Definition fires_at (t0 delay : Z) (n : nat) : Z := t0 + Z.of_nat n * delay.

Fixpoint heartbeats (me : option uuid) (sessionId : uuid) (t0 : timestamptz)
    (n : nat) (db : database) : database :=
  match n with
  | O => db
  | S k =>
      heartbeat me true sessionId (fires_at t0 heartbeat_interval (S k))
        (heartbeats me sessionId t0 k db)
  end.

(** The cleanup of the viewer effect: the row is deleted for a signed-in
    user only. *)
Definition viewer_cleanup (me : option uuid) (sessionId : uuid)
    (db : database) : database :=
  match me with
  | Some u => delete_rp_session_viewer me sessionId u db
  | None => db
  end.

End SessionPage.

(* ================================================================== *)
(** ** Unread counts of the two inbox pages *)
(* ================================================================== *)

Module Inbox.

(** [count || 0] on the [count] of a [{ count: "exact", head: true }]
    query. *)
Definition or_zero (count : option Z) : Z :=
  match count with
  | Some n => if n =? 0 then 0 else n
  | None => 0
  end.

Definition count_exact {A : Type} (rows : list A) : option Z :=
  Some (Z.of_nat (List.length rows)).

Section Unread.
Context {M : Type}.
Variables (thread_of sender_of : M -> uuid) (created_at : M -> timestamptz).

(** The block "Get last read timestamp from read tracking table" with the
    two counting queries that follow it; the sessions page and the DM
    inbox run it on [rp_session_messages]/[rp_session_reads] and on
    [dm_messages]/[dm_thread_reads]. *)
Definition unread_count (messages : list M) (reads : list read_mark)
    (thread me otherUserId : uuid) : Z :=
  let readData :=
    maybeSingle
      (filter (fun r => String.eqb (rd_thread_id r) thread
                        && String.eqb (rd_user_id r) me) reads) in
  match readData with
  | Some (mk_read_mark _ _ (Some last_read_at) _) =>
      or_zero (count_exact
        (filter (fun m => String.eqb (thread_of m) thread
                          && String.eqb (sender_of m) otherUserId
                          && (created_at m >? last_read_at)) messages))
  | _ =>
      or_zero (count_exact
        (filter (fun m => String.eqb (thread_of m) thread
                          && String.eqb (sender_of m) otherUserId) messages))
  end.

(** The count in the words of the specification: the messages of the
    other user newer than the watermark of a read record that has one,
    and all messages of the other user when there is no such record. *)
Definition unread_count_spec (messages : list M) (reads : list read_mark)
    (thread me otherUserId : uuid) : Z :=
  let from_other m :=
    String.eqb (thread_of m) thread && String.eqb (sender_of m) otherUserId in
  match find (fun r => String.eqb (rd_thread_id r) thread
                       && String.eqb (rd_user_id r) me
                       && match rd_last_read_at r with
                          | Some _ => true
                          | None => false
                          end) reads with
  | Some r =>
      match rd_last_read_at r with
      | Some watermark =>
          Z.of_nat (List.length
            (filter (fun m => from_other m && (watermark <? created_at m)) messages))
      | None => Z.of_nat (List.length (filter from_other messages))
      end
  | None => Z.of_nat (List.length (filter from_other messages))
  end.
End Unread.

(** The conflict target of the read-mark upserts: one row for each thread
    (or session) and user. *)
Definition read_key (r : read_mark) : uuid * uuid :=
  (rd_thread_id r, rd_user_id r).

End Inbox.

(* ================================================================== *)
(** ** The sessions page *)
(* ================================================================== *)

Module SessionsPage.

Record other_user : Type := mk_other_user {
  ou_id : uuid;
  ou_name : string;
  ou_email : string;
  ou_portrait_url : option string
}.

(** [type Session] of the page; [status] is annotated
    ["active" | "paused" | "closed"] but holds whatever the column holds. *)
Record Session : Type := mk_Session {
  id : uuid;
  user_a : uuid;
  user_b : uuid;
  status : string;
  created_at : timestamptz;
  last_message_at : option timestamptz;
  name : option string;
  other : other_user;
  latest_message : option rp_session_message;
  unread_count : Z
}.

(** One element of [sessionsWithDetails]. *)
Definition with_details (userId : uuid) (db : database) (s : rp_session)
    : Session :=
  let uid := Some userId in
  let otherUserId :=
    if String.eqb (s_user_a s) userId then s_user_b s else s_user_a s in
  let w := SessionPage.display_writer db otherUserId in
  let latestMsg :=
    maybeSingle
      (limit 1 (order_by_desc m_created_at
                  (filter (fun m => String.eqb (m_session_id m) (s_id s))
                          (visible_rp_session_messages uid db)))) in
  mk_Session (s_id s) (s_user_a s) (s_user_b s) (s_status s) (s_created_at s)
    (s_last_message_at s) (s_name s)
    (mk_other_user otherUserId (fst w) (fst w) (snd w))
    latestMsg
    (Inbox.unread_count m_session_id m_sender_id m_created_at
       (visible_rp_session_messages uid db) (rp_session_reads db)
       (s_id s) userId otherUserId).

Definition is_open (st : string) : bool :=
  String.eqb st "active" || String.eqb st "paused".

Definition activity_time (a : Session) : Z :=
  match last_message_at a with
  | Some t => t
  | None =>
      match latest_message a with
      | Some m => m_created_at m
      | None => created_at a
      end
  end.

(** The comparator handed to [sessionsWithDetails.sort]. *)
Definition compare_sessions (a b : Session) : Z :=
  if is_open (status a) && String.eqb (status b) "closed" then -1
  else if String.eqb (status a) "closed" && is_open (status b) then 1
  else if is_open (status a) && is_open (status b)
  then activity_time b - activity_time a
  else if String.eqb (status a) "closed" && String.eqb (status b) "closed"
  then created_at b - created_at a
  else 0.

(** [load()]: the new value of the [sessions] state ([sessions] is the
    value before). *)
Definition load (getUser : SessionPage.getUser_result) (db : database)
    (sessions : list Session) : list Session :=
  match getUser with
  | SessionPage.User userId =>
      let sessionsData :=
        order_by_desc s_created_at
          (filter (fun s => String.eqb (s_user_a s) userId
                            || String.eqb (s_user_b s) userId)
                  (visible_rp_sessions (Some userId) db)) in
      match sessionsData with
      | [] => []
      | _ => stable_sort compare_sessions (map (with_details userId db) sessionsData)
      end
  | _ => sessions
  end.

(** [filteredSessions] for the filter chosen with the buttons. *)
Definition filteredSessions (filter_ : string) (sessions : list Session)
    : list Session :=
  filter (fun session =>
            if String.eqb filter_ "all" then true
            else String.eqb (status session) filter_)
         sessions.

(** The number shown on the "Paused" button. *)
Definition paused_count (sessions : list Session) : nat :=
  List.length (filter (fun s => String.eqb (status s) "paused") sessions).

End SessionsPage.

(* ================================================================== *)
(** ** Direct messages: the inbox and [openDmWith] *)
(* ================================================================== *)

Module Dm.

(** Modelled from the spec: the tables [dm_threads], [dm_messages] and
    [dm_thread_reads] and their policies are declared outside the SQL files
    at hand. Each list holds the rows of its table that the signed-in
    user's queries can see. *)
Record dm_database : Type := mk_dm_database {
  dm_threads : list dm_thread;
  dm_messages : list dm_message;
  dm_thread_reads : list read_mark
}.

Record ThreadWithLatest : Type := mk_ThreadWithLatest {
  id : uuid;
  user_a : uuid;
  user_b : uuid;
  created_at : timestamptz;
  other_user_id : uuid;
  other_user_email : string;
  other_user_portrait_url : option string;
  latest_message : option dm_message;
  unread_count : Z
}.

Definition with_details (me : uuid) (db : database) (dm : dm_database)
    (thread : dm_thread) : ThreadWithLatest :=
  let otherUserId :=
    if String.eqb (t_user_a thread) me then t_user_b thread else t_user_a thread in
  let w := SessionPage.display_writer db otherUserId in
  let latestMsg :=
    single
      (limit 1 (order_by_desc dm_created_at
                  (filter (fun m => String.eqb (dm_thread_id m) (t_id thread))
                          (dm_messages dm)))) in
  mk_ThreadWithLatest (t_id thread) (t_user_a thread) (t_user_b thread)
    (t_created_at thread) otherUserId (fst w) (snd w) latestMsg
    (Inbox.unread_count dm_thread_id dm_sender_id dm_created_at
       (dm_messages dm) (dm_thread_reads dm) (t_id thread) me otherUserId).

(** The comparator of the inbox: threads without messages go last. *)
Definition compare_threads (a b : ThreadWithLatest) : Z :=
  match latest_message a, latest_message b with
  | None, None => 0
  | None, Some _ => 1
  | Some _, None => -1
  | Some ma, Some mb => dm_created_at mb - dm_created_at ma
  end.

(** [load()] of the DM inbox: the new value of the [threads] state. *)
Definition load (getUser : SessionPage.getUser_result) (db : database)
    (dm : dm_database) (threads : list ThreadWithLatest)
    : list ThreadWithLatest :=
  match getUser with
  | SessionPage.User me =>
      let threadsData :=
        order_by_desc t_created_at
          (filter (fun t => String.eqb (t_user_a t) me || String.eqb (t_user_b t) me)
                  (dm_threads dm)) in
      match threadsData with
      | [] => []
      | _ => stable_sort compare_threads (map (with_details me db dm) threadsData)
      end
  | _ => threads
  end.

(** What an [async] function ends with. *)
Inductive promise (A : Type) : Type :=
  | Returned (a : A)
  | Thrown (message : string).
Arguments Returned {A} a.
Arguments Thrown {A} message.

(** The filter [or(and(user_a.eq.me,user_b.eq.other),
    and(user_a.eq.other,user_b.eq.me))]. *)
Definition links (me otherUserId : uuid) (t : dm_thread) : bool :=
  (String.eqb (t_user_a t) me && String.eqb (t_user_b t) otherUserId)
  || (String.eqb (t_user_a t) otherUserId && String.eqb (t_user_b t) me).

(** [openDmWith(otherUserId)]. [fresh] and [now] are the [id] and
    [created_at] the column defaults give a new row; [insertErr] is the
    error, if any, with which the database answers the insert. *)
Definition openDmWith (getUser : SessionPage.getUser_result)
    (otherUserId fresh : uuid) (now : timestamptz) (insertErr : option string)
    (threads : list dm_thread) : promise uuid * list dm_thread :=
  match getUser with
  | SessionPage.AuthError message => (Thrown message, threads)
  | SessionPage.NoUser => (Thrown "Not authenticated", threads)
  | SessionPage.User me =>
      let existing :=
        limit 1 (order_by_desc t_created_at (filter (links me otherUserId) threads)) in
      match existing with
      | t :: _ => (Returned (t_id t), threads)
      | [] =>
          match insertErr with
          | Some message => (Thrown message, threads)
          | None =>
              let row := mk_dm_thread fresh me otherUserId now in
              let inserted := limit 1 [row] in
              match inserted with
              | r :: _ => (Returned (t_id r), threads ++ [row])
              | [] => (Thrown "Failed to create DM thread", threads ++ [row])
              end
          end
      end
  end.

End Dm.

(* ================================================================== *)
(** ** Histories of the database *)
(* ================================================================== *)

Module History.

(** The column sets the client sends in its [update]s of [rp_sessions]. *)
Inductive rp_sessions_patch : Type :=
  | reminder_sent_at_patch (t : option timestamptz)
      (* { reminder_sent_at: ... } *)
  | is_active_patch (b : bool)
      (* { is_active: newIsActive } *)
  | sent_patch (t : timestamptz)
      (* { last_message_at: ..., reminder_sent_at: null } *)
  | close_patch
      (* { status: "closed", closed_by, closed_at, is_active: false } *)
  | is_public_patch (b : bool)
      (* { is_public: newIsPublic } *)
  | details_patch (name style : option string) (is_public : bool).
      (* { name, style, is_public }, sent when a session is started *)

Definition apply_patch (p : rp_sessions_patch) (s : rp_session) : rp_session :=
  match p with
  | reminder_sent_at_patch t => with_reminder_sent_at t s
  | is_active_patch b => with_is_active b s
  | sent_patch t => with_last_message_at (Some t) (with_reminder_sent_at None s)
  | close_patch => with_status "closed" (with_is_active false s)
  | is_public_patch b => with_is_public b s
  | details_patch name style b => with_name name (with_style style (with_is_public b s))
  end.

(** The statements the application sends to the session tables. The
    policies admit more than these: an UPDATE of [rp_session_messages]
    ([update_rp_session_messages]) and an UPDATE of [rp_sessions] that
    writes [user_a] or [user_b]; the application sends neither, and a
    history holds neither. *)
Inductive statement : Type :=
  | InsertSession (row : rp_session)
  | UpdateSession (sid : uuid) (p : rp_sessions_patch)
  | InsertMessage (row : rp_session_message)
  | InsertViewer (row : rp_session_viewer)
  | UpsertViewer (sid who : uuid) (last_seen now : timestamptz)
  | UpdateViewerLastSeen (sid who : uuid) (t : timestamptz)
  | DeleteViewer (sid who : uuid)
  | UpsertReadMark (sid who : uuid) (t : timestamptz) (mid : uuid).

(** One statement sent by [uid]; a statement that raises changes nothing. *)
Definition run (uid : option uuid) (st : statement) (db : database) : database :=
  match st with
  | InsertSession row => or_unchanged (insert_rp_session uid row db) db
  | UpdateSession sid p =>
      or_unchanged
        (update_rp_sessions uid (fun s => String.eqb (s_id s) sid) (apply_patch p) db) db
  | InsertMessage row => or_unchanged (insert_rp_session_message uid row db) db
  | InsertViewer row => or_unchanged (insert_rp_session_viewer uid row db) db
  | UpsertViewer sid who last_seen now =>
      or_unchanged (upsert_rp_session_viewer uid sid who last_seen now db) db
  | UpdateViewerLastSeen sid who t =>
      or_unchanged (update_rp_session_viewer_last_seen uid sid who t db) db
  | DeleteViewer sid who => delete_rp_session_viewer uid sid who db
  | UpsertReadMark sid who t mid =>
      SessionPage.set_rp_session_reads db
        (SessionPage.upsert_read_mark sid who t mid (rp_session_reads db))
  end.

(** The databases that statements of any users lead to from the empty
    schema. *)
Inductive reachable : database -> Prop :=
  | reach_empty : reachable empty_database
  | reach_run uid st db : reachable db -> reachable (run uid st db).

(** A message row that satisfies its CHECK constraint and whose sender is
    one of the two parties of its session. *)
Definition written_by_party (sessions : list rp_session)
    (m : rp_session_message) : Prop :=
  (m_message_type m = "ooc" \/ m_message_type m = "narration")
  /\ exists s, In s sessions /\ s_id s = m_session_id m
               /\ (m_sender_id m = s_user_a s \/ m_sender_id m = s_user_b s).

(** [s'] is a later version of the row [s]: same id, same two parties. *)
Definition same_parties (s s' : rp_session) : Prop :=
  s_id s' = s_id s /\ s_user_a s' = s_user_a s /\ s_user_b s' = s_user_b s.

(** How a statement may change [rp_sessions]: a row of the new table
    satisfies the status CHECK or carries the status of a row of the old
    table, and every old row has a later version. *)
Definition sessions_evolve (l l' : list rp_session) : Prop :=
  (forall s', In s' l' ->
     rp_sessions_status_check s' = true
     \/ exists s, In s l /\ s_status s' = s_status s)
  /\ (forall s, In s l -> exists s', In s' l' /\ same_parties s s').

(** How a statement may change the two tables together: new message rows
    are written by a party of their session. *)
Definition evolves (db db' : database) : Prop :=
  sessions_evolve (rp_sessions db) (rp_sessions db')
  /\ (forall m, In m (rp_session_messages db') ->
        In m (rp_session_messages db)
        \/ written_by_party (rp_sessions db') m).

(** [COALESCE(max_viewers, 0)]. *)
Definition max_viewers_or_zero (s : rp_session) : Z :=
  match s_max_viewers s with
  | Some n => n
  | None => 0
  end.

(** How the viewer trigger may change [rp_sessions]: row by row, nothing
    but [max_viewers] changes, and that never downwards. *)
Definition raises_max_viewers (l l' : list rp_session) : Prop :=
  exists f, l' = map f l
            /\ forall s, In s l ->
                 with_max_viewers None (f s) = with_max_viewers None s
                 /\ max_viewers_or_zero s <= max_viewers_or_zero (f s).

(** The invariant of the two tables. *)
Definition consistent (db : database) : Prop :=
  Forall (fun s => rp_sessions_status_check s = true) (rp_sessions db)
  /\ Forall (written_by_party (rp_sessions db)) (rp_session_messages db).

End History.
Import History.

(* ================================================================== *)
(** ** Pausing, sending and closing on the session page *)
(* ================================================================== *)

Module SessionActions.
Import SessionPage.

(** [CONSTRAINT unique_active_session UNIQUE (user_a, user_b, status)]:
    no two rows agree on all three columns. *)
Definition same_pair_and_status (s r : rp_session) : bool :=
  String.eqb (s_user_a s) (s_user_a r)
  && String.eqb (s_user_b s) (s_user_b r)
  && String.eqb (s_status s) (s_status r).

Definition pair_and_status (s : rp_session) : uuid * uuid * string :=
  (s_user_a s, s_user_b s, s_status s).

Fixpoint unique_active_session (rows : list rp_session) : bool :=
  match rows with
  | [] => true
  | s :: rest =>
      negb (existsb (same_pair_and_status s) rest) && unique_active_session rest
  end.

(** The constraint is [DEFERRABLE INITIALLY DEFERRED]: it is checked when
    the transaction commits. Each request of the client is a transaction
    of its own, so a request whose statement went through fails all the
    same, and is rolled back, when the table it leaves breaks the
    constraint. *)
Definition commit (r : result database) : result database :=
  db' <- r ;;
  if unique_active_session (rp_sessions db') then Ok db'
  else Raise unique_violation.

Definition setError (e : option string) (st : page_state) : page_state :=
  mk_page_state (me st) (loading st) e (session st) (messages st)
    (isPublicView st) (maxViewers st) (location_href st).

Definition setSession (s : option rp_session) (st : page_state) : page_state :=
  mk_page_state (me st) (loading st) (error st) s (messages st)
    (isPublicView st) (maxViewers st) (location_href st).

(** The state [messageType], of type ["ooc" | "narration"]. *)
Inductive message_type : Type :=
  | ooc
  | narration.

Definition message_type_text (t : message_type) : string :=
  match t with
  | ooc => "ooc"
  | narration => "narration"
  end.

(** The states [text] and [inactivityReminder], which [send] sets beside
    [error] and [session]. *)
Record composer : Type := mk_composer {
  text : string;
  inactivityReminder : option string
}.

Section Requests.

(** [error.message] of a failed request and [String.prototype.trim]. *)
Variable message : sqlstate -> string.
Variable trim : string -> string.

(** [toggleSessionActive()]. *)
Definition toggleSessionActive (sessionId : uuid) (db : database)
    (st : page_state) : page_state * database :=
  match session st, me st with
  | Some session, Some _ =>
      let newIsActive := negb (s_is_active session) in
      match commit (update_rp_sessions (me st)
                      (fun s => String.eqb (s_id s) sessionId)
                      (apply_patch (is_active_patch newIsActive)) db) with
      | Raise e => (setError (Some (message e)) st, db)
      | Ok db' => (setSession (Some (with_is_active newIsActive session)) st, db')
      end
  | _, _ => (st, db)
  end.

(** The row [send] inserts; [id], [created_at] and [edited_at] are filled
    in by the column defaults. *)
Definition sent_message (sessionId me : uuid) (messageType : message_type)
    (body : string) (selectedCharacterId : option uuid) (id : uuid)
    (created_at : timestamptz) : rp_session_message :=
  mk_rp_session_message id sessionId me (message_type_text messageType) body
    (match messageType with
     | narration => selectedCharacterId
     | ooc => None
     end)
    created_at None.

(** [send()]. [id] and [created_at] are the defaults the database gives
    the new row; [now], [now'] and [now''] are the three successive
    readings of the client's clock. The results of the upsert and of the
    final UPDATE are not inspected. *)
Definition send (sessionId : uuid) (messageType : message_type)
    (selectedCharacterId : option uuid) (id : uuid) (created_at : timestamptz)
    (now now' now'' : timestamptz) (db : database) (st : page_state)
    (c : composer) : page_state * composer * database :=
  match me st, session st with
  | Some u, Some session =>
      if String.eqb (trim (text c)) "" then (st, c, db)
      else if String.eqb (s_status session) "closed" then
        (setError (Some "Your session is closed. You cannot send messages.") st,
         c, db)
      else if match messageType with narration => true | ooc => false end
              && negb (s_is_active session) then
        (setError
           (Some "Cannot send narration messages when your session is paused. Please resume first.")
           st,
         c, db)
      else
        let body := text c in
        match commit (insert_rp_session_message (me st)
                        (sent_message sessionId u messageType body
                           selectedCharacterId id created_at) db) with
        | Raise e =>
            (setError (Some (message e)) st,
             mk_composer body (inactivityReminder c), db)
        | Ok db1 =>
            let db2 :=
              set_rp_session_reads db1
                (upsert_read_mark sessionId u now id (rp_session_reads db1)) in
            let db3 :=
              or_unchanged
                (commit (update_rp_sessions (me st)
                           (fun s => String.eqb (s_id s) sessionId)
                           (apply_patch (sent_patch now')) db2)) db2 in
            (setSession
               (Some (with_last_message_at (Some now'')
                        (with_reminder_sent_at None session))) st,
             mk_composer "" None, db3)
        end
  | _, _ => (st, c, db)
  end.

(** [closeSession()], with the value of the state [closing] when it is
    called. The feedback row it may insert afterwards goes to
    [rp_session_feedback], whose failure is ignored; that table is not
    modelled. *)
Definition closeSession (closing : bool) (sessionId : uuid) (db : database)
    (st : page_state) : page_state * database :=
  match me st, session st with
  | Some _, Some session =>
      if closing then (st, db)
      else
        let st := setError None st in
        match commit (update_rp_sessions (me st)
                        (fun s => String.eqb (s_id s) sessionId)
                        (apply_patch close_patch) db) with
        | Raise e => (setError (Some (message e)) st, db)
        | Ok db' =>
            (setSession (Some (with_status "closed" (with_is_active false session)))
               st, db')
        end
  | _, _ => (st, db)
  end.

End Requests.

End SessionActions.

(* ================================================================== *)
(** ** A small scenario *)
(* ================================================================== *)

Module Scenario.

Definition alice : uuid := "a11ce000-0000-4000-8000-000000000001".
Definition bob : uuid := "b0b00000-0000-4000-8000-000000000002".
Definition carol : uuid := "ca401000-0000-4000-8000-000000000003".
Definition tale : uuid := "7a1e0000-0000-4000-8000-00000000000a".
Definition hero : uuid := "4e400000-0000-4000-8000-00000000000c".

(** A public session between alice and bob, as alice creates it. *)
Definition tale_row : rp_session :=
  mk_rp_session tale alice bob "active" true None None 1000 None None true (Some 0).

Definition opened : database := run (Some alice) (InsertSession tale_row) empty_database.

(** Alice's narration, stored at 10 s with a character and an edit stamp,
    and bob's answer 2.6 s later. *)
Definition line1 : rp_session_message :=
  mk_rp_session_message "00000001-0000-4000-8000-000000000000" tale alice
    "narration" "The gate creaks open." (Some hero) 10000 (Some 11000).
Definition line2 : rp_session_message :=
  mk_rp_session_message "00000002-0000-4000-8000-000000000000" tale bob
    "ooc" "brb" None 12600 None.

Definition posted : database := run (Some alice) (InsertMessage line1) opened.
Definition answered : database := run (Some bob) (InsertMessage line2) posted.

(** The session row as the page holds it after bob's answer. *)
Definition tale_now : rp_session := with_last_message_at (Some 12600) tale_row.

Definition reminder_id : uuid := "00000003-0000-4000-8000-000000000000".

(** Alice has read the session up to 12 s. *)
Definition read_by_alice : database :=
  run (Some alice) (UpsertReadMark tale alice 12000 (m_id line1)) answered.

(** Carol opens the public session at 400 s, then alice does at 410 s. *)
Definition watched : database :=
  run (Some carol) (UpsertViewer tale carol 400000 400001) answered.
Definition watched_by_both : database :=
  run (Some alice) (UpsertViewer tale alice 410000 410001) watched.

(** The session row once both have opened the page. *)
Definition tale_watched : rp_session := with_max_viewers (Some 2) tale_now.

(** A DM thread of alice and bob: bob writes at 600 and 700, alice at 650
    and has read up to then. *)
Definition chat : uuid := "c4a70000-0000-4000-8000-00000000000d".
Definition inbox : Dm.dm_database :=
  Dm.mk_dm_database
    [mk_dm_thread chat alice bob 500]
    [mk_dm_message "d0000001-0000-4000-8000-000000000000" chat bob "hi" 600;
     mk_dm_message "d0000002-0000-4000-8000-000000000000" chat alice "hello" 650;
     mk_dm_message "d0000003-0000-4000-8000-000000000000" chat bob "there?" 700]
    [mk_read_mark chat alice (Some 650)
       (Some "d0000002-0000-4000-8000-000000000000")].

(** A second, private session, of carol and dave, beside the first. *)
Definition dave : uuid := "da4e0000-0000-4000-8000-000000000004".
Definition duel : uuid := "d0e10000-0000-4000-8000-00000000000e".
Definition duel_row : rp_session :=
  mk_rp_session duel carol dave "active" true None None 2000 None None false (Some 0).
Definition two_sessions : database :=
  run (Some carol) (InsertSession duel_row) answered.

(** Bob has two more sessions: an older one with carol, closed, and a newer
    one with dave in which nothing has been said yet. *)
Definition feud : uuid := "fe0d0000-0000-4000-8000-00000000000f".
Definition feud_row : rp_session :=
  mk_rp_session feud bob carol "closed" false (Some 900) None 800 None None false
    (Some 0).
Definition pact : uuid := "9ac70000-0000-4000-8000-000000000010".
Definition pact_row : rp_session :=
  mk_rp_session pact dave bob "active" true None None 30000 None None false (Some 0).
Definition busy : database :=
  run (Some dave) (InsertSession pact_row)
    (run (Some bob) (InsertSession feud_row) answered).

End Scenario.

(* ================================================================== *)
(** * Properties *)
(* ================================================================== *)

(** ** Strings and the stable sort *)

Lemma eqb_true (a b : string) : String.eqb a b = true <-> a = b.
Proof. apply String.eqb_eq. Qed.

Lemma eqb_false (a b : string) : String.eqb a b = false <-> a <> b.
Proof. apply String.eqb_neq. Qed.

Lemma uid_is_true (uid : option uuid) (x : uuid) :
  uid_is uid x = true <-> uid = Some x.
Proof.
  destruct uid as [u|]; simpl.
  - rewrite eqb_true. split; intro H; [now subst | now inversion H].
  - split; discriminate.
Qed.

Section StableSortFacts.
Context {A : Type} (cmp : A -> A -> Z).

Lemma insert_sorted_perm (x : A) (l : list A) :
  Permutation (x :: l) (insert_sorted cmp x l).
Proof.
  induction l as [|y l IH]; simpl.
  - apply Permutation_refl.
  - destruct (cmp x y <=? 0).
    + apply Permutation_refl.
    + eapply perm_trans; [apply perm_swap|].
      now apply perm_skip.
Qed.

Lemma stable_sort_perm (l : list A) : Permutation l (stable_sort cmp l).
Proof.
  induction l as [|x l IH]; simpl.
  - constructor.
  - eapply perm_trans; [apply perm_skip, IH|].
    apply insert_sorted_perm.
Qed.

Lemma stable_sort_In (l : list A) (x : A) :
  In x (stable_sort cmp l) <-> In x l.
Proof.
  split; apply Permutation_in;
    [apply Permutation_sym|]; apply stable_sort_perm.
Qed.

Lemma stable_sort_length (l : list A) :
  List.length (stable_sort cmp l) = List.length l.
Proof. symmetry. apply Permutation_length, stable_sort_perm. Qed.
End StableSortFacts.

(** ** Frame lemmas of the statements *)

Lemma update_rp_sessions_Ok uid where_ set db db' :
  update_rp_sessions uid where_ set db = Ok db' ->
  db' = set_rp_sessions db
          (map (fun s => if update_target uid where_ s then set s else s)
               (rp_sessions db))
  /\ forall s, In s (rp_sessions db) -> update_target uid where_ s = true ->
       rp_sessions_status_check (set s) = true
       /\ is_participant uid (set s) = true.
Proof.
  unfold update_rp_sessions.
  destruct (forallb (fun s => rp_sessions_update_participants uid (set s)) _) eqn:Hp;
    simpl; [|discriminate].
  destruct (forallb (fun s => rp_sessions_status_check (set s)) _) eqn:Hc;
    simpl; [|discriminate].
  intros H; inversion H; subst; clear H. split; [reflexivity|].
  intros s Hin Ht.
  rewrite forallb_forall in Hp, Hc.
  assert (Hf : In s (filter (update_target uid where_) (rp_sessions db)))
    by (apply filter_In; auto).
  split; [apply Hc | apply Hp]; exact Hf.
Qed.

Lemma update_rp_sessions_succeeds uid where_ set db :
  (forall s, In s (rp_sessions db) -> update_target uid where_ s = true ->
     rp_sessions_status_check (set s) = true
     /\ is_participant uid (set s) = true) ->
  update_rp_sessions uid where_ set db
  = Ok (set_rp_sessions db
          (map (fun s => if update_target uid where_ s then set s else s)
               (rp_sessions db))).
Proof.
  intros H. unfold update_rp_sessions.
  assert (Hp : forallb (fun s => rp_sessions_update_participants uid (set s))
                 (filter (update_target uid where_) (rp_sessions db)) = true).
  { apply forallb_forall. intros s Hs. apply filter_In in Hs as [Hs Ht].
    apply (H s Hs Ht). }
  assert (Hc : forallb (fun s => rp_sessions_status_check (set s))
                 (filter (update_target uid where_) (rp_sessions db)) = true).
  { apply forallb_forall. intros s Hs. apply filter_In in Hs as [Hs Ht].
    apply (H s Hs Ht). }
  rewrite Hp, Hc. reflexivity.
Qed.

Lemma sessions_evolve_refl l : sessions_evolve l l.
Proof.
  split.
  - intros s Hs. right. now exists s.
  - intros s Hs. exists s. split; [assumption|]. now repeat split.
Qed.

Lemma sessions_evolve_trans l1 l2 l3 :
  sessions_evolve l1 l2 -> sessions_evolve l2 l3 -> sessions_evolve l1 l3.
Proof.
  intros [A1 B1] [A2 B2]. split.
  - intros s3 H3. destruct (A2 s3 H3) as [Hc | [s2 [H2 E2]]]; [now left|].
    destruct (A1 s2 H2) as [Hc | [s1 [H1 E1]]].
    + left. unfold rp_sessions_status_check in *. now rewrite E2.
    + right. exists s1. split; [assumption|]. now rewrite E2.
  - intros s1 H1. destruct (B1 s1 H1) as [s2 [H2 [Ea [Eb Ec]]]].
    destruct (B2 s2 H2) as [s3 [H3 [Fa [Fb Fc]]]].
    exists s3. split; [assumption|].
    repeat split; congruence.
Qed.

Lemma written_by_party_evolve l l' m :
  sessions_evolve l l' -> written_by_party l m -> written_by_party l' m.
Proof.
  intros [_ B] [Ht [s [Hs [Hid Hp]]]]. split; [assumption|].
  destruct (B s Hs) as [s' [Hs' [Ea [Eb Ec]]]].
  exists s'. split; [assumption|]. rewrite Ea, Eb, Ec. auto.
Qed.

Lemma evolves_refl db : evolves db db.
Proof. split; [apply sessions_evolve_refl | auto]. Qed.

Lemma evolves_trans db1 db2 db3 :
  evolves db1 db2 -> evolves db2 db3 -> evolves db1 db3.
Proof.
  intros [S1 M1] [S2 M2]. split.
  - eapply sessions_evolve_trans; eassumption.
  - intros m Hm. destruct (M2 m Hm) as [H2 | Hw]; [|now right].
    destruct (M1 m H2) as [H1 | Hw]; [now left|].
    right. eapply written_by_party_evolve; eassumption.
Qed.

Lemma consistent_evolves db db' :
  consistent db -> evolves db db' -> consistent db'.
Proof.
  intros [Hs Hm] [[A B] M]. rewrite Forall_forall in Hs, Hm. split.
  - apply Forall_forall. intros s' H'.
    destruct (A s' H') as [Hc | [s [Hin E]]]; [assumption|].
    specialize (Hs s Hin). unfold rp_sessions_status_check in *. now rewrite E.
  - apply Forall_forall. intros m H'.
    destruct (M m H') as [Hin | Hw]; [|assumption].
    eapply written_by_party_evolve; [split; eassumption | auto].
Qed.

(** An UPDATE of [rp_sessions] whose SET list leaves [id], [user_a] and
    [user_b] alone. *)
Lemma update_rp_sessions_evolves uid where_ set db db' :
  (forall s, same_parties s (set s)) ->
  update_rp_sessions uid where_ set db = Ok db' ->
  evolves db db'
  /\ rp_session_messages db' = rp_session_messages db
  /\ rp_session_viewers db' = rp_session_viewers db
  /\ rp_response_times db' = rp_response_times db
  /\ rp_session_reads db' = rp_session_reads db
  /\ writers db' = writers db.
Proof.
  intros Hset H. apply update_rp_sessions_Ok in H as [-> Hok].
  simpl. repeat split; auto.
  - intros s' Hs'. apply in_map_iff in Hs' as [s [E Hs]].
    destruct (update_target uid where_ s) eqn:Ht; subst s'.
    + left. apply (Hok s Hs Ht).
    + right. now exists s.
  - intros s Hs.
    exists (if update_target uid where_ s then set s else s). split.
    + apply in_map_iff. now exists s.
    + destruct (update_target uid where_ s); [apply Hset|now repeat split].
Qed.

(** ** [ORDER BY ... DESC] *)

Section OrderByDesc.
Context {A : Type} (key : A -> Z).

Let desc (a b : A) : Prop := key b <= key a.
Let ins := insert_sorted (fun a b : A => key b - key a).

Lemma insert_desc_front (x : A) (l : list A) :
  Forall (desc x) l -> ins x l = x :: l.
Proof.
  unfold ins in *. destruct l as [|y l]; simpl; [reflexivity|].
  intros H. inversion H as [|? ? Hy _]; subst. unfold desc in Hy.
  destruct (key y - key x <=? 0) eqn:E; [reflexivity|].
  apply Z.leb_gt in E. lia.
Qed.

Lemma insert_desc_sorted (x : A) (l : list A) :
  StronglySorted desc l -> StronglySorted desc (ins x l).
Proof.
  unfold ins in *. induction 1 as [|y l Hl IH Hy]; simpl.
  - repeat constructor.
  - destruct (key y - key x <=? 0) eqn:E.
    + apply Z.leb_le in E. constructor; [now constructor|].
      constructor; [unfold desc; lia|].
      eapply Forall_impl; [|exact Hy]. unfold desc. intros z Hz; simpl in Hz. lia.
    + apply Z.leb_gt in E. constructor; [exact IH|].
      apply Forall_forall. intros z Hz.
      apply (Permutation_in z (Permutation_sym (insert_sorted_perm _ x l))) in Hz.
      destruct Hz as [<- | Hz].
      * unfold desc. lia.
      * rewrite Forall_forall in Hy. now apply Hy.
Qed.

Lemma order_by_desc_sorted (l : list A) :
  StronglySorted desc (order_by_desc key l).
Proof.
  induction l as [|x l IH]; simpl.
  - constructor.
  - now apply insert_desc_sorted.
Qed.

Lemma order_by_desc_of_sorted (l : list A) :
  StronglySorted desc l -> order_by_desc key l = l.
Proof.
  induction 1 as [|x l Hl IH Hx]; [reflexivity|].
  unfold order_by_desc in *. simpl. rewrite IH. now apply insert_desc_front.
Qed.

Lemma filter_insert_desc (p : A -> bool) (x : A) (l : list A) :
  StronglySorted desc l ->
  filter p (ins x l) = if p x then ins x (filter p l) else filter p l.
Proof.
  unfold ins in *. induction 1 as [|y l Hl IH Hy]; simpl.
  - now destruct (p x).
  - destruct (key y - key x <=? 0) eqn:E; simpl.
    + apply Z.leb_le in E. destruct (p x) eqn:Px; [|reflexivity].
      symmetry. apply insert_desc_front.
      apply Forall_forall. intros z Hz.
      assert (Hin : In z (y :: l)).
      { destruct (p y); [|now right; apply filter_In in Hz].
        destruct Hz as [<-|Hz]; [now left|right; now apply filter_In in Hz]. }
      destruct Hin as [<-|Hin]; [unfold desc; lia|].
      rewrite Forall_forall in Hy. specialize (Hy z Hin). unfold desc in *. lia.
    + rewrite IH. destruct (p y) eqn:Py, (p x) eqn:Px; simpl; try reflexivity.
      now rewrite E.
Qed.

Lemma filter_order_by_desc (p : A -> bool) (l : list A) :
  filter p (order_by_desc key l) = order_by_desc key (filter p l).
Proof.
  induction l as [|x l IH]; [reflexivity|].
  change (order_by_desc key (x :: l)) with (ins x (order_by_desc key l)).
  simpl (filter p (x :: l)).
  rewrite (filter_insert_desc p x _ (order_by_desc_sorted l)), IH.
  destruct (p x); reflexivity.
Qed.

(** The first row of [ORDER BY key DESC LIMIT 1] is a row of largest
    key. *)
Lemma order_by_desc_head (l : list A) (x : A) (rest : list A) :
  order_by_desc key l = x :: rest ->
  In x l /\ forall y, In y l -> key y <= key x.
Proof.
  intros E. pose proof (order_by_desc_sorted l) as S. rewrite E in S.
  inversion S as [|? ? _ Hx]; subst. rewrite Forall_forall in Hx. split.
  - apply (stable_sort_In (fun a b => key b - key a)).
    change (In x (order_by_desc key l)). rewrite E. now left.
  - intros y Hy.
    apply (stable_sort_In (fun a b => key b - key a)) in Hy.
    change (In y (order_by_desc key l)) in Hy. rewrite E in Hy.
    destruct Hy as [<-|Hy]; [lia|]. now apply Hx.
Qed.

Lemma order_by_desc_nil (l : list A) : order_by_desc key l = [] -> l = [].
Proof.
  intros E. apply Permutation_nil.
  pose proof (stable_sort_perm (fun a b => key b - key a) l) as P.
  change (Permutation l (order_by_desc key l)) in P. rewrite E in P.
  now apply Permutation_sym.
Qed.
End OrderByDesc.

(** ** The message trigger *)

Lemma round_seconds_nearest (d : Z) :
  0 <= d -> - 500 <= d - 1000 * round_seconds d < 500.
Proof.
  intros Hd. unfold round_seconds.
  destruct (0 <=? d) eqn:E; [|apply Z.leb_gt in E; lia].
  pose proof (Z.div_mod (d + 500) 1000 ltac:(lia)).
  pose proof (Z.mod_pos_bound (d + 500) 1000 ltac:(lia)).
  lia.
Qed.

Lemma select_into_map_filter {A B : Type} (f : A -> B) (p : A -> bool)
    (l : list A) (b : B) :
  select_into (map f (filter p l)) = Some b ->
  exists a, In a l /\ p a = true /\ f a = b.
Proof.
  unfold select_into. destruct (filter p l) as [|a r] eqn:E; simpl; [discriminate|].
  intros H; inversion H; subst. exists a.
  assert (Hin : In a (filter p l)) by (rewrite E; now left).
  apply filter_In in Hin as [Hin Hp]. auto.
Qed.

(** What [calculate_response_time] has done when it returns: at most one
    row appended to [rp_response_times], then the UPDATE of the session. *)
Lemma calculate_response_time_Ok uid NEW db db' :
  calculate_response_time uid NEW db = Ok db' ->
  exists db1,
    update_rp_sessions uid (fun s => String.eqb (s_id s) (m_session_id NEW))
      (with_last_message_at (Some (m_created_at NEW))) db1 = Ok db'
    /\ rp_sessions db1 = rp_sessions db
    /\ rp_session_messages db1 = rp_session_messages db
    /\ rp_session_viewers db1 = rp_session_viewers db
    /\ (rp_response_times db1 = rp_response_times db
        \/ exists s prev,
             In s (rp_sessions db) /\ s_id s = m_session_id NEW
             /\ s_is_active s = true
             /\ In prev (visible_rp_session_messages uid db)
             /\ earlier_from_other NEW prev = true
             /\ (forall m, In m (visible_rp_session_messages uid db) ->
                   earlier_from_other NEW m = true ->
                   m_created_at m <= m_created_at prev)
             /\ rp_response_times db1
                = rp_response_times db
                  ++ [mk_rp_response_time (m_sender_id NEW) (m_session_id NEW)
                        (round_seconds (m_created_at NEW - m_created_at prev))]).
Proof.
  unfold calculate_response_time.
  destruct (select_into (map s_is_active _)) as [[|]|] eqn:Ha;
    try (intros H; exists db; simpl in H; repeat split; auto; fail).
  apply select_into_map_filter in Ha as [s [Hs [Hid Hact]]].
  apply filter_In in Hs as [Hs _]. apply eqb_true in Hid.
  destruct (order_by_desc m_created_at
              (filter (earlier_from_other NEW) (visible_rp_session_messages uid db)))
    as [|prev r0] eqn:Ho; unfold limit; simpl;
    try (intros H; exists db; repeat split; auto; fail).
  apply order_by_desc_head in Ho as [Hin Hmax].
  apply filter_In in Hin as [Hvis Hearlier].
  destruct (m_character_id prev), (m_edited_at prev); simpl;
    try (intros H; exists db; repeat split; auto; fail).
  unfold to_integer.
  destruct (_ && _); simpl; [|discriminate].
  intros H.
  eexists. split; [exact H|]. simpl. repeat split; auto.
  right. exists s, prev. repeat split; auto.
  intros m Hm He. apply Hmax. apply filter_In. auto.
Qed.

Lemma with_last_message_at_parties t s : same_parties s (with_last_message_at t s).
Proof. now repeat split. Qed.

Lemma with_reminder_sent_at_parties t s : same_parties s (with_reminder_sent_at t s).
Proof. now repeat split. Qed.

Lemma with_max_viewers_parties n s : same_parties s (with_max_viewers n s).
Proof. now repeat split. Qed.

Lemma apply_patch_parties p s : same_parties s (apply_patch p s).
Proof. destruct p; now repeat split. Qed.

(** The insert policy read out: the inserting user is the sender and a
    party of a stored session with the message's [session_id]. *)
Lemma rp_session_messages_insert_sender_true uid db m :
  rp_session_messages_insert_sender uid db m = true ->
  uid = Some (m_sender_id m)
  /\ exists s, In s (rp_sessions db) /\ s_id s = m_session_id m
               /\ (m_sender_id m = s_user_a s \/ m_sender_id m = s_user_b s).
Proof.
  unfold rp_session_messages_insert_sender. intros H.
  apply andb_prop in H as [Hu He]. apply uid_is_true in Hu. split; [assumption|].
  apply existsb_exists in He as [s [Hs Hc]].
  apply filter_In in Hs as [Hs _].
  apply andb_prop in Hc as [Hid Hp]. apply eqb_true in Hid.
  exists s. repeat split; auto.
  unfold is_participant in Hp. apply orb_prop in Hp. subst uid.
  destruct Hp as [Hp|Hp]; apply uid_is_true in Hp; inversion Hp; auto.
Qed.

Lemma message_type_check_true m :
  rp_session_messages_message_type_check m = true ->
  m_message_type m = "ooc" \/ m_message_type m = "narration".
Proof.
  unfold rp_session_messages_message_type_check. intros H.
  apply orb_prop in H as [H|H]; apply eqb_true in H; auto.
Qed.

Lemma insert_rp_session_message_Ok uid NEW db db' :
  insert_rp_session_message uid NEW db = Ok db' ->
  rp_session_messages_message_type_check NEW = true
  /\ rp_session_messages_insert_sender uid db NEW = true
  /\ calculate_response_time uid NEW
       (set_rp_session_messages db (rp_session_messages db ++ [NEW])) = Ok db'.
Proof.
  unfold insert_rp_session_message.
  destruct (rp_session_messages_message_type_check NEW); simpl; [|discriminate].
  destruct (references_rp_sessions db (m_session_id NEW)); simpl; [|discriminate].
  destruct (rp_session_messages_insert_sender uid db NEW); simpl; [|discriminate].
  auto.
Qed.

Lemma insert_rp_session_message_evolves uid NEW db db' :
  insert_rp_session_message uid NEW db = Ok db' ->
  evolves db db'
  /\ rp_session_messages db' = rp_session_messages db ++ [NEW]
  /\ rp_session_viewers db' = rp_session_viewers db.
Proof.
  intros H. apply insert_rp_session_message_Ok in H as [Hc [Hp H]].
  apply calculate_response_time_Ok in H as [db1 [Hu [Es [Em [Ev _]]]]].
  apply update_rp_sessions_evolves in Hu
    as [[Hse Hme] [Em' [Ev' _]]]; [|apply with_last_message_at_parties].
  simpl in *. rewrite Es in Hse.
  split; [split; [exact Hse|] | rewrite Em', Em, Ev', Ev; auto].
  intros m Hm. rewrite Em', Em in Hm. apply in_app_or in Hm as [Hm|[<-|[]]].
  - now left.
  - right. eapply written_by_party_evolve; [exact Hse|].
    split; [now apply message_type_check_true|].
    now apply rp_session_messages_insert_sender_true in Hp as [_ Hp].
Qed.

(** ** The viewer trigger and the viewer statements *)

Lemma evolves_same db db' :
  rp_sessions db' = rp_sessions db ->
  rp_session_messages db' = rp_session_messages db ->
  evolves db db'.
Proof.
  intros Es Em. split.
  - rewrite Es. apply sessions_evolve_refl.
  - intros m Hm. left. now rewrite <- Em.
Qed.

Lemma update_session_max_viewers_evolves uid NEW OLD db db' :
  update_session_max_viewers uid NEW OLD db = Ok db' ->
  evolves db db'
  /\ rp_session_messages db' = rp_session_messages db
  /\ rp_session_viewers db' = rp_session_viewers db.
Proof.
  unfold update_session_max_viewers.
  destruct (match NEW with Some n => _ | None => _ end) as [sid|];
    [|intros H; inversion H; subst; split; [apply evolves_refl|auto]].
  destruct (select_into _) as [cur|];
    [|intros H; inversion H; subst; split; [apply evolves_refl|auto]].
  destruct (_ >? cur);
    [|intros H; inversion H; subst; split; [apply evolves_refl|auto]].
  intros H. apply update_rp_sessions_evolves in H
    as [He [Em [Ev _]]]; [auto|apply with_max_viewers_parties].
Qed.

Lemma fire_update_triggers_evolves uid changed db db' :
  fire_update_triggers uid changed db = Ok db' ->
  evolves db db'
  /\ rp_session_messages db' = rp_session_messages db
  /\ rp_session_viewers db' = rp_session_viewers db.
Proof.
  revert db. induction changed as [|[old new] rest IH]; intros db; simpl.
  - intros H; inversion H; subst. split; [apply evolves_refl|auto].
  - destruct (v_last_seen old =? v_last_seen new); simpl.
    + apply IH.
    + destruct (update_session_max_viewers uid (Some new) (Some old) db)
        as [db1|e] eqn:E; simpl; [|discriminate].
      intros H. apply IH in H as [He [Em Ev]].
      apply update_session_max_viewers_evolves in E as [He1 [Em1 Ev1]].
      split; [eapply evolves_trans; eassumption|].
      split; congruence.
Qed.

Lemma insert_rp_session_viewer_evolves uid NEW db db' :
  insert_rp_session_viewer uid NEW db = Ok db' ->
  evolves db db'
  /\ rp_session_viewers db' = rp_session_viewers db ++ [NEW]
  /\ uid = Some (v_user_id NEW).
Proof.
  unfold insert_rp_session_viewer.
  destruct (viewer_is_self uid NEW) eqn:Hself; simpl; [|discriminate].
  destruct (references_rp_sessions db (v_session_id NEW)); simpl; [|discriminate].
  destruct (existsb _ _); simpl; [discriminate|].
  intros H. apply update_session_max_viewers_evolves in H as [He [Em Ev]].
  simpl in *. split; [|split; [assumption | now apply uid_is_true]].
  eapply evolves_trans; [|exact He]. now apply evolves_same.
Qed.

Lemma run_evolves uid st db : evolves db (run uid st db).
Proof.
  destruct st; simpl.
  - unfold insert_rp_session.
    destruct (rp_sessions_status_check row) eqn:Hc; simpl; [|apply evolves_refl].
    destruct (existsb _ _); simpl; [apply evolves_refl|].
    destruct (rp_sessions_insert_participants uid row); simpl; [|apply evolves_refl].
    split; simpl; [split|auto].
    + intros s' Hs'. apply in_app_or in Hs' as [Hs'|[<-|[]]]; [right|now left].
      now exists s'.
    + intros s Hs. exists s. split; [apply in_or_app; now left | now repeat split].
  - destruct (update_rp_sessions uid _ _ db) as [db'|e] eqn:E; simpl;
      [|apply evolves_refl].
    now apply update_rp_sessions_evolves in E as [He _]; [|apply apply_patch_parties].
  - destruct (insert_rp_session_message uid row db) as [db'|e] eqn:E; simpl;
      [|apply evolves_refl].
    now apply insert_rp_session_message_evolves in E as [He _].
  - destruct (insert_rp_session_viewer uid row db) as [db'|e] eqn:E; simpl;
      [|apply evolves_refl].
    now apply insert_rp_session_viewer_evolves in E as [He _].
  - unfold upsert_rp_session_viewer.
    destruct (viewer_is_self uid _); simpl; [|apply evolves_refl].
    destruct (rp_session_viewers_select uid db _); simpl; [|apply evolves_refl].
    destruct (existsb (same_viewer_key _ _) _).
    + destruct (fire_update_triggers uid _ _) as [db'|e] eqn:E; simpl;
        [|apply evolves_refl].
      apply fire_update_triggers_evolves in E as [He _].
      eapply evolves_trans; [|exact He]. now apply evolves_same.
    + destruct (insert_rp_session_viewer uid _ db) as [db'|e] eqn:E; simpl;
        [|apply evolves_refl].
      now apply insert_rp_session_viewer_evolves in E as [He _].
  - unfold update_rp_session_viewer_last_seen.
    destruct (fire_update_triggers uid _ _) as [db'|e] eqn:E; simpl;
      [|apply evolves_refl].
    apply fire_update_triggers_evolves in E as [He _].
    eapply evolves_trans; [|exact He]. now apply evolves_same.
  - now apply evolves_same.
  - now apply evolves_same.
Qed.

(** Every database of a history satisfies the status CHECK, and each of its
    messages was written by a party of the message's session. *)
Lemma reachable_consistent db : reachable db -> consistent db.
Proof.
  induction 1 as [|uid st db _ IH].
  - split; constructor.
  - eapply consistent_evolves; [exact IH | apply run_evolves].
Qed.

(** ** Sessions: the status CHECK and the sessions page *)

Lemma status_check_true s :
  rp_sessions_status_check s = true ->
  s_status s = "active" \/ s_status s = "closed".
Proof.
  unfold rp_sessions_status_check. intros H.
  apply orb_prop in H as [H|H]; apply eqb_true in H; auto.
Qed.

Lemma load_status_stored u db prev e :
  In e (SessionsPage.load (SessionPage.User u) db prev) ->
  exists s, In s (rp_sessions db) /\ SessionsPage.status e = s_status s
            /\ SessionsPage.id e = s_id s
            /\ e = SessionsPage.with_details u db s
            /\ (s_user_a s = u \/ s_user_b s = u).
Proof.
  unfold SessionsPage.load.
  destruct (order_by_desc s_created_at _) as [|s0 r] eqn:E; [intros []|].
  rewrite <- E. clear E. intros H.
  apply stable_sort_In in H. apply in_map_iff in H as [s [<- Hs]].
  unfold order_by_desc in Hs. apply stable_sort_In in Hs.
  apply filter_In in Hs as [Hs Hu]. apply filter_In in Hs as [Hs _].
  exists s. repeat split; auto.
  apply orb_prop in Hu as [Hu|Hu]; apply eqb_true in Hu; auto.
Qed.

(** C9. In every database that statements lead to, each [rp_sessions] row
    has status ['active'] or ['closed'], as the CHECK constraint demands;
    so on the sessions page no loaded session has status ['paused']: the
    "paused" filter shows nothing, the "Paused" button counts zero, and the
    comparator's "active or paused" test is the test for ['active']. *)
Theorem paused_never_stored (db : database) (u : uuid)
    (prev : list SessionsPage.Session) :
  reachable db ->
  let sessions := SessionsPage.load (SessionPage.User u) db prev in
  (forall s, In s (rp_sessions db) ->
     s_status s = "active" \/ s_status s = "closed")
  /\ (forall e, In e sessions -> SessionsPage.status e <> "paused")
  /\ SessionsPage.filteredSessions "paused" sessions = []
  /\ SessionsPage.paused_count sessions = 0%nat
  /\ (forall e, In e sessions ->
        SessionsPage.is_open (SessionsPage.status e)
        = String.eqb (SessionsPage.status e) "active").
Proof.
  intros Hr sessions.
  destruct (reachable_consistent db Hr) as [Hs _]. rewrite Forall_forall in Hs.
  assert (Hst : forall s, In s (rp_sessions db) ->
                  s_status s = "active" \/ s_status s = "closed")
    by (intros s H; apply status_check_true; auto).
  assert (Hno : forall e, In e sessions -> SessionsPage.status e <> "paused").
  { intros e He. apply load_status_stored in He as [s [Hin [E _]]].
    rewrite E. destruct (Hst s Hin) as [-> | ->]; discriminate. }
  assert (Hf : filter (fun s => String.eqb (SessionsPage.status s) "paused") sessions = []).
  { induction sessions as [|e l IH]; [reflexivity|]. simpl.
    destruct (String.eqb (SessionsPage.status e) "paused") eqn:E.
    - apply eqb_true in E. exfalso. apply (Hno e); [now left | assumption].
    - apply IH. intros e' He'. apply Hno. now right. }
  repeat split; auto.
  - unfold SessionsPage.paused_count. now rewrite Hf.
  - intros e He. unfold SessionsPage.is_open.
    destruct (String.eqb (SessionsPage.status e) "paused") eqn:E.
    + apply eqb_true in E. exfalso. now apply (Hno e).
    + apply orb_false_r.
Qed.

Lemma paused_never_stored_witness :
  let sessions :=
    SessionsPage.load (SessionPage.User Scenario.alice) Scenario.answered [] in
  sessions <> []
  /\ SessionsPage.filteredSessions "paused" sessions = []
  /\ SessionsPage.paused_count sessions = 0%nat.
Proof.
  assert (Hr : reachable Scenario.answered)
    by (repeat apply reach_run; apply reach_empty).
  pose proof (paused_never_stored Scenario.answered Scenario.alice [] Hr)
    as [_ [_ [Hf [Hc _]]]].
  split; [|split; assumption].
  vm_compute. discriminate.
Defined.

(** ** Session messages *)

(** X23. In every database that the statements the application itself
    sends lead to (it never updates [rp_session_messages] and never writes
    [user_a] or [user_b] of a stored session), each stored message has
    [message_type] ['ooc'] or ['narration'] and a sender who is one of
    the two parties of its session; and an insert into
    [rp_session_messages] goes through only for a row of one of those two
    types, sent by the signed-in user as [sender_id], who is [user_a] or
    [user_b] of the session. *)
Theorem messages_written_by_parties (db : database) :
  reachable db ->
  (forall m, In m (rp_session_messages db) ->
     (m_message_type m = "ooc" \/ m_message_type m = "narration")
     /\ exists s, In s (rp_sessions db) /\ s_id s = m_session_id m
                  /\ (m_sender_id m = s_user_a s \/ m_sender_id m = s_user_b s))
  /\ (forall uid NEW db',
        insert_rp_session_message uid NEW db = Ok db' ->
        (m_message_type NEW = "ooc" \/ m_message_type NEW = "narration")
        /\ uid = Some (m_sender_id NEW)
        /\ exists s, In s (rp_sessions db) /\ s_id s = m_session_id NEW
                     /\ (m_sender_id NEW = s_user_a s
                         \/ m_sender_id NEW = s_user_b s)).
Proof.
  intros Hr. split.
  - destruct (reachable_consistent db Hr) as [_ Hm]. rewrite Forall_forall in Hm.
    intros m Hin. exact (Hm m Hin).
  - intros uid NEW db' H.
    apply insert_rp_session_message_Ok in H as [Hc [Hp _]].
    split; [now apply message_type_check_true|].
    now apply rp_session_messages_insert_sender_true.
Qed.

Lemma messages_written_by_parties_witness :
  (forall m, In m (rp_session_messages Scenario.answered) ->
     m_sender_id m = Scenario.alice \/ m_sender_id m = Scenario.bob)
  /\ insert_rp_session_message (Some Scenario.carol) Scenario.line2 Scenario.posted
     = Raise insufficient_privilege.
Proof.
  assert (Hr : reachable Scenario.answered)
    by (repeat apply reach_run; apply reach_empty).
  destruct (messages_written_by_parties Scenario.answered Hr) as [Hall _].
  split; [|reflexivity].
  intros m Hm. destruct (Hall m Hm) as [_ [s [Hs [_ Hp]]]].
  destruct Hs as [<-|[]]. exact Hp.
Defined.

Lemma NoDup_map_inj {A B : Type} (f : A -> B) (l : list A) (a b : A) :
  NoDup (map f l) -> In a l -> In b l -> f a = f b -> a = b.
Proof.
  induction l as [|x l IH]; simpl; [intros _ []|].
  intros Hn Ha Hb E. inversion Hn as [|? ? Hx Hl]; subst.
  destruct Ha as [->|Ha], Hb as [->|Hb]; auto.
  - exfalso. apply Hx. rewrite E. now apply in_map.
  - exfalso. apply Hx. rewrite <- E. now apply in_map.
Qed.

(** C8. When an insert into [rp_session_messages] goes through, the trigger
    has set [last_message_at] of the message's session to the message's
    [created_at]; [rp_response_times] is either unchanged or longer by one
    row, and a row is added only if the session's [is_active] is true and
    the table holds an earlier message of the session from a different
    sender. The row then carries the new message's sender and session and
    the difference between the new message's [created_at] and that of the
    latest such earlier message, in whole seconds (rounded to the nearest
    second). [rp_sessions.id] is the table's primary key. *)
Theorem calculate_response_time_on_insert
    (uid : option uuid) (NEW : rp_session_message) (db db' : database) :
  NoDup (map s_id (rp_sessions db)) ->
  insert_rp_session_message uid NEW db = Ok db' ->
  (exists s', In s' (rp_sessions db') /\ s_id s' = m_session_id NEW)
  /\ (forall s', In s' (rp_sessions db') -> s_id s' = m_session_id NEW ->
        s_last_message_at s' = Some (m_created_at NEW))
  /\ (rp_response_times db' = rp_response_times db
      \/ exists s prev secs,
           In s (rp_sessions db) /\ s_id s = m_session_id NEW
           /\ s_is_active s = true
           /\ In prev (rp_session_messages db)
           /\ m_session_id prev = m_session_id NEW
           /\ m_sender_id prev <> m_sender_id NEW
           /\ m_created_at prev < m_created_at NEW
           /\ (forall m, In m (rp_session_messages db) ->
                 m_session_id m = m_session_id NEW ->
                 m_sender_id m <> m_sender_id NEW ->
                 m_created_at m < m_created_at NEW ->
                 m_created_at m <= m_created_at prev)
           /\ rp_response_times db'
              = rp_response_times db
                ++ [mk_rp_response_time (m_sender_id NEW) (m_session_id NEW) secs]
           /\ secs = round_seconds (m_created_at NEW - m_created_at prev)
           /\ - 500 <= (m_created_at NEW - m_created_at prev) - 1000 * secs < 500).
Proof.
  intros Hpk H.
  apply insert_rp_session_message_Ok in H as [Hc [Hp H]].
  pose proof Hp as Hpol.
  apply rp_session_messages_insert_sender_true in Hp as [Hu [s0 [Hs0 [Hid0 Hparty]]]].
  apply calculate_response_time_Ok in H as [db1 [Hupd [Es [Em [Ev Hrt]]]]].
  simpl in Es, Em, Ev.
  pose proof Hupd as Hupd'.
  apply update_rp_sessions_Ok in Hupd as [-> _].
  apply update_rp_sessions_evolves in Hupd'
    as [_ [_ [_ [Ert _]]]]; [|apply with_last_message_at_parties].
  clear Ert. cbn [rp_sessions rp_response_times set_rp_sessions]. rewrite Es.
  assert (Hpart : is_participant uid s0 = true).
  { unfold is_participant. subst uid. simpl.
    destruct Hparty as [<-|<-]; rewrite String.eqb_refl; auto using orb_true_r. }
  assert (Htarget : update_target uid
            (fun s => String.eqb (s_id s) (m_session_id NEW)) s0 = true).
  { unfold update_target, rp_sessions_select, rp_sessions_update_participants.
    rewrite Hpart. apply eqb_true in Hid0. now rewrite Hid0. }
  split; [|split].
  - exists (with_last_message_at (Some (m_created_at NEW)) s0). split; [|exact Hid0].
    apply in_map_iff. exists s0. now rewrite Htarget.
  - intros s' Hs' Hid'. apply in_map_iff in Hs' as [s [E Hs]].
    assert (s = s0).
    { apply (NoDup_map_inj s_id (rp_sessions db)); auto.
      rewrite Hid0, <- Hid'. subst s'.
      now destruct (update_target uid _ s). }
    subst s. rewrite Htarget in E. now subst s'.
  - destruct Hrt as [Hrt | [s [prev [Hs [Hid [Hact [Hvis [He [Hmax Hrt]]]]]]]]];
      [now left|right].
    simpl in Hs.
    apply filter_In in Hvis as [Hin _]. simpl in Hin.
    unfold earlier_from_other in He.
    apply andb_prop in He as [He Hlt]. apply andb_prop in He as [Hsid Hsnd].
    apply eqb_true in Hsid. apply negb_true_iff, eqb_false in Hsnd.
    apply Z.ltb_lt in Hlt.
    exists s, prev, (round_seconds (m_created_at NEW - m_created_at prev)).
    repeat split; auto.
    + apply in_app_or in Hin as [Hin|[<-|[]]]; [assumption|]. now elim Hsnd.
    + intros m Hm Hmsid Hmsnd Hmlt. apply Hmax.
      * apply filter_In. split; [simpl; apply in_or_app; now left|].
        unfold rp_session_messages_select.
        apply existsb_exists. exists s0. split.
        -- apply filter_In. split; [exact Hs0|].
           unfold rp_sessions_select. now rewrite Hpart.
        -- rewrite Hmsid. apply eqb_true in Hid0. now rewrite Hid0, Hpart.
      * unfold earlier_from_other.
        apply eqb_true in Hmsid. apply eqb_false in Hmsnd. apply Z.ltb_lt in Hmlt.
        now rewrite Hmsid, Hmsnd, Hmlt.
    + apply round_seconds_nearest. lia.
    + apply round_seconds_nearest. lia.
Qed.

Lemma calculate_response_time_on_insert_witness :
  map s_last_message_at (rp_sessions Scenario.answered) = [Some 12600]
  /\ rp_response_times Scenario.answered
     = [mk_rp_response_time Scenario.bob Scenario.tale 3].
Proof.
  assert (Hpk : NoDup (map s_id (rp_sessions Scenario.posted)))
    by (repeat constructor; simpl; intros []).
  assert (Hok : insert_rp_session_message (Some Scenario.bob) Scenario.line2
                  Scenario.posted = Ok Scenario.answered) by reflexivity.
  destruct (calculate_response_time_on_insert _ _ _ _ Hpk Hok) as [_ [Hlast _]].
  split; [|reflexivity].
  assert (Hs : exists s, rp_sessions Scenario.answered = [s]
                         /\ s_id s = m_session_id Scenario.line2)
    by (eexists; split; reflexivity).
  destruct Hs as [s [E Hid]]. rewrite E. simpl. f_equal.
  apply Hlast; [rewrite E; now left | exact Hid].
Defined.

(** ** The inactivity reminder *)

Lemma filter_unique {A K : Type} (f : A -> K) (p : A -> bool) (l : list A)
    (a : A) :
  NoDup (map f l) -> In a l -> (forall x, p x = true <-> f x = f a) ->
  filter p l = [a].
Proof.
  intros Hn Ha Hp.
  assert (Hnone : forall l', ~ In (f a) (map f l') -> filter p l' = []).
  { induction l' as [|y l' IHl]; simpl; [reflexivity|]. intros Hnot.
    destruct (p y) eqn:E.
    - apply Hp in E. exfalso. apply Hnot. now left.
    - apply IHl. intros H. apply Hnot. now right. }
  induction l as [|x l IH]; simpl; [destruct Ha|].
  inversion Hn as [|? ? Hx Hl]; subst.
  destruct Ha as [->|Ha].
  - rewrite (proj2 (Hp a) eq_refl). f_equal. now apply Hnone.
  - destruct (p x) eqn:E.
    + apply Hp in E. exfalso. apply Hx. rewrite E. now apply in_map.
    + now apply IH.
Qed.

Lemma filter_unique_key {A : Type} (f : A -> string) (l : list A) (a : A) :
  NoDup (map f l) -> In a l ->
  filter (fun x => String.eqb (f x) (f a)) l = [a].
Proof.
  intros Hn Ha. apply (filter_unique f); auto.
  intros x. apply eqb_true.
Qed.

(** C6. The inactivity effect does not call [sendInactivityReminder] when
    fewer than five minutes lie between [last_message_at] and the clock,
    nor when [reminder_sent_at] is set and less than an hour old. When the
    reminder's insert goes through, the stored row has type ['ooc'] and
    [reminder_sent_at] of the session is the clock reading taken for it;
    when the insert is refused, nothing is stored. The session table is
    taken with its primary key and status CHECK in force. *)
Theorem inactivity_reminder_guarded
    (session : option rp_session) (me : option uuid)
    (inactivityReminder : option string) (now now' : timestamptz)
    (sessionId id : uuid) (created_at t : timestamptz) (db : database) :
  NoDup (map s_id (rp_sessions db)) ->
  Forall (fun s => rp_sessions_status_check s = true) (rp_sessions db) ->
  (forall s last, session = Some s -> s_last_message_at s = Some last ->
     now - last < 5 * 60 * 1000 ->
     SessionPage.inactivity_effect session me inactivityReminder now now' = false)
  /\ (forall s sent, session = Some s -> s_reminder_sent_at s = Some sent ->
        now' - sent < 60 * 60 * 1000 ->
        SessionPage.inactivity_effect session me inactivityReminder now now' = false)
  /\ (forall s u db1,
        session = Some s -> me = Some u ->
        insert_rp_session_message me
          (SessionPage.reminder_message sessionId u id created_at) db = Ok db1 ->
        let db' := fst (SessionPage.sendInactivityReminder session me sessionId
                          inactivityReminder id created_at t db) in
        (exists m, In m (rp_session_messages db') /\ m_id m = id
                   /\ m_session_id m = sessionId /\ m_sender_id m = u
                   /\ m_message_type m = "ooc"
                   /\ m_body m = SessionPage.reminderText)
        /\ (exists s', In s' (rp_sessions db') /\ s_id s' = sessionId)
        /\ (forall s', In s' (rp_sessions db') -> s_id s' = sessionId ->
              s_reminder_sent_at s' = Some t))
  /\ (forall s u e,
        session = Some s -> me = Some u ->
        insert_rp_session_message me
          (SessionPage.reminder_message sessionId u id created_at) db = Raise e ->
        SessionPage.sendInactivityReminder session me sessionId
          inactivityReminder id created_at t db = (db, inactivityReminder)).
Proof.
  intros Hpk Hst. split; [|split; [|split]].
  - intros s last -> Hl Hlt. unfold SessionPage.inactivity_effect.
    destruct me; [|reflexivity]. destruct (s_is_active s); [|reflexivity].
    unfold SessionPage.checkInactivity. rewrite Hl.
    destruct (5 * (1000 * 60) <=? now - last) eqn:E; [|reflexivity].
    apply Z.leb_le in E. lia.
  - intros s sent -> Hr Hlt. unfold SessionPage.inactivity_effect.
    destruct me; [|reflexivity]. destruct (s_is_active s); [|reflexivity].
    unfold SessionPage.checkInactivity. rewrite Hr.
    destruct (s_last_message_at s); [|reflexivity].
    destruct (_ && _); [|reflexivity].
    rewrite Z.gtb_ltb. apply Z.ltb_ge. lia.
  - intros s u db1 -> -> Hins db'. subst db'.
    unfold SessionPage.sendInactivityReminder. rewrite Hins. cbn [fst].
    pose proof Hins as Hev.
    apply insert_rp_session_message_evolves in Hev as [[[_ Hfwd] _] [Em _]].
    pose proof Hins as Hok.
    apply insert_rp_session_message_Ok in Hok as [_ [Hp Htrig]].
    apply rp_session_messages_insert_sender_true in Hp as [_ [s0 [Hs0 [Hid0 Hparty]]]].
    simpl in Hid0, Hparty.
    apply calculate_response_time_Ok in Htrig as [dbr [Hupd [Es _]]].
    simpl in Es. apply update_rp_sessions_Ok in Hupd as [E1 _].
    assert (Hsess1 : rp_sessions db1
                     = map (fun s1 => if update_target (Some u)
                                           (fun s2 => String.eqb (s_id s2) sessionId) s1
                                      then with_last_message_at (Some created_at) s1
                                      else s1) (rp_sessions db))
      by (rewrite E1; simpl; now rewrite Es).
    assert (Hshape : forall s1, In s1 (rp_sessions db1) ->
              exists s, In s (rp_sessions db) /\ same_parties s s1
                        /\ s_status s1 = s_status s).
    { intros s1 H1. rewrite Hsess1 in H1. apply in_map_iff in H1 as [sx [<- Hx]].
      exists sx. split; [assumption|].
      destruct (update_target _ _ sx); now repeat split. }
    rewrite Forall_forall in Hst.
    rewrite update_rp_sessions_succeeds.
    2:{ intros s1 H1 Ht. destruct (Hshape s1 H1) as [sx [Hx [_ Est]]]. split.
        - unfold rp_sessions_status_check. simpl. rewrite Est. apply (Hst sx Hx).
        - unfold update_target in Ht. apply andb_prop in Ht as [_ Ht]. exact Ht. }
    cbn [or_unchanged rp_sessions rp_session_messages set_rp_sessions].
    split; [|split].
    + exists (SessionPage.reminder_message sessionId u id created_at).
      split; [|now repeat split].
      rewrite Em. apply in_or_app. right. now left.
    + destruct (Hfwd s0 Hs0) as [s1 [Hs1 [E1' _]]].
      exists (if update_target (Some u)
                   (fun s2 => String.eqb (s_id s2) sessionId) s1
              then with_reminder_sent_at (Some t) s1 else s1).
      split; [apply in_map_iff; now exists s1|].
      destruct (update_target _ _ s1); simpl; congruence.
    + intros s' Hs' Hid'. apply in_map_iff in Hs' as [s1 [<- H1]].
      destruct (Hshape s1 H1) as [sx [Hx [[Ea [Eb Ec]] _]]].
      assert (sx = s0).
      { apply (NoDup_map_inj s_id (rp_sessions db)); auto.
        rewrite Hid0, <- Hid', <- Ea.
        now destruct (update_target _ _ s1). }
      subst sx.
      assert (Ht : update_target (Some u)
                     (fun s2 => String.eqb (s_id s2) sessionId) s1 = true).
      { unfold update_target, rp_sessions_select, rp_sessions_update_participants,
          is_participant. simpl. rewrite Ea, Eb, Ec, Hid0, String.eqb_refl.
        destruct Hparty as [<-|<-]; rewrite String.eqb_refl;
          simpl; rewrite ?orb_true_r; reflexivity. }
      now rewrite Ht.
  - intros s u e -> -> H. unfold SessionPage.sendInactivityReminder.
    now rewrite H.
Qed.

Lemma inactivity_reminder_guarded_witness :
  SessionPage.inactivity_effect (Some Scenario.tale_now) (Some Scenario.alice)
    None 200000 200000 = false
  /\ SessionPage.inactivity_effect (Some Scenario.tale_now) (Some Scenario.alice)
       None 312600 312600 = true
  /\ forall s',
       In s' (rp_sessions
                (fst (SessionPage.sendInactivityReminder (Some Scenario.tale_now)
                        (Some Scenario.alice) Scenario.tale None
                        Scenario.reminder_id 312650 312700 Scenario.answered))) ->
       s_id s' = Scenario.tale -> s_reminder_sent_at s' = Some 312700.
Proof.
  assert (Hpk : NoDup (map s_id (rp_sessions Scenario.answered)))
    by (repeat constructor; simpl; intros []).
  assert (Hst : Forall (fun s => rp_sessions_status_check s = true)
                  (rp_sessions Scenario.answered))
    by (repeat constructor).
  destruct (inactivity_reminder_guarded (Some Scenario.tale_now)
              (Some Scenario.alice) None 200000 200000 Scenario.tale
              Scenario.reminder_id 312650 312700 Scenario.answered Hpk Hst)
    as [H1 [_ [H3 _]]].
  split; [|split].
  - apply (H1 Scenario.tale_now 12600); [reflexivity|reflexivity|lia].
  - reflexivity.
  - refine (proj2 (proj2 (H3 Scenario.tale_now Scenario.alice
             (or_unchanged
                (insert_rp_session_message (Some Scenario.alice)
                   (SessionPage.reminder_message Scenario.tale Scenario.alice
                      Scenario.reminder_id 312650) Scenario.answered)
                Scenario.answered)
             eq_refl eq_refl _))).
    reflexivity.
Defined.

(** ** Access to the session page *)

Lemma filter_comm {A : Type} (p q : A -> bool) (l : list A) :
  filter p (filter q l) = filter q (filter p l).
Proof.
  induction l as [|x l IH]; simpl; [reflexivity|].
  destruct (q x) eqn:Q, (p x) eqn:P; simpl; rewrite ?Q, ?P, IH; reflexivity.
Qed.

Lemma filter_absorb {A : Type} (p q : A -> bool) (l : list A) :
  (forall x, In x l -> p x = true -> q x = true) ->
  filter p (filter q l) = filter p l.
Proof.
  induction l as [|x l IH]; simpl; [reflexivity|]. intros H.
  destruct (p x) eqn:P.
  - rewrite (H x (or_introl eq_refl) P). simpl. rewrite P, IH; auto.
  - destruct (q x); simpl; rewrite ?P; apply IH; auto.
Qed.

Lemma visible_session_by_id uid db s :
  NoDup (map s_id (rp_sessions db)) -> In s (rp_sessions db) ->
  filter (fun x => String.eqb (s_id x) (s_id s)) (visible_rp_sessions uid db)
  = if rp_sessions_select uid s then [s] else [].
Proof.
  intros Hpk Hs. unfold visible_rp_sessions.
  rewrite filter_comm, (filter_unique_key s_id _ s Hpk Hs). simpl.
  now destruct (rp_sessions_select uid s).
Qed.

(** The participant test of the policies and the one of the page agree. *)
Lemma is_participant_eqb u s :
  is_participant (Some u) s
  = (String.eqb (s_user_a s) u || String.eqb (s_user_b s) u).
Proof.
  unfold is_participant. simpl.
  now rewrite (String.eqb_sym u (s_user_a s)), (String.eqb_sym u (s_user_b s)).
Qed.

Lemma outsider_iff u s :
  (String.eqb (s_user_a s) u || String.eqb (s_user_b s) u) = false
  /\ s_is_public s = false
  <-> u <> s_user_a s /\ u <> s_user_b s /\ s_is_public s = false.
Proof.
  split.
  - intros [H P]. apply orb_false_elim in H as [Ha Hb].
    apply eqb_false in Ha, Hb. repeat split; auto.
  - intros [Ha [Hb P]]. split; [|assumption].
    apply orb_false_intro; apply eqb_false; auto.
Qed.

(** C5. For a signed-in user [u] and a stored session [s]: the page's
    participant check answers "no access" exactly when [u] is neither
    [user_a] nor [user_b] and [is_public] is false; and [load], run against
    the database with its policies, ends with an error exactly in that
    case (the policies hide the row, so the message is "Session not
    found"), with no session and no messages loaded and nothing written.
    A non-participant of a public session is let in with [isPublicView]
    set and receives the session's messages. *)
Theorem session_access (u : uuid) (s : rp_session) (db : database)
    (now : timestamptz) :
  In s (rp_sessions db) ->
  NoDup (map s_id (rp_sessions db)) ->
  let out := SessionPage.load (SessionPage.User u) (s_id s) now db
               SessionPage.initial_state in
  let outsider := u <> s_user_a s /\ u <> s_user_b s /\ s_is_public s = false in
  (SessionPage.access_check (Some u) s = SessionPage.NoAccess <-> outsider)
  /\ (SessionPage.error (fst out) <> None <-> outsider)
  /\ (outsider ->
        SessionPage.error (fst out) = Some "Session not found"
        /\ SessionPage.session (fst out) = None
        /\ SessionPage.messages (fst out) = []
        /\ snd out = db)
  /\ (u <> s_user_a s -> u <> s_user_b s -> s_is_public s = true ->
        SessionPage.access_check (Some u) s = SessionPage.AsPublicView
        /\ SessionPage.isPublicView (fst out) = true
        /\ SessionPage.error (fst out) = None
        /\ SessionPage.session (fst out) = Some s
        /\ SessionPage.messages (fst out)
           = order_by_asc m_created_at
               (filter (fun m => String.eqb (m_session_id m) (s_id s))
                       (rp_session_messages db))).
Proof.
  intros Hs Hpk out outsider. subst out outsider.
  rewrite <- outsider_iff.
  unfold SessionPage.load.
  rewrite (visible_session_by_id (Some u) db s Hpk Hs).
  unfold rp_sessions_select. rewrite is_participant_eqb.
  unfold SessionPage.access_check.
  split; [|split; [|split]].
  - destruct (String.eqb (s_user_a s) u), (String.eqb (s_user_b s) u),
      (s_is_public s); simpl; split; try discriminate; auto;
      intros [? ?]; discriminate.
  - destruct (String.eqb (s_user_a s) u) eqn:Ea,
      (String.eqb (s_user_b s) u) eqn:Eb, (s_is_public s) eqn:P;
      simpl; rewrite ?Ea, ?Eb, ?P; simpl; split; try discriminate; auto;
      try (intros [? ?]; discriminate); intros H; now elim H.
  - intros [H P]. rewrite H, P. simpl. auto.
  - intros Ha Hb P.
    assert (Ea : String.eqb (s_user_a s) u = false) by (apply eqb_false; auto).
    assert (Eb : String.eqb (s_user_b s) u = false) by (apply eqb_false; auto).
    rewrite Ea, Eb, P. simpl. rewrite Ea, Eb, P. simpl.
    repeat split.
    unfold visible_rp_session_messages. rewrite filter_absorb; [reflexivity|].
    intros m Hm Hid. unfold rp_session_messages_select.
    apply existsb_exists. exists s. split.
    + apply filter_In. split; [assumption|].
      unfold rp_sessions_select. now rewrite P, orb_true_r.
    + apply eqb_true in Hid. rewrite Hid, String.eqb_refl, P. now rewrite orb_true_r.
Qed.

Lemma session_access_witness :
  let out := SessionPage.load (SessionPage.User Scenario.carol) Scenario.tale
               312700 Scenario.answered SessionPage.initial_state in
  SessionPage.isPublicView (fst out) = true
  /\ SessionPage.error (fst out) = None
  /\ List.length (SessionPage.messages (fst out)) = 2%nat.
Proof.
  assert (Hpk : NoDup (map s_id (rp_sessions Scenario.answered)))
    by (repeat constructor; simpl; intros []).
  assert (Hin : In Scenario.tale_now (rp_sessions Scenario.answered))
    by (now left).
  destruct (session_access Scenario.carol Scenario.tale_now Scenario.answered
              312700 Hin Hpk) as [_ [_ [_ H]]].
  destruct H as [_ [Hv [He [_ Hm]]]]; try reflexivity; try discriminate.
  split; [exact Hv|split; [exact He|]].
  change (s_id Scenario.tale_now) with Scenario.tale in Hm.
  rewrite Hm. reflexivity.
Defined.

(** ** Anonymous visitors *)

Lemma filter_none {A : Type} (p : A -> bool) (l : list A) :
  (forall x, p x = false) -> filter p l = [].
Proof.
  intros H. induction l as [|x l IH]; simpl; [reflexivity|]. now rewrite H.
Qed.

Lemma filter_all {A : Type} (p : A -> bool) (l : list A) :
  (forall x, p x = true) -> filter p l = l.
Proof.
  intros H. induction l as [|x l IH]; simpl; [reflexivity|]. now rewrite H, IH.
Qed.

Lemma map_if_none {A : Type} (p : A -> bool) (f : A -> A) (l : list A) :
  (forall x, p x = false) -> map (fun x => if p x then f x else x) l = l.
Proof.
  intros H. induction l as [|x l IH]; simpl; [reflexivity|]. now rewrite H, IH.
Qed.

Lemma set_rp_session_viewers_same db :
  set_rp_session_viewers db (rp_session_viewers db) = db.
Proof. now destruct db. Qed.

Lemma anonymous_update_target db sid who v :
  viewer_update_target None db sid who v = false.
Proof. unfold viewer_update_target, viewer_is_self. simpl. apply andb_false_r. Qed.

(** C10. Without a signed-in user [trackViewer] returns at once, the
    heartbeat and the cleanup do nothing, and the policies of
    [rp_session_viewers] turn away every statement of the anonymous role:
    an insert or upsert raises, an update or delete touches no row. The
    database, and with it the viewer list and [max_viewers], stays as it
    was. *)
Theorem anonymous_visitor_not_tracked (db : database) (sessionId who : uuid)
    (now db_now t : timestamptz) (mounted : bool) (row : rp_session_viewer)
    (viewer : option uuid) (session : rp_session) :
  SessionPage.trackViewer None sessionId now db_now db = db
  /\ SessionPage.heartbeat None mounted sessionId now db = db
  /\ SessionPage.viewer_cleanup None sessionId db = db
  /\ insert_rp_session_viewer None row db = Raise insufficient_privilege
  /\ upsert_rp_session_viewer None sessionId who t db_now db
     = Raise insufficient_privilege
  /\ update_rp_session_viewer_last_seen None sessionId who t db = Ok db
  /\ delete_rp_session_viewer None sessionId who db = db
  /\ (forall st,
        match st with
        | InsertViewer _ | UpsertViewer _ _ _ _
        | UpdateViewerLastSeen _ _ _ | DeleteViewer _ _ =>
            run None st db = db
            /\ rp_session_viewers (run None st db) = rp_session_viewers db
            /\ map s_max_viewers (rp_sessions (run None st db))
               = map s_max_viewers (rp_sessions db)
            /\ SessionPage.loadViewers viewer session sessionId now (run None st db)
               = SessionPage.loadViewers viewer session sessionId now db
        | _ => True
        end).
Proof.
  assert (Hupd : forall s w t', update_rp_session_viewer_last_seen None s w t' db = Ok db).
  { intros s w t'. unfold update_rp_session_viewer_last_seen.
    rewrite (filter_none _ _ (anonymous_update_target db s w)).
    rewrite (map_if_none _ _ _ (anonymous_update_target db s w)).
    simpl. now rewrite set_rp_session_viewers_same. }
  assert (Hdel : forall s w, delete_rp_session_viewer None s w db = db).
  { intros s w. unfold delete_rp_session_viewer.
    rewrite filter_all; [apply set_rp_session_viewers_same|].
    intros v. unfold viewer_is_self. simpl. now rewrite andb_false_r. }
  repeat match goal with |- _ /\ _ => split end; try reflexivity; auto.
  intros st. destruct st; try exact I; cbn [run].
  - simpl. repeat split.
  - simpl. repeat split.
  - rewrite Hupd. simpl. repeat split.
  - rewrite Hdel. repeat split.
Qed.

(** ** Unread counts *)

Lemma or_zero_count {A : Type} (rows : list A) :
  Inbox.or_zero (Inbox.count_exact rows) = Z.of_nat (List.length rows).
Proof.
  unfold Inbox.or_zero, Inbox.count_exact.
  destruct (Z.of_nat (List.length rows) =? 0) eqn:E; [|reflexivity].
  apply Z.eqb_eq in E. now rewrite E.
Qed.

Section UnreadFacts.
Context {M : Type}.
Variables (thread_of sender_of : M -> uuid) (created_at : M -> timestamptz).

(** With one read record for each thread and user, the count the pages
    compute is the count of the specification. *)
Lemma unread_count_refines (messages : list M) (reads : list read_mark)
    (thread me other : uuid) :
  NoDup (map Inbox.read_key reads) ->
  Inbox.unread_count thread_of sender_of created_at messages reads thread me other
  = Inbox.unread_count_spec thread_of sender_of created_at messages reads
      thread me other.
Proof.
  intros Hn. unfold Inbox.unread_count, Inbox.unread_count_spec.
  set (keyp := fun r => String.eqb (rd_thread_id r) thread
                        && String.eqb (rd_user_id r) me).
  set (marked := fun r => String.eqb (rd_thread_id r) thread
                          && String.eqb (rd_user_id r) me
                          && match rd_last_read_at r with
                             | Some _ => true
                             | None => false
                             end).
  assert (Hkey : forall r, keyp r = true <-> Inbox.read_key r = (thread, me)).
  { intros r. unfold keyp, Inbox.read_key. rewrite andb_true_iff, !eqb_true.
    split; [intros [-> ->]; reflexivity | intros H; inversion H; auto]. }
  assert (Hgt : forall t,
            filter (fun m => String.eqb (thread_of m) thread
                             && String.eqb (sender_of m) other
                             && (created_at m >? t)) messages
            = filter (fun m => String.eqb (thread_of m) thread
                               && String.eqb (sender_of m) other
                               && (t <? created_at m)) messages)
    by (intros t; apply filter_ext; intros m; now rewrite Z.gtb_ltb).
  destruct (find marked reads) as [r|] eqn:Hfind.
  - apply find_some in Hfind as [Hin Hm]. unfold marked in Hm.
    apply andb_prop in Hm as [Hk Hsome]. fold (keyp r) in Hk.
    rewrite (filter_unique Inbox.read_key keyp reads r Hn Hin).
    + unfold maybeSingle, single. destruct r as [a b [t|] d]; [|discriminate].
      cbn [rd_last_read_at]. now rewrite or_zero_count, Hgt.
    + intros x. rewrite Hkey. apply Hkey in Hk. now rewrite Hk.
  - destruct (filter keyp reads) as [|r rest] eqn:Hf.
    + simpl. apply or_zero_count.
    + assert (Hin : In r (filter keyp reads)) by (rewrite Hf; now left).
      apply filter_In in Hin as [Hin Hk].
      rewrite (filter_unique Inbox.read_key keyp reads r Hn Hin) in Hf.
      * inversion Hf; subst rest. unfold maybeSingle, single.
        pose proof (find_none _ _ Hfind r Hin) as Hnot. unfold marked in Hnot.
        fold (keyp r) in Hnot. rewrite Hk in Hnot.
        destruct r as [a b [t|] d]; [discriminate|].
        apply or_zero_count.
      * intros x. rewrite Hkey. apply Hkey in Hk. now rewrite Hk.
Qed.
End UnreadFacts.

(** The messages of a session that a party of the session can see are all
    of the session's messages. *)
Lemma party_sees_session_messages u db s (p : rp_session_message -> bool) :
  In s (rp_sessions db) -> s_user_a s = u \/ s_user_b s = u ->
  filter (fun m => String.eqb (m_session_id m) (s_id s) && p m)
         (visible_rp_session_messages (Some u) db)
  = filter (fun m => String.eqb (m_session_id m) (s_id s) && p m)
           (rp_session_messages db).
Proof.
  intros Hs Hu. unfold visible_rp_session_messages. apply filter_absorb.
  intros m _ Hm. apply andb_prop in Hm as [Hid _]. apply eqb_true in Hid.
  assert (Hp : is_participant (Some u) s = true).
  { rewrite is_participant_eqb.
    destruct Hu as [<-|<-]; rewrite String.eqb_refl; auto using orb_true_r. }
  unfold rp_session_messages_select. apply existsb_exists. exists s. split.
  - apply filter_In. split; [assumption|]. unfold rp_sessions_select. now rewrite Hp.
  - now rewrite Hid, String.eqb_refl, Hp.
Qed.

Lemma unread_count_ext {M : Type} (thread_of sender_of : M -> uuid)
    (created_at : M -> timestamptz) (l l' : list M) reads thread me other :
  (forall p, filter (fun m => String.eqb (thread_of m) thread && p m) l
             = filter (fun m => String.eqb (thread_of m) thread && p m) l') ->
  Inbox.unread_count thread_of sender_of created_at l reads thread me other
  = Inbox.unread_count thread_of sender_of created_at l' reads thread me other.
Proof.
  intros H. unfold Inbox.unread_count.
  destruct (maybeSingle _) as [[a b [t|] d]|].
  - f_equal. f_equal.
    rewrite (filter_ext _ (fun m => String.eqb (thread_of m) thread
               && (String.eqb (sender_of m) other && (created_at m >? t))));
      [|intros m; now rewrite andb_assoc].
    rewrite (filter_ext (fun m => String.eqb (thread_of m) thread
               && String.eqb (sender_of m) other && (created_at m >? t))
               (fun m => String.eqb (thread_of m) thread
               && (String.eqb (sender_of m) other && (created_at m >? t))));
      [|intros m; now rewrite andb_assoc].
    now rewrite H.
  - f_equal. f_equal. apply H.
  - f_equal. f_equal. apply H.
Qed.

(** C2. On the sessions page and in the DM inbox, the [unread_count] of an
    entry is the number of messages of the other user in that session (or
    thread) whose [created_at] is strictly greater than the user's
    [last_read_at] when a read record with a non-null [last_read_at]
    exists, and the number of all messages of the other user otherwise;
    the other user is the opposite party. Each read-tracking table holds
    one row for each thread and user, its upsert key. *)
Theorem unread_count_watermark (u : uuid) (db : database) (dm : Dm.dm_database)
    (prev_sessions : list SessionsPage.Session)
    (prev_threads : list Dm.ThreadWithLatest) :
  NoDup (map Inbox.read_key (rp_session_reads db)) ->
  NoDup (map Inbox.read_key (Dm.dm_thread_reads dm)) ->
  (forall e, In e (SessionsPage.load (SessionPage.User u) db prev_sessions) ->
     let other := SessionsPage.ou_id (SessionsPage.other e) in
     other = (if String.eqb (SessionsPage.user_a e) u
              then SessionsPage.user_b e else SessionsPage.user_a e)
     /\ SessionsPage.unread_count e
        = Inbox.unread_count_spec m_session_id m_sender_id m_created_at
            (rp_session_messages db) (rp_session_reads db)
            (SessionsPage.id e) u other)
  /\ (forall e, In e (Dm.load (SessionPage.User u) db dm prev_threads) ->
        let other := Dm.other_user_id e in
        other = (if String.eqb (Dm.user_a e) u then Dm.user_b e else Dm.user_a e)
        /\ Dm.unread_count e
           = Inbox.unread_count_spec dm_thread_id dm_sender_id dm_created_at
               (Dm.dm_messages dm) (Dm.dm_thread_reads dm) (Dm.id e) u other).
Proof.
  intros Hs Hd. split.
  - intros e He other. subst other.
    apply load_status_stored in He as [s [Hin [_ [_ [-> Hu]]]]].
    split; [reflexivity|]. cbn.
    rewrite <- unread_count_refines by assumption.
    apply unread_count_ext. intros p.
    now apply party_sees_session_messages.
  - intros e He other. subst other.
    unfold Dm.load in He.
    destruct (order_by_desc t_created_at _) as [|t0 r] eqn:E; [destruct He|].
    rewrite <- E in He. clear E.
    apply stable_sort_In in He. apply in_map_iff in He as [t [<- _]].
    split; [reflexivity|]. cbn.
    now rewrite <- unread_count_refines.
Qed.

Lemma unread_count_watermark_witness :
  map SessionsPage.unread_count
    (SessionsPage.load (SessionPage.User Scenario.alice) Scenario.read_by_alice [])
  = [Inbox.unread_count_spec m_session_id m_sender_id m_created_at
       (rp_session_messages Scenario.read_by_alice)
       (rp_session_reads Scenario.read_by_alice)
       Scenario.tale Scenario.alice Scenario.bob]
  /\ map Dm.unread_count
       (Dm.load (SessionPage.User Scenario.alice) Scenario.read_by_alice
          Scenario.inbox [])
     = [1].
Proof.
  assert (Hs : NoDup (map Inbox.read_key (rp_session_reads Scenario.read_by_alice)))
    by (repeat constructor; simpl; intros []).
  assert (Hd : NoDup (map Inbox.read_key (Dm.dm_thread_reads Scenario.inbox)))
    by (repeat constructor; simpl; intros []).
  destruct (unread_count_watermark Scenario.alice Scenario.read_by_alice
              Scenario.inbox [] [] Hs Hd) as [HS HD].
  split.
  - assert (E : exists e,
               SessionsPage.load (SessionPage.User Scenario.alice)
                 Scenario.read_by_alice [] = [e]
               /\ SessionsPage.id e = Scenario.tale
               /\ SessionsPage.ou_id (SessionsPage.other e) = Scenario.bob)
      by (eexists; repeat split).
    destruct E as [e [E [Eid Eo]]]. rewrite E. simpl. f_equal.
    destruct (HS e) as [_ Hc]; [rewrite E; now left|].
    now rewrite Hc, Eid, Eo.
  - assert (E : exists e,
               Dm.load (SessionPage.User Scenario.alice) Scenario.read_by_alice
                 Scenario.inbox [] = [e]
               /\ Dm.id e = Scenario.chat /\ Dm.other_user_id e = Scenario.bob)
      by (eexists; repeat split).
    destruct E as [e [E [Eid Eo]]]. rewrite E. simpl. f_equal.
    destruct (HD e) as [_ Hc]; [rewrite E; now left|].
    rewrite Hc, Eid, Eo. reflexivity.
Defined.

(** ** [openDmWith] *)

Lemma links_true me other t :
  Dm.links me other t = true <->
  (t_user_a t = me /\ t_user_b t = other) \/ (t_user_a t = other /\ t_user_b t = me).
Proof.
  unfold Dm.links. rewrite orb_true_iff, !andb_true_iff, !eqb_true. reflexivity.
Qed.

(** C7. For a signed-in user: if some [dm_threads] row links the two users
    in either orientation, [openDmWith] returns the id of such a row of
    greatest [created_at] and inserts nothing; if none does, it inserts one
    row, for the caller as [user_a], and returns its id (or throws the
    error of the insert, inserting nothing). A call that returned an id is
    followed, on the table it left, by a call that returns the same id and
    inserts nothing. *)
Theorem openDmWith_idempotent (me other fresh : uuid) (now : timestamptz)
    (insertErr : option string) (threads : list dm_thread) :
  let linked t :=
    (t_user_a t = me /\ t_user_b t = other)
    \/ (t_user_a t = other /\ t_user_b t = me) in
  let r := Dm.openDmWith (SessionPage.User me) other fresh now insertErr threads in
  ((exists t, In t threads /\ linked t) ->
     exists t, In t threads /\ linked t
               /\ (forall t', In t' threads -> linked t' ->
                     t_created_at t' <= t_created_at t)
               /\ r = (Dm.Returned (t_id t), threads))
  /\ ((forall t, In t threads -> ~ linked t) ->
        match insertErr with
        | None => r = (Dm.Returned fresh,
                       threads ++ [mk_dm_thread fresh me other now])
        | Some message => r = (Dm.Thrown message, threads)
        end)
  /\ (forall id threads', r = (Dm.Returned id, threads') ->
        forall fresh' now' insertErr',
          Dm.openDmWith (SessionPage.User me) other fresh' now' insertErr' threads'
          = (Dm.Returned id, threads')).
Proof.
  intros linked r. subst r. unfold Dm.openDmWith, limit.
  destruct (order_by_desc t_created_at (filter (Dm.links me other) threads))
    as [|t rest] eqn:E.
  - apply order_by_desc_nil in E.
    assert (Hnone : forall t, In t threads -> ~ linked t).
    { intros t Ht Hl. apply links_true in Hl.
      assert (Hin : In t (filter (Dm.links me other) threads))
        by (apply filter_In; auto).
      now rewrite E in Hin. }
    split; [|split].
    + intros [t [Ht Hl]]. now elim (Hnone t Ht).
    + intros _. simpl. now destruct insertErr.
    + intros id threads'. simpl. destruct insertErr; [discriminate|].
      intros H; inversion H; subst; clear H. intros fresh' now' insertErr'.
      rewrite filter_app, E. simpl.
      unfold Dm.links. simpl. rewrite !String.eqb_refl. reflexivity.
  - pose proof E as E'. apply order_by_desc_head in E as [Hin Hmax].
    apply filter_In in Hin as [Hin Hl]. apply links_true in Hl.
    split; [|split].
    + intros _. exists t. repeat split; auto.
      intros t' Ht' Hl'. apply Hmax. apply filter_In. split; [assumption|].
      now apply links_true.
    + intros Hnone. now elim (Hnone t Hin).
    + intros id threads'. simpl. intros H; inversion H; subst; clear H.
      intros fresh' now' insertErr'. now rewrite E'.
Qed.

Lemma openDmWith_idempotent_witness :
  Dm.openDmWith (SessionPage.User Scenario.bob) Scenario.alice
    "f0000001-0000-4000-8000-000000000000" 900 None
    (Dm.dm_threads Scenario.inbox)
  = (Dm.Returned Scenario.chat, Dm.dm_threads Scenario.inbox)
  /\ Dm.openDmWith (SessionPage.User Scenario.carol) Scenario.alice
       "f0000002-0000-4000-8000-000000000000" 950 (Some "again")
       (snd (Dm.openDmWith (SessionPage.User Scenario.carol) Scenario.alice
               "f0000001-0000-4000-8000-000000000000" 900 None
               (Dm.dm_threads Scenario.inbox)))
     = (Dm.Returned "f0000001-0000-4000-8000-000000000000",
        Dm.dm_threads Scenario.inbox
        ++ [mk_dm_thread "f0000001-0000-4000-8000-000000000000"
              Scenario.carol Scenario.alice 900]).
Proof.
  split.
  - destruct (openDmWith_idempotent Scenario.bob Scenario.alice
                "f0000001-0000-4000-8000-000000000000" 900 None
                (Dm.dm_threads Scenario.inbox)) as [H _].
    destruct H as [t [Ht [_ [_ Hr]]]].
    + eexists. split; [now left|]. right. split; reflexivity.
    + destruct Ht as [<-|[]]. exact Hr.
  - destruct (openDmWith_idempotent Scenario.carol Scenario.alice
                "f0000001-0000-4000-8000-000000000000" 900 None
                (Dm.dm_threads Scenario.inbox)) as [_ [_ H]].
    apply (H _ _ eq_refl).
Defined.

(** ** The viewer list *)

Lemma firstn_filter_firstn {A : Type} (p : A -> bool) (l : list A) :
  forall n k,
    (List.length (filter (fun x => negb (p x)) l) <= k)%nat ->
    firstn n (filter p (firstn (n + k) l)) = firstn n (filter p l).
Proof.
  induction l as [|x l IH]; intros n k Hk.
  - now rewrite firstn_nil.
  - destruct n as [|n]; [reflexivity|]. simpl in Hk. simpl.
    destruct (p x) eqn:P; simpl in Hk; simpl.
    + f_equal. now apply IH.
    + destruct k as [|k]; [lia|].
      replace (n + S k)%nat with (S n + k)%nat by lia.
      exact (IH (S n) k ltac:(lia)).
Qed.

Lemma NoDup_map_filter {A K : Type} (f : A -> K) (p : A -> bool) (l : list A) :
  NoDup (map f l) -> NoDup (map f (filter p l)).
Proof.
  induction l as [|x l IH]; simpl; [auto|].
  intros H. inversion H as [|? ? Hx Hl]; subst.
  destruct (p x); simpl; auto. constructor; auto.
  intros Hin. apply Hx. apply in_map_iff in Hin as [y [E Hy]].
  apply filter_In in Hy as [Hy _]. rewrite <- E. now apply in_map.
Qed.

Lemma In_firstn {A : Type} (n : nat) (l : list A) (x : A) :
  In x (firstn n l) -> In x l.
Proof.
  revert n. induction l as [|y l IH]; intros [|n]; simpl;
    try (intros []; fail).
  intros [H|H]; eauto.
Qed.

Section SortedPrefix.
Context {A : Type} (key : A -> Z).
Let desc (a b : A) : Prop := key b <= key a.

Lemma sorted_firstn (n : nat) (l : list A) :
  StronglySorted desc l -> StronglySorted desc (firstn n l).
Proof.
  intros H. revert n. induction H as [|x l Hl IH Hx]; intros [|n]; simpl;
    try constructor; auto.
  apply Forall_forall. intros y Hy. rewrite Forall_forall in Hx.
  apply Hx. eapply In_firstn; eassumption.
Qed.

Lemma sorted_filter (p : A -> bool) (l : list A) :
  StronglySorted desc l -> StronglySorted desc (filter p l).
Proof.
  induction 1 as [|x l Hl IH Hx]; simpl; [constructor|].
  destruct (p x); [|assumption]. constructor; [assumption|].
  apply Forall_forall. intros y Hy. rewrite Forall_forall in Hx.
  apply Hx. now apply filter_In in Hy.
Qed.

(** A row of a sorted list is in the prefix of length [n], or the prefix
    is full and made of rows that sort no later. *)
Lemma sorted_prefix_complete (n : nat) (l : list A) (v : A) :
  StronglySorted desc l -> In v l ->
  In v (firstn n l)
  \/ (List.length (firstn n l) = n
      /\ forall x, In x (firstn n l) -> key v <= key x).
Proof.
  intros H. revert n. induction H as [|x l Hl IH Hx]; intros n Hv; [destruct Hv|].
  destruct n as [|n]; [right; split; [reflexivity|intros ? []]|].
  simpl. destruct Hv as [->|Hv]; [left; now left|].
  destruct (IH n Hv) as [Hin|[Hlen Hall]]; [left; now right|].
  right. split; [now rewrite Hlen|].
  intros y [<-|Hy]; [|now apply Hall].
  rewrite Forall_forall in Hx. apply (Hx v Hv).
Qed.

Lemma sorted_map {B : Type} (f : A -> B) (key' : B -> Z) (l : list A) :
  (forall x, key' (f x) = key x) ->
  StronglySorted desc l ->
  StronglySorted (fun a b => key' b <= key' a) (map f l).
Proof.
  intros Hk. induction 1 as [|x l Hl IH Hx]; simpl; constructor; auto.
  apply Forall_forall. intros y Hy. apply in_map_iff in Hy as [z [<- Hz]].
  rewrite !Hk. rewrite Forall_forall in Hx. now apply Hx.
Qed.
End SortedPrefix.

Lemma filter_map_comm {A B : Type} (f : A -> B) (p : B -> bool) (l : list A) :
  filter p (map f l) = map f (filter (fun x => p (f x)) l).
Proof.
  induction l as [|x l IH]; simpl; [reflexivity|].
  destruct (p (f x)); simpl; now rewrite IH.
Qed.

Lemma filter_andb {A : Type} (p q : A -> bool) (l : list A) :
  filter (fun x => p x && q x) l = filter q (filter p l).
Proof.
  induction l as [|x l IH]; simpl; [reflexivity|].
  destruct (p x); simpl; [destruct (q x)|]; now rewrite IH.
Qed.

(** In a public session every viewer row of the session is visible to
    everybody. *)
Lemma public_session_viewers_visible uid db s (p : rp_session_viewer -> bool) :
  In s (rp_sessions db) -> s_is_public s = true ->
  filter (fun v => String.eqb (v_session_id v) (s_id s) && p v)
         (visible_rp_session_viewers uid db)
  = filter (fun v => String.eqb (v_session_id v) (s_id s) && p v)
           (rp_session_viewers db).
Proof.
  intros Hs Hp. unfold visible_rp_session_viewers. apply filter_absorb.
  intros v _ Hv. apply andb_prop in Hv as [Hid _]. apply eqb_true in Hid.
  unfold rp_session_viewers_select. apply orb_true_iff. left.
  apply existsb_exists. exists s. split.
  - apply filter_In. split; [assumption|].
    unfold rp_sessions_select. now rewrite Hp, orb_true_r.
  - now rewrite Hid, String.eqb_refl, Hp.
Qed.

(** By the UNIQUE constraint a session has at most two viewer rows of its
    own parties. *)
Lemma at_most_two_party_rows (s : rp_session) (l : list rp_session_viewer) :
  NoDup (map viewer_key l) ->
  (forall v, In v l -> v_session_id v = s_id s) ->
  (List.length
     (filter (fun v => negb (negb (String.eqb (v_user_id v) (s_user_a s))
                             && negb (String.eqb (v_user_id v) (s_user_b s))))
             l) <= 2)%nat.
Proof.
  intros Hn Hsid.
  set (party := fun v => negb (negb (String.eqb (v_user_id v) (s_user_a s))
                               && negb (String.eqb (v_user_id v) (s_user_b s)))).
  rewrite <- (length_map viewer_key).
  change 2%nat with (List.length [(s_id s, s_user_a s); (s_id s, s_user_b s)]).
  apply NoDup_incl_length; [now apply NoDup_map_filter|].
  intros k Hk. apply in_map_iff in Hk as [v [<- Hv]].
  apply filter_In in Hv as [Hv Hp]. unfold party in Hp.
  unfold viewer_key. rewrite (Hsid v Hv).
  apply negb_true_iff, andb_false_iff in Hp.
  destruct Hp as [Hp|Hp]; apply negb_false_iff, eqb_true in Hp; rewrite Hp;
    simpl; auto.
Qed.

(** [loadViewers] computes the list of the specification: fetching twenty
    rows before dropping the parties loses nothing, because the parties
    account for at most two of them, and the client-side sort finds the
    rows already in order. *)
Lemma loadViewers_refines me s now db :
  In s (rp_sessions db) -> s_is_public s = true ->
  NoDup (map viewer_key (rp_session_viewers db)) ->
  SessionPage.loadViewers me s (s_id s) now db
  = SessionPage.viewer_list_spec s (s_id s) now db.
Proof.
  intros Hs Hpub Hn.
  unfold SessionPage.loadViewers, SessionPage.viewer_list_spec, limit. cbv zeta.
  rewrite (public_session_viewers_visible me db s
             (fun v => now - 2 * 60 * 1000 <=? v_last_seen v) Hs Hpub).
  set (act := fun v => String.eqb (v_session_id v) (s_id s)
                       && (now - 2 * 60 * 1000 <=? v_last_seen v)).
  set (np := fun v => negb (String.eqb (v_user_id v) (s_user_a s))
                      && negb (String.eqb (v_user_id v) (s_user_b s))).
  set (L := order_by_desc v_joined_at (filter act (rp_session_viewers db))).
  assert (HL : StronglySorted (fun a b => v_joined_at b <= v_joined_at a) L)
    by apply order_by_desc_sorted.
  assert (HLin : forall v, In v L -> In v (rp_session_viewers db) /\ act v = true).
  { intros v Hv. unfold L, order_by_desc in Hv. apply stable_sort_In in Hv.
    now apply filter_In in Hv. }
  assert (HLn : NoDup (map viewer_key L)).
  { apply (Permutation_NoDup (l := map viewer_key (filter act (rp_session_viewers db)))).
    - apply Permutation_map. unfold L, order_by_desc. apply stable_sort_perm.
    - now apply NoDup_map_filter. }
  transitivity
    (firstn 10
       (order_by_desc SessionPage.viewer_joined_at
          (filter (fun viewer =>
                     negb (String.eqb (SessionPage.viewer_user_id viewer) (s_user_a s))
                     && negb (String.eqb (SessionPage.viewer_user_id viewer) (s_user_b s)))
                  (map (SessionPage.viewer_of db) (firstn 20 L))))).
  { destruct (firstn 20 L); reflexivity. }
  rewrite filter_map_comm.
  change (fun x => negb (String.eqb (SessionPage.viewer_user_id (SessionPage.viewer_of db x))
                                    (s_user_a s))
                   && negb (String.eqb (SessionPage.viewer_user_id (SessionPage.viewer_of db x))
                                       (s_user_b s)))
    with np.
  rewrite order_by_desc_of_sorted.
  2:{ apply (sorted_map v_joined_at); [reflexivity|].
      apply sorted_filter, sorted_firstn, HL. }
  rewrite firstn_map. f_equal.
  change 20%nat with (10 + 10)%nat.
  rewrite firstn_filter_firstn.
  2:{ etransitivity; [apply (at_most_two_party_rows s L HLn)|lia].
      intros v Hv. apply HLin in Hv as [_ Hv]. unfold act in Hv.
      apply andb_prop in Hv as [Hv _]. now apply eqb_true in Hv. }
  unfold L. rewrite filter_order_by_desc. f_equal.
  rewrite <- filter_andb. reflexivity.
Qed.

(** ** The heartbeat *)

Lemma status_check_forget l l' :
  map (with_max_viewers None) l' = map (with_max_viewers None) l ->
  Forall (fun s => rp_sessions_status_check s = true) l ->
  Forall (fun s => rp_sessions_status_check s = true) l'.
Proof.
  intros E H.
  assert (H1 : Forall (fun s => rp_sessions_status_check s = true)
                 (map (with_max_viewers None) l))
    by (apply Forall_map; exact H).
  rewrite <- E in H1. apply Forall_map in H1. exact H1.
Qed.

Lemma public_session_forget l l' s :
  map (with_max_viewers None) l' = map (with_max_viewers None) l ->
  In s l -> s_is_public s = true ->
  exists s', In s' l' /\ s_id s' = s_id s /\ s_is_public s' = true.
Proof.
  intros E Hs Hp.
  assert (H : In (with_max_viewers None s) (map (with_max_viewers None) l'))
    by (rewrite E; now apply in_map).
  apply in_map_iff in H as [s' [E' Hs']]. exists s'. split; [assumption|].
  split.
  - change (s_id (with_max_viewers None s') = s_id s). now rewrite E'.
  - change (s_is_public (with_max_viewers None s') = true). now rewrite E'.
Qed.

Lemma update_session_max_viewers_total uid NEW OLD db :
  Forall (fun s => rp_sessions_status_check s = true) (rp_sessions db) ->
  exists db',
    update_session_max_viewers uid NEW OLD db = Ok db'
    /\ rp_session_viewers db' = rp_session_viewers db
    /\ map (with_max_viewers None) (rp_sessions db')
       = map (with_max_viewers None) (rp_sessions db).
Proof.
  intros Hst. unfold update_session_max_viewers.
  destruct (match NEW with Some n => _ | None => _ end) as [sid|];
    [|exists db; auto].
  destruct (select_into _) as [cur|]; [|exists db; auto].
  destruct (_ >? cur); [|exists db; auto].
  rewrite update_rp_sessions_succeeds.
  - eexists. split; [reflexivity|]. simpl. split; [reflexivity|].
    rewrite map_map. apply map_ext. intros s.
    now destruct (update_target uid _ s).
  - intros s Hs Ht. rewrite Forall_forall in Hst. split.
    + exact (Hst s Hs).
    + unfold update_target in Ht. now apply andb_prop in Ht as [_ Ht].
Qed.

Lemma fire_update_triggers_total uid changed db :
  Forall (fun s => rp_sessions_status_check s = true) (rp_sessions db) ->
  exists db',
    fire_update_triggers uid changed db = Ok db'
    /\ rp_session_viewers db' = rp_session_viewers db
    /\ map (with_max_viewers None) (rp_sessions db')
       = map (with_max_viewers None) (rp_sessions db).
Proof.
  revert db. induction changed as [|[old new] rest IH]; intros db Hst; simpl.
  - exists db. auto.
  - destruct (v_last_seen old =? v_last_seen new); simpl; [now apply IH|].
    destruct (update_session_max_viewers_total uid (Some new) (Some old) db Hst)
      as [db1 [E1 [Ev1 Es1]]].
    rewrite E1. simpl.
    destruct (IH db1 (status_check_forget _ _ Es1 Hst)) as [db2 [E2 [Ev2 Es2]]].
    exists db2. split; [assumption|]. split; congruence.
Qed.

(** One heartbeat in a public session: the user's row, and no other, gets
    the new [last_seen]. *)
Lemma heartbeat_touches_own_row u s t db :
  Forall (fun x => rp_sessions_status_check x = true) (rp_sessions db) ->
  In s (rp_sessions db) -> s_is_public s = true ->
  let db' := SessionPage.heartbeat (Some u) true (s_id s) t db in
  rp_session_viewers db'
  = map (fun v => if same_viewer_key (s_id s) u v then with_last_seen t v else v)
        (rp_session_viewers db)
  /\ map (with_max_viewers None) (rp_sessions db')
     = map (with_max_viewers None) (rp_sessions db).
Proof.
  intros Hst Hs Hp db'. subst db'.
  unfold SessionPage.heartbeat, update_rp_session_viewer_last_seen.
  assert (Hhit : forall v, viewer_update_target (Some u) db (s_id s) u v
                           = same_viewer_key (s_id s) u v).
  { intros v. unfold viewer_update_target.
    destruct (same_viewer_key (s_id s) u v) eqn:K; [|reflexivity].
    unfold same_viewer_key in K. apply andb_prop in K as [Ki Ku].
    apply eqb_true in Ki, Ku. simpl.
    rewrite Ku, String.eqb_refl, andb_true_r.
    unfold rp_session_viewers_select. apply orb_true_iff. left.
    apply existsb_exists. exists s. split.
    - apply filter_In. split; [assumption|].
      unfold rp_sessions_select. now rewrite Hp, orb_true_r.
    - now rewrite Ki, String.eqb_refl, Hp. }
  rewrite (filter_ext _ _ Hhit).
  rewrite (map_ext _ (fun v => if same_viewer_key (s_id s) u v
                               then with_last_seen t v else v))
    by (intros v; now rewrite Hhit).
  match goal with
  | |- context [fire_update_triggers ?a ?c ?d] =>
      destruct (fire_update_triggers_total a c d Hst) as [db2 [E [Ev Es]]]
  end.
  rewrite E. simpl. split; assumption.
Qed.

Lemma touch_twice sid u t t' (l : list rp_session_viewer) :
  map (fun v => if same_viewer_key sid u v then with_last_seen t' v else v)
      (map (fun v => if same_viewer_key sid u v then with_last_seen t v else v) l)
  = map (fun v => if same_viewer_key sid u v then with_last_seen t' v else v) l.
Proof.
  rewrite map_map. apply map_ext. intros v.
  destruct (same_viewer_key sid u v) eqn:K; [|now rewrite K].
  unfold same_viewer_key in *. simpl. now rewrite K.
Qed.

Lemma heartbeats_touch_own_row u s t0 db (n : nat) :
  Forall (fun x => rp_sessions_status_check x = true) (rp_sessions db) ->
  In s (rp_sessions db) -> s_is_public s = true ->
  let db' := SessionPage.heartbeats (Some u) (s_id s) t0 (S n) db in
  rp_session_viewers db'
  = map (fun v => if same_viewer_key (s_id s) u v
                  then with_last_seen (t0 + Z.of_nat (S n) * 30000) v else v)
        (rp_session_viewers db)
  /\ map (with_max_viewers None) (rp_sessions db')
     = map (with_max_viewers None) (rp_sessions db).
Proof.
  intros Hst Hs Hp. induction n as [|n IH]; intros db'; subst db'.
  - exact (heartbeat_touches_own_row u s _ db Hst Hs Hp).
  - destruct IH as [Ev Es].
    set (dbn := SessionPage.heartbeats (Some u) (s_id s) t0 (S n) db) in *.
    destruct (public_session_forget _ _ s Es Hs Hp) as [s' [Hs' [Eid Hp']]].
    pose proof (heartbeat_touches_own_row u s'
                  (SessionPage.fires_at t0 SessionPage.heartbeat_interval (S (S n)))
                  dbn (status_check_forget _ _ Es Hst) Hs' Hp') as [Ev' Es'].
    rewrite Eid in Ev', Es'.
    change (SessionPage.heartbeats (Some u) (s_id s) t0 (S (S n)) db)
      with (SessionPage.heartbeat (Some u) true (s_id s)
              (SessionPage.fires_at t0 SessionPage.heartbeat_interval (S (S n))) dbn).
    split; [|congruence].
    rewrite Ev', Ev. apply touch_twice.
Qed.

(** ** The viewer peak *)

(** The trigger function runs with the rights of the user whose statement
    fired it. When that user is a party of no session, the UPDATE inside
    [update_session_max_viewers] finds no row it may touch. *)
Lemma update_session_max_viewers_of_spectator uid NEW OLD db db' :
  (forall s, In s (rp_sessions db) -> is_participant uid s = false) ->
  update_session_max_viewers uid NEW OLD db = Ok db' ->
  rp_sessions db' = rp_sessions db.
Proof.
  intros Hnp. unfold update_session_max_viewers.
  destruct (match NEW with Some n => _ | None => _ end) as [sid|];
    [|intros H; now inversion H].
  destruct (select_into _) as [cur|]; [|intros H; now inversion H].
  destruct (_ >? cur); [|intros H; now inversion H].
  intros H. apply update_rp_sessions_Ok in H as [-> _]. simpl.
  rewrite <- (map_id (rp_sessions db)) at 2.
  apply map_ext_in. intros s Hs.
  unfold update_target, rp_sessions_update_participants.
  now rewrite (Hnp s Hs), andb_false_r.
Qed.

(** C1 (the code falls short of it). Carol, signed in and no party of the
    public session, opens its page: her viewer row is inserted, the
    session then has one viewer row, and [max_viewers] is still 0, not the
    maximum of its previous value and the row count. The trigger's UPDATE
    of [rp_sessions] is filtered by ["rp_sessions_update_participants"].
    When alice, a party, opens the page next, her statement's trigger does
    raise [max_viewers], to the count of all rows, her own included. *)
Theorem max_viewers_misses_spectators :
  SessionPage.trackViewer (Some Scenario.carol) Scenario.tale 400000 400001
    Scenario.answered = Scenario.watched
  /\ map s_max_viewers (rp_sessions Scenario.answered) = [Some 0]
  /\ rp_session_viewers Scenario.answered = []
  /\ rp_session_viewers Scenario.watched
     = [mk_rp_session_viewer Scenario.tale Scenario.carol 400001 400000]
  /\ map s_max_viewers (rp_sessions Scenario.watched) = [Some 0]
  /\ map s_max_viewers (rp_sessions Scenario.watched_by_both) = [Some 2].
Proof. repeat split. Qed.

(** A side remark on [calculate_response_time]: bob's answer to a line of
    alice that has no edit stamp records no response time, because
    [prev_message IS NOT NULL] is false for a row with a null field. *)
Remark response_time_needs_a_row_without_nulls :
  let plain := mk_rp_session_message (m_id Scenario.line1) Scenario.tale
                 Scenario.alice "narration" (m_body Scenario.line1)
                 (Some Scenario.hero) 10000 None in
  rp_response_times
    (run (Some Scenario.bob) (InsertMessage Scenario.line2)
       (run (Some Scenario.alice) (InsertMessage plain) Scenario.opened))
  = [].
Proof. reflexivity. Qed.

(** The part of the viewer-peak bookkeeping that does hold: no statement
    on [rp_session_viewers], by whomever, lowers [max_viewers]. *)
Lemma raises_max_viewers_refl l : raises_max_viewers l l.
Proof.
  exists (fun s => s). split; [now rewrite map_id|]. intros s _. split; [reflexivity|lia].
Qed.

Lemma raises_max_viewers_trans l1 l2 l3 :
  raises_max_viewers l1 l2 -> raises_max_viewers l2 l3 -> raises_max_viewers l1 l3.
Proof.
  intros [f [-> Hf]] [g [-> Hg]]. exists (fun s => g (f s)). split.
  - now rewrite map_map.
  - intros s Hs. destruct (Hf s Hs) as [Ef Lf].
    destruct (Hg (f s) (in_map f l1 s Hs)) as [Eg Lg].
    split; [congruence|lia].
Qed.

Lemma raises_max_viewers_ids l l' :
  raises_max_viewers l l' -> map s_id l' = map s_id l.
Proof.
  intros [f [-> Hf]]. rewrite map_map. apply map_ext_in. intros s Hs.
  destruct (Hf s Hs) as [E _].
  change (s_id (with_max_viewers None (f s)) = s_id s). now rewrite E.
Qed.

Lemma update_session_max_viewers_raises uid NEW OLD db db' :
  NoDup (map s_id (rp_sessions db)) ->
  update_session_max_viewers uid NEW OLD db = Ok db' ->
  raises_max_viewers (rp_sessions db) (rp_sessions db')
  /\ rp_session_viewers db' = rp_session_viewers db.
Proof.
  intros Hpk. unfold update_session_max_viewers.
  destruct (match NEW with Some n => _ | None => _ end) as [sid|];
    [|intros H; inversion H; subst; split; [apply raises_max_viewers_refl|auto]].
  destruct (select_into _) as [cur|] eqn:Hcur;
    [|intros H; inversion H; subst; split; [apply raises_max_viewers_refl|auto]].
  destruct (_ >? cur) eqn:Hgt;
    [|intros H; inversion H; subst; split; [apply raises_max_viewers_refl|auto]].
  intros H. apply update_rp_sessions_Ok in H as [-> _]. simpl. split; [|reflexivity].
  exists (fun s => if update_target uid (fun s0 => String.eqb (s_id s0) sid) s
                   then with_max_viewers
                          (Some (Z.of_nat (List.length
                             (filter (fun v => String.eqb (v_session_id v) sid)
                                     (visible_rp_session_viewers uid db))))) s
                   else s).
  split; [reflexivity|]. intros s Hs.
  destruct (update_target uid (fun s0 => String.eqb (s_id s0) sid) s) eqn:Ht;
    [|split; [reflexivity|lia]].
  split; [reflexivity|].
  apply select_into_map_filter in Hcur as [a [Ha [Hida Hmva]]].
  apply filter_In in Ha as [Ha _].
  unfold update_target in Ht. apply andb_prop in Ht as [Ht _].
  apply andb_prop in Ht as [Hids _]. apply eqb_true in Hids, Hida.
  assert (a = s) by (apply (NoDup_map_inj s_id (rp_sessions db)); congruence).
  subst a. unfold max_viewers_or_zero at 1. rewrite Hmva.
  unfold max_viewers_or_zero. simpl.
  rewrite Z.gtb_ltb in Hgt. apply Z.ltb_lt in Hgt. lia.
Qed.

Lemma fire_update_triggers_raises uid changed db db' :
  NoDup (map s_id (rp_sessions db)) ->
  fire_update_triggers uid changed db = Ok db' ->
  raises_max_viewers (rp_sessions db) (rp_sessions db')
  /\ rp_session_viewers db' = rp_session_viewers db.
Proof.
  revert db. induction changed as [|[old new] rest IH]; intros db Hpk; simpl.
  - intros H; inversion H; subst. split; [apply raises_max_viewers_refl|auto].
  - destruct (v_last_seen old =? v_last_seen new); simpl; [now apply IH|].
    destruct (update_session_max_viewers uid (Some new) (Some old) db)
      as [db1|e] eqn:E; simpl; [|discriminate].
    apply update_session_max_viewers_raises in E as [R1 V1]; [|assumption].
    intros H. apply IH in H as [R2 V2].
    + split; [eapply raises_max_viewers_trans; eassumption | congruence].
    + now rewrite (raises_max_viewers_ids _ _ R1).
Qed.

Lemma max_viewers_never_decreases uid st db :
  NoDup (map s_id (rp_sessions db)) ->
  match st with
  | InsertViewer _ | UpsertViewer _ _ _ _
  | UpdateViewerLastSeen _ _ _ | DeleteViewer _ _ =>
      raises_max_viewers (rp_sessions db) (rp_sessions (run uid st db))
  | _ => True
  end.
Proof.
  intros Hpk. destruct st; try exact I; cbn [run].
  - unfold insert_rp_session_viewer.
    destruct (viewer_is_self uid row); simpl; [|apply raises_max_viewers_refl].
    destruct (references_rp_sessions db _); simpl; [|apply raises_max_viewers_refl].
    destruct (existsb _ _); simpl; [apply raises_max_viewers_refl|].
    destruct (update_session_max_viewers uid _ _ _) as [db'|e] eqn:E; simpl;
      [|apply raises_max_viewers_refl].
    now apply update_session_max_viewers_raises in E as [R _].
  - unfold upsert_rp_session_viewer.
    destruct (viewer_is_self uid _); simpl; [|apply raises_max_viewers_refl].
    destruct (rp_session_viewers_select uid db _); simpl; [|apply raises_max_viewers_refl].
    destruct (existsb (same_viewer_key _ _) _).
    + destruct (fire_update_triggers uid _ _) as [db'|e] eqn:E; simpl;
        [|apply raises_max_viewers_refl].
      now apply fire_update_triggers_raises in E as [R _].
    + unfold insert_rp_session_viewer.
      destruct (viewer_is_self uid _); simpl; [|apply raises_max_viewers_refl].
      destruct (references_rp_sessions db _); simpl; [|apply raises_max_viewers_refl].
      destruct (existsb _ _); simpl; [apply raises_max_viewers_refl|].
      destruct (update_session_max_viewers uid _ _ _) as [db'|e] eqn:E; simpl;
        [|apply raises_max_viewers_refl].
      now apply update_session_max_viewers_raises in E as [R _].
  - unfold update_rp_session_viewer_last_seen.
    destruct (fire_update_triggers uid _ _) as [db'|e] eqn:E; simpl;
      [|apply raises_max_viewers_refl].
    now apply fire_update_triggers_raises in E as [R _].
  - apply raises_max_viewers_refl.
Qed.

(* ================================================================== *)
(** * Further properties of the modelled code *)
(* ================================================================== *)

(** ** Keys kept by every history *)

Lemma existsb_key_false {A : Type} (p : A -> bool) (l : list A) :
  existsb p l = false -> forall x, In x l -> p x = false.
Proof.
  intros H x Hx. destruct (p x) eqn:E; [|reflexivity].
  assert (existsb p l = true) by (apply existsb_exists; eauto). congruence.
Qed.

Lemma update_rp_sessions_ids uid where_ set db db' :
  (forall s, s_id (set s) = s_id s) ->
  update_rp_sessions uid where_ set db = Ok db' ->
  map s_id (rp_sessions db') = map s_id (rp_sessions db)
  /\ rp_session_viewers db' = rp_session_viewers db.
Proof.
  intros Hset H. apply update_rp_sessions_Ok in H as [-> _]. simpl.
  split; [|reflexivity]. rewrite map_map. apply map_ext. intros s.
  now destruct (update_target uid where_ s).
Qed.

Lemma insert_rp_session_message_ids uid NEW db db' :
  insert_rp_session_message uid NEW db = Ok db' ->
  map s_id (rp_sessions db') = map s_id (rp_sessions db).
Proof.
  intros H. apply insert_rp_session_message_Ok in H as [_ [_ H]].
  apply calculate_response_time_Ok in H as [db1 [Hu [Es _]]].
  apply update_rp_sessions_ids in Hu as [E _]; [|reflexivity].
  simpl in Es. now rewrite E, Es.
Qed.

Lemma touch_keys (t : timestamptz) (l : list rp_session_viewer)
    (hit : rp_session_viewer -> bool) :
  map viewer_key (map (fun v => if hit v then with_last_seen t v else v) l)
  = map viewer_key l.
Proof.
  rewrite map_map. apply map_ext. intros v. now destruct (hit v).
Qed.

Lemma insert_rp_session_viewer_keys uid NEW db db' :
  NoDup (map s_id (rp_sessions db)) ->
  NoDup (map viewer_key (rp_session_viewers db)) ->
  insert_rp_session_viewer uid NEW db = Ok db' ->
  NoDup (map s_id (rp_sessions db'))
  /\ NoDup (map viewer_key (rp_session_viewers db')).
Proof.
  intros Hs Hv. unfold insert_rp_session_viewer.
  destruct (viewer_is_self uid NEW); simpl; [|discriminate].
  destruct (references_rp_sessions db (v_session_id NEW)); simpl; [|discriminate].
  destruct (existsb _ _) eqn:Hex; simpl; [discriminate|].
  intros H. apply update_session_max_viewers_raises in H as [R V]; [|exact Hs].
  simpl in R, V. rewrite (raises_max_viewers_ids _ _ R), V. split; [assumption|].
  rewrite map_app. simpl.
  apply (Permutation_NoDup (l := viewer_key NEW :: map viewer_key (rp_session_viewers db))).
  - apply Permutation_cons_append.
  - constructor; [|assumption].
    intros Hin. apply in_map_iff in Hin as [v [E Hin]].
    pose proof (existsb_key_false _ _ Hex v Hin) as Hk.
    unfold same_viewer_key, viewer_key in *. inversion E as [[E1 E2]].
    now rewrite E1, E2, !String.eqb_refl in Hk.
Qed.

Lemma run_keeps_keys uid st db :
  NoDup (map s_id (rp_sessions db)) ->
  NoDup (map viewer_key (rp_session_viewers db)) ->
  NoDup (map s_id (rp_sessions (run uid st db)))
  /\ NoDup (map viewer_key (rp_session_viewers (run uid st db))).
Proof.
  intros Hs Hv. destruct st; cbn [run].
  - unfold insert_rp_session.
    destruct (rp_sessions_status_check row); simpl; [|auto].
    destruct (existsb _ _) eqn:Hex; simpl; [auto|].
    destruct (rp_sessions_insert_participants uid row); simpl; [|auto].
    split; [|assumption]. rewrite map_app. simpl.
    apply (Permutation_NoDup (l := s_id row :: map s_id (rp_sessions db)));
      [apply Permutation_cons_append|].
    constructor; [|assumption].
    intros Hin. apply in_map_iff in Hin as [s [E Hin]].
    pose proof (existsb_key_false _ _ Hex s Hin) as Hk. simpl in Hk.
    now rewrite E, String.eqb_refl in Hk.
  - destruct (update_rp_sessions uid _ _ db) as [db'|e] eqn:E; simpl; [|auto].
    apply update_rp_sessions_ids in E as [Ei Ev];
      [|intros s; now destruct (apply_patch_parties p s)].
    now rewrite Ei, Ev.
  - destruct (insert_rp_session_message uid row db) as [db'|e] eqn:E; simpl; [|auto].
    rewrite (insert_rp_session_message_ids _ _ _ _ E).
    apply insert_rp_session_message_evolves in E as [_ [_ Ev]]. now rewrite Ev.
  - destruct (insert_rp_session_viewer uid row db) as [db'|e] eqn:E; simpl; [|auto].
    now apply insert_rp_session_viewer_keys in E.
  - unfold upsert_rp_session_viewer.
    destruct (viewer_is_self uid _); simpl; [|auto].
    destruct (rp_session_viewers_select uid db _); simpl; [|auto].
    destruct (existsb (same_viewer_key _ _) _).
    + destruct (fire_update_triggers uid _ _) as [db'|e] eqn:E; simpl; [|auto].
      apply fire_update_triggers_raises in E as [R V]; [|exact Hs].
      simpl in R, V. rewrite (raises_max_viewers_ids _ _ R), V.
      split; [assumption|]. now rewrite touch_keys.
    + destruct (insert_rp_session_viewer uid _ db) as [db'|e] eqn:E; simpl; [|auto].
      now apply insert_rp_session_viewer_keys in E.
  - unfold update_rp_session_viewer_last_seen.
    destruct (fire_update_triggers uid _ _) as [db'|e] eqn:E; simpl; [|auto].
    apply fire_update_triggers_raises in E as [R V]; [|exact Hs].
    simpl in R, V. rewrite (raises_max_viewers_ids _ _ R), V.
    split; [assumption|]. now rewrite touch_keys.
  - simpl. split; [assumption|]. now apply NoDup_map_filter.
  - simpl. auto.
Qed.

(** X1. In every database that statements lead to from the empty schema,
    no two [rp_sessions] rows share an [id] and no two
    [rp_session_viewers] rows share [(session_id, user_id)]: the primary
    key and the UNIQUE constraint, which the upsert of [trackViewer]
    relies on, hold throughout. *)
Theorem reachable_keys (db : database) :
  reachable db ->
  NoDup (map s_id (rp_sessions db))
  /\ NoDup (map viewer_key (rp_session_viewers db)).
Proof.
  induction 1 as [|uid st db _ [Hs Hv]].
  - split; constructor.
  - now apply run_keeps_keys.
Qed.

Lemma reachable_keys_witness :
  NoDup (map s_id (rp_sessions Scenario.watched_by_both))
  /\ NoDup (map viewer_key (rp_session_viewers Scenario.watched_by_both)).
Proof.
  apply reachable_keys. repeat apply reach_run. apply reach_empty.
Defined.

(** ** More on the viewer rows and the peak *)

Lemma same_columns_refl (l : list rp_session) : Forall2 same_columns l l.
Proof.
  induction l as [|s l IH]; constructor; [|exact IH].
  unfold same_columns. repeat split.
Qed.

Lemma raises_max_viewers_columns l l' :
  raises_max_viewers l l' ->
  Forall2 (fun s s' => same_columns_but_max_viewers s s'
                       /\ max_viewers_or_zero s <= max_viewers_or_zero s') l l'.
Proof.
  intros [f [-> Hf]]. induction l as [|s l IH]; simpl; constructor.
  - destruct (Hf s (or_introl eq_refl)) as [E Hle]. split; [|exact Hle].
    unfold same_columns_but_max_viewers.
    repeat split;
      match goal with
      | |- ?p (f s) = ?p s =>
          change (p (with_max_viewers None (f s)) = p (with_max_viewers None s));
          now rewrite E
      end.
  - apply IH. intros x Hx. apply Hf. now right.
Qed.

(** X2. Whatever the page does to [rp_session_viewers] for whatever user
    ([trackViewer], a heartbeat, the cleanup), in a database that statements
    lead to, the rows of [rp_sessions] stay the same in number and order,
    each keeps its [id], [user_a], [user_b], [status], [is_active],
    [last_message_at], [reminder_sent_at], [created_at], [name], [style]
    and [is_public], and its [max_viewers] (NULL read as 0) does not go
    down. Nothing is said of [updated_at], which its own trigger stamps
    whenever the viewer trigger updates a row. *)
Theorem viewer_tracking_never_lowers_max_viewers (db : database)
    (me : option uuid) (sessionId : uuid) (now db_now : timestamptz)
    (mounted : bool) :
  reachable db ->
  let kept s s' :=
    same_columns_but_max_viewers s s'
    /\ max_viewers_or_zero s <= max_viewers_or_zero s' in
  Forall2 kept (rp_sessions db)
    (rp_sessions (SessionPage.trackViewer me sessionId now db_now db))
  /\ Forall2 kept (rp_sessions db)
       (rp_sessions (SessionPage.heartbeat me mounted sessionId now db))
  /\ Forall2 kept (rp_sessions db)
       (rp_sessions (SessionPage.viewer_cleanup me sessionId db)).
Proof.
  intros Hr kept. subst kept.
  assert (Hpk : NoDup (map s_id (rp_sessions db))).
  { clear - Hr. 
    assert (H : NoDup (map s_id (rp_sessions db))
                /\ NoDup (map viewer_key (rp_session_viewers db))).
    { induction Hr as [|uid st db _ [Hs Hv]];
        [split; constructor|now apply run_keeps_keys]. }
    exact (proj1 H). }
  destruct me as [u|]; simpl;
    [|repeat split; apply raises_max_viewers_columns, raises_max_viewers_refl].
  split; [|split]; apply raises_max_viewers_columns.
  - exact (max_viewers_never_decreases (Some u)
             (UpsertViewer sessionId u now db_now) db Hpk).
  - destruct mounted; [|apply raises_max_viewers_refl].
    exact (max_viewers_never_decreases (Some u)
             (UpdateViewerLastSeen sessionId u now) db Hpk).
  - apply raises_max_viewers_refl.
Qed.

Lemma viewer_tracking_never_lowers_max_viewers_witness :
  Forall2 (fun s s' => same_columns_but_max_viewers s s'
                       /\ max_viewers_or_zero s <= max_viewers_or_zero s')
    (rp_sessions Scenario.watched) (rp_sessions Scenario.watched_by_both).
Proof.
  assert (Hr : reachable Scenario.watched)
    by (repeat apply reach_run; apply reach_empty).
  exact (proj1 (viewer_tracking_never_lowers_max_viewers Scenario.watched
                  (Some Scenario.alice) Scenario.tale 410000 410001 true Hr)).
Defined.

(** A party of a session sees all its viewer rows. *)
Lemma party_sees_session_viewers uid db s :
  In s (rp_sessions db) -> is_participant uid s = true ->
  filter (fun v => String.eqb (v_session_id v) (s_id s))
         (visible_rp_session_viewers uid db)
  = filter (fun v => String.eqb (v_session_id v) (s_id s)) (rp_session_viewers db).
Proof.
  intros Hs Hp. unfold visible_rp_session_viewers. apply filter_absorb.
  intros v _ Hv. apply eqb_true in Hv.
  unfold rp_session_viewers_select. apply orb_true_iff. right.
  apply existsb_exists. exists s. split.
  - apply filter_In. split; [assumption|]. unfold rp_sessions_select. now rewrite Hp.
  - now rewrite Hv, String.eqb_refl, Hp.
Qed.

(** X3. When a party of the session inserts a viewer row (as the page does
    for a party who opens the own public session), the trigger leaves the
    session with [max_viewers] equal to the larger of its previous value
    (NULL read as 0) and the number of viewer rows the session now has,
    the parties' own rows included; no other column changes. *)
Theorem party_viewer_insert_records_peak (uid : option uuid)
    (NEW : rp_session_viewer) (s : rp_session) (db db' : database) :
  NoDup (map s_id (rp_sessions db)) ->
  In s (rp_sessions db) ->
  v_session_id NEW = s_id s ->
  is_participant uid s = true ->
  insert_rp_session_viewer uid NEW db = Ok db' ->
  rp_session_viewers db' = rp_session_viewers db ++ [NEW]
  /\ exists s',
       In s' (rp_sessions db')
       /\ with_max_viewers None s' = with_max_viewers None s
       /\ max_viewers_or_zero s'
          = Z.max (max_viewers_or_zero s)
              (Z.of_nat (List.length
                 (filter (fun v => String.eqb (v_session_id v) (s_id s))
                         (rp_session_viewers db')))).
Proof.
  intros Hpk Hs Hsid Hp H.
  pose proof (insert_rp_session_viewer_evolves _ _ _ _ H) as [_ [Ev _]].
  split; [exact Ev|]. rewrite Ev. revert H.
  unfold insert_rp_session_viewer.
  destruct (viewer_is_self uid NEW); simpl; [|discriminate].
  destruct (references_rp_sessions db (v_session_id NEW)); simpl; [|discriminate].
  destruct (existsb _ _); simpl; [discriminate|].
  unfold update_session_max_viewers. rewrite Hsid.
  set (db0 := set_rp_session_viewers db (rp_session_viewers db ++ [NEW])).
  rewrite (party_sees_session_viewers uid db0 s Hs Hp).
  rewrite (visible_session_by_id uid db0 s Hpk Hs).
  unfold rp_sessions_select. rewrite Hp. simpl.
  change (match s_max_viewers s with Some n => n | None => 0 end)
    with (max_viewers_or_zero s).
  set (count := Z.of_nat (List.length
                 (filter (fun v => String.eqb (v_session_id v) (s_id s))
                         (rp_session_viewers db ++ [NEW])))).
  destruct (count >? max_viewers_or_zero s) eqn:Hgt.
  - rewrite Z.gtb_ltb in Hgt. apply Z.ltb_lt in Hgt.
    intros H. apply update_rp_sessions_Ok in H as [-> _]. simpl.
    exists (with_max_viewers (Some count) s). split; [|split].
    + apply in_map_iff. exists s. split; [|assumption].
      unfold update_target, rp_sessions_select, rp_sessions_update_participants.
      now rewrite String.eqb_refl, Hp.
    + reflexivity.
    + unfold max_viewers_or_zero at 1. simpl. lia.
  - rewrite Z.gtb_ltb in Hgt. apply Z.ltb_ge in Hgt.
    intros H. inversion H; subst db'. simpl.
    exists s. split; [assumption|]. split; [reflexivity|lia].
Qed.

Lemma party_viewer_insert_records_peak_witness :
  exists s',
    In s' (rp_sessions Scenario.watched_by_both)
    /\ max_viewers_or_zero s' = 2.
Proof.
  assert (Hpk : NoDup (map s_id (rp_sessions Scenario.watched)))
    by (repeat constructor; simpl; intros []).
  destruct (party_viewer_insert_records_peak (Some Scenario.alice)
              (mk_rp_session_viewer Scenario.tale Scenario.alice 410001 410000)
              Scenario.tale_now Scenario.watched Scenario.watched_by_both Hpk)
    as [_ [s' [Hin [_ Hmax]]]]; try reflexivity.
  - now left.
  - exists s'. split; [exact Hin|]. rewrite Hmax. reflexivity.
Defined.

(** In a public session a user's own viewer row is exactly what an UPDATE
    or DELETE with [session_id] and [user_id] filters reaches. *)
Lemma own_row_target u s db v :
  In s (rp_sessions db) -> s_is_public s = true ->
  viewer_update_target (Some u) db (s_id s) u v = same_viewer_key (s_id s) u v.
Proof.
  intros Hs Hp. unfold viewer_update_target.
  destruct (same_viewer_key (s_id s) u v) eqn:K; [|reflexivity].
  unfold same_viewer_key in K. apply andb_prop in K as [Ki Ku].
  apply eqb_true in Ki, Ku. simpl.
  rewrite Ku, String.eqb_refl, andb_true_r.
  unfold rp_session_viewers_select. apply orb_true_iff. left.
  apply existsb_exists. exists s. split.
  - apply filter_In. split; [assumption|].
    unfold rp_sessions_select. now rewrite Hp, orb_true_r.
  - now rewrite Ki, String.eqb_refl, Hp.
Qed.

(** A viewer row of a public session passes the SELECT policy, for
    anyone. *)
Lemma public_session_viewer_visible uid s db v :
  In s (rp_sessions db) -> s_is_public s = true -> v_session_id v = s_id s ->
  rp_session_viewers_select uid db v = true.
Proof.
  intros Hs Hp Hv. unfold rp_session_viewers_select. apply orb_true_iff. left.
  apply existsb_exists. exists s. split.
  - apply filter_In. split; [assumption|].
    unfold rp_sessions_select. now rewrite Hp, orb_true_r.
  - now rewrite Hv, String.eqb_refl, Hp.
Qed.

Lemma filter_others_touch sid u t (l : list rp_session_viewer) :
  filter (fun v => negb (same_viewer_key sid u v))
         (map (fun v => if same_viewer_key sid u v then with_last_seen t v else v) l)
  = filter (fun v => negb (same_viewer_key sid u v)) l.
Proof.
  induction l as [|v l IH]; simpl; [reflexivity|].
  destruct (same_viewer_key sid u v) eqn:K.
  - unfold same_viewer_key in *. simpl. rewrite K. simpl. exact IH.
  - rewrite K. simpl. now rewrite IH.
Qed.

(** X4. In a public session, [trackViewer] followed by the cleanup of the
    viewer effect leaves [rp_session_viewers] without a row of that user
    for that session and with every other row as it was: opening and
    leaving the page leaves no viewer row behind. *)
Theorem track_then_cleanup (u : uuid) (s : rp_session) (now db_now : timestamptz)
    (db : database) :
  In s (rp_sessions db) ->
  s_is_public s = true ->
  Forall (fun x => rp_sessions_status_check x = true) (rp_sessions db) ->
  rp_session_viewers
    (SessionPage.viewer_cleanup (Some u) (s_id s)
       (SessionPage.trackViewer (Some u) (s_id s) now db_now db))
  = filter (fun v => negb (same_viewer_key (s_id s) u v)) (rp_session_viewers db).
Proof.
  intros Hs Hp Hst.
  assert (Hdel : forall db1 l,
            rp_session_viewers db1 = l ->
            map (with_max_viewers None) (rp_sessions db1)
            = map (with_max_viewers None) (rp_sessions db) ->
            rp_session_viewers (SessionPage.viewer_cleanup (Some u) (s_id s) db1)
            = filter (fun v => negb (same_viewer_key (s_id s) u v)) l).
  { intros db1 l <- Es.
    destruct (public_session_forget _ _ s Es Hs Hp) as [s1 [Hs1 [Eid Hp1]]].
    unfold SessionPage.viewer_cleanup, delete_rp_session_viewer. simpl.
    apply filter_ext. intros v.
    change (same_viewer_key (s_id s) u v && rp_session_viewers_select (Some u) db1 v
            && viewer_is_self (Some u) v)
      with (viewer_update_target (Some u) db1 (s_id s) u v).
    rewrite <- Eid. f_equal. exact (own_row_target u s1 db1 v Hs1 Hp1). }
  assert (Hself : forall j l0,
            viewer_is_self (Some u) (mk_rp_session_viewer (s_id s) u j l0) = true)
    by (intros; unfold viewer_is_self; simpl; apply String.eqb_refl).
  unfold SessionPage.trackViewer, upsert_rp_session_viewer.
  rewrite Hself. cbn [negb].
  rewrite (public_session_viewer_visible (Some u) s db
             (mk_rp_session_viewer (s_id s) u db_now now) Hs Hp eq_refl).
  cbn [negb].
  destruct (existsb (same_viewer_key (s_id s) u) (rp_session_viewers db)) eqn:Hex.
  - match goal with
    | |- context [fire_update_triggers ?a ?c ?d] =>
        destruct (fire_update_triggers_total a c d Hst) as [db1 [E [Ev Es]]]
    end.
    rewrite E. cbn [or_unchanged]. simpl in Ev, Es.
    rewrite (Hdel db1 _ Ev Es). apply filter_others_touch.
  - unfold insert_rp_session_viewer. rewrite Hself. cbn [negb v_session_id v_user_id].
    assert (Hfk : references_rp_sessions db (s_id s) = true).
    { unfold references_rp_sessions. apply existsb_exists. exists s.
      split; [assumption|apply String.eqb_refl]. }
    rewrite Hfk, Hex. cbn [negb].
    match goal with
    | |- context [update_session_max_viewers ?a ?n ?o ?d] =>
        destruct (update_session_max_viewers_total a n o d Hst) as [db1 [E [Ev Es]]]
    end.
    rewrite E. cbn [or_unchanged]. simpl in Ev, Es.
    rewrite (Hdel db1 _ Ev Es), filter_app. simpl.
    unfold same_viewer_key. simpl. rewrite !String.eqb_refl. simpl.
    apply app_nil_r.
Qed.

Lemma track_then_cleanup_witness :
  rp_session_viewers
    (SessionPage.viewer_cleanup (Some Scenario.carol) Scenario.tale
       (SessionPage.trackViewer (Some Scenario.carol) Scenario.tale 500000 500001
          Scenario.watched_by_both))
  = [mk_rp_session_viewer Scenario.tale Scenario.alice 410001 410000].
Proof.
  assert (Hin : In Scenario.tale_watched (rp_sessions Scenario.watched_by_both))
    by (vm_compute; left; reflexivity).
  assert (Hst : Forall (fun x => rp_sessions_status_check x = true)
                  (rp_sessions Scenario.watched_by_both))
    by (vm_compute; repeat constructor).
  change Scenario.tale with (s_id Scenario.tale_watched).
  rewrite (track_then_cleanup Scenario.carol Scenario.tale_watched 500000 500001
             Scenario.watched_by_both Hin eq_refl Hst).
  reflexivity.
Defined.

Lemma filter_others_touch_hit sid u t (hit : rp_session_viewer -> bool)
    (l : list rp_session_viewer) :
  (forall v, hit v = true -> same_viewer_key sid u v = true) ->
  filter (fun v => negb (same_viewer_key sid u v))
         (map (fun v => if hit v then with_last_seen t v else v) l)
  = filter (fun v => negb (same_viewer_key sid u v)) l.
Proof.
  intros H. induction l as [|v l IH]; simpl; [reflexivity|].
  destruct (hit v) eqn:T.
  - pose proof (H v T) as K. unfold same_viewer_key in *. simpl.
    rewrite K. simpl. exact IH.
  - destruct (same_viewer_key sid u v); simpl; now rewrite IH.
Qed.

(** X5. A heartbeat, of whatever user and in whatever database, adds no
    viewer row and removes none, changes no column but [last_seen], and
    leaves the rows of other users and other sessions as they are; after
    the cleanup has removed the row it does not bring it back. *)
Theorem heartbeat_only_touches_last_seen (me : option uuid) (mounted : bool)
    (sessionId : uuid) (now : timestamptz) (db : database) :
  let db' := SessionPage.heartbeat me mounted sessionId now db in
  map (with_last_seen 0) (rp_session_viewers db')
  = map (with_last_seen 0) (rp_session_viewers db)
  /\ (forall u, me = Some u ->
        filter (fun v => negb (same_viewer_key sessionId u v)) (rp_session_viewers db')
        = filter (fun v => negb (same_viewer_key sessionId u v)) (rp_session_viewers db))
  /\ rp_session_messages db' = rp_session_messages db.
Proof.
  intros db'. subst db'. unfold SessionPage.heartbeat.
  destruct me as [u|]; [|repeat split; auto].
  destruct mounted; [|repeat split; auto].
  unfold update_rp_session_viewer_last_seen.
  destruct (fire_update_triggers (Some u) _ _) as [db1|e] eqn:E; simpl;
    [|repeat split; auto].
  apply fire_update_triggers_evolves in E as [_ [Em Ev]]. simpl in Em, Ev.
  rewrite Ev, Em. split; [|split; [|reflexivity]].
  - rewrite map_map. apply map_ext. intros v.
    now destruct (viewer_update_target (Some u) db sessionId u v).
  - intros u' Hu. inversion Hu; subst u'. clear Hu.
    apply filter_others_touch_hit. intros v T.
    unfold viewer_update_target in T.
    apply andb_prop in T as [T _]. now apply andb_prop in T as [T _].
Qed.

Lemma NoDup_firstn {A : Type} (n : nat) (l : list A) :
  NoDup l -> NoDup (firstn n l).
Proof.
  intros H. rewrite <- (firstn_skipn n l) in H.
  now apply NoDup_app_remove_r in H.
Qed.

Lemma same_session_distinct_users sid (l : list rp_session_viewer) :
  NoDup (map viewer_key l) ->
  (forall v, In v l -> v_session_id v = sid) ->
  NoDup (map v_user_id l).
Proof.
  induction l as [|v l IH]; simpl; [constructor|].
  intros H Hsid. inversion H as [|? ? Hv Hl]; subst. constructor.
  - intros Hin. apply Hv. apply in_map_iff in Hin as [w [E Hw]].
    apply in_map_iff. exists w. split; [|assumption].
    unfold viewer_key. now rewrite E, (Hsid w (or_intror Hw)), (Hsid v (or_introl eq_refl)).
  - apply IH; auto.
Qed.

(** X6. Under the UNIQUE constraint, the viewer list of a public session
    shows no user twice. *)
Theorem loadViewers_distinct_users (me : option uuid) (s : rp_session)
    (now : timestamptz) (db : database) :
  In s (rp_sessions db) ->
  s_is_public s = true ->
  NoDup (map viewer_key (rp_session_viewers db)) ->
  NoDup (map SessionPage.viewer_user_id
           (SessionPage.loadViewers me s (s_id s) now db)).
Proof.
  intros Hs Hp Hn. rewrite (loadViewers_refines me s now db Hs Hp Hn).
  unfold SessionPage.viewer_list_spec. rewrite map_map.
  set (L := order_by_desc v_joined_at
              (filter (SessionPage.active_spectator s (s_id s) now)
                      (rp_session_viewers db))).
  change (NoDup (map v_user_id (firstn 10 L))).
  apply (same_session_distinct_users (s_id s)).
  - rewrite <- firstn_map. apply NoDup_firstn.
    apply (Permutation_NoDup
             (l := map viewer_key
                     (filter (SessionPage.active_spectator s (s_id s) now)
                             (rp_session_viewers db)))).
    + apply Permutation_map. unfold L, order_by_desc. apply stable_sort_perm.
    + now apply NoDup_map_filter.
  - intros v Hv. apply In_firstn in Hv. unfold L, order_by_desc in Hv.
    apply stable_sort_In in Hv. apply filter_In in Hv as [_ Hv].
    unfold SessionPage.active_spectator in Hv.
    apply andb_prop in Hv as [Hv _]. apply andb_prop in Hv as [Hv _].
    now apply eqb_true in Hv.
Qed.

Lemma loadViewers_distinct_users_witness :
  NoDup (map SessionPage.viewer_user_id
           (SessionPage.loadViewers None Scenario.tale_watched Scenario.tale
              450000 Scenario.watched_by_both)).
Proof.
  assert (Hin : In Scenario.tale_watched (rp_sessions Scenario.watched_by_both))
    by (vm_compute; left; reflexivity).
  assert (Hn : NoDup (map viewer_key (rp_session_viewers Scenario.watched_by_both)))
    by (vm_compute; repeat constructor; simpl; intuition discriminate).
  exact (loadViewers_distinct_users None Scenario.tale_watched 450000
           Scenario.watched_by_both Hin eq_refl Hn).
Defined.

(** ** The order of the inbox pages *)

Section SortByComparator.
Context {A : Type} (cmp : A -> A -> Z) (P : A -> Prop).
Hypothesis cmp_total : forall a b, P a -> P b -> cmp a b <= 0 \/ cmp b a <= 0.
Hypothesis cmp_trans :
  forall a b c, P a -> P b -> P c -> cmp a b <= 0 -> cmp b c <= 0 -> cmp a c <= 0.

Lemma insert_sorted_by_comparator (x : A) (l : list A) :
  P x -> Forall P l ->
  StronglySorted (fun a b => cmp a b <= 0) l ->
  StronglySorted (fun a b => cmp a b <= 0) (insert_sorted cmp x l).
Proof.
  intros Px Pl H. induction H as [|y l Hl IH Hy]; simpl.
  - repeat constructor.
  - inversion Pl as [|? ? Py Pl']; subst.
    destruct (cmp x y <=? 0) eqn:E.
    + apply Z.leb_le in E. constructor; [now constructor|].
      constructor; [assumption|].
      rewrite Forall_forall in Hy, Pl'. apply Forall_forall. intros z Hz.
      apply (cmp_trans x y z); auto.
    + apply Z.leb_gt in E. constructor; [now apply IH|].
      apply Forall_forall. intros z Hz.
      apply (Permutation_in z (Permutation_sym (insert_sorted_perm cmp x l))) in Hz.
      destruct Hz as [<-|Hz].
      * destruct (cmp_total x y Px Py); [lia|assumption].
      * rewrite Forall_forall in Hy. now apply Hy.
Qed.

Lemma stable_sort_by_comparator (l : list A) :
  Forall P l -> StronglySorted (fun a b => cmp a b <= 0) (stable_sort cmp l).
Proof.
  induction 1 as [|x l Px Pl IH]; simpl; [constructor|].
  apply insert_sorted_by_comparator; auto.
  apply Forall_forall. intros z Hz. apply stable_sort_In in Hz.
  rewrite Forall_forall in Pl. now apply Pl.
Qed.
End SortByComparator.

Lemma StronglySorted_weaken {A : Type} (R R' : A -> A -> Prop) (P : A -> Prop)
    (l : list A) :
  (forall a b, P a -> P b -> R a b -> R' a b) ->
  Forall P l -> StronglySorted R l -> StronglySorted R' l.
Proof.
  intros H Pl S. induction S as [|x l Sl IH Hx]; [constructor|].
  inversion Pl as [|? ? Px Pl']; subst. constructor; [auto|].
  rewrite Forall_forall in *. intros y Hy. apply H; auto.
Qed.

Lemma compare_sessions_cases (a b : SessionsPage.Session) :
  (SessionsPage.status a = "active" \/ SessionsPage.status a = "closed") ->
  (SessionsPage.status b = "active" \/ SessionsPage.status b = "closed") ->
  (SessionsPage.compare_sessions a b <= 0 <->
   (SessionsPage.status a = "active" /\ SessionsPage.status b = "closed")
   \/ (SessionsPage.status a = "active" /\ SessionsPage.status b = "active"
       /\ SessionsPage.activity_time b <= SessionsPage.activity_time a)
   \/ (SessionsPage.status a = "closed" /\ SessionsPage.status b = "closed"
       /\ SessionsPage.created_at b <= SessionsPage.created_at a)).
Proof.
  unfold SessionsPage.compare_sessions, SessionsPage.is_open.
  intros [Ea|Ea] [Eb|Eb]; rewrite Ea, Eb; simpl; split; intros H;
    try lia;
    repeat match goal with
           | H : _ \/ _ |- _ => destruct H
           | H : _ /\ _ |- _ => destruct H
           end;
    try discriminate; try lia; auto 10;
    try (right; left; repeat split; lia);
    try (right; right; repeat split; lia).
Qed.

Lemma load_entries_checked db u prev e :
  reachable db ->
  In e (SessionsPage.load (SessionPage.User u) db prev) ->
  SessionsPage.status e = "active" \/ SessionsPage.status e = "closed".
Proof.
  intros Hr He. apply load_status_stored in He as [s [Hin [E _]]].
  rewrite E. apply status_check_true.
  destruct (reachable_consistent db Hr) as [Hs _].
  rewrite Forall_forall in Hs. now apply Hs.
Qed.

(** X7. The sessions page lists the sessions in this order: every active
    session before every closed one, active sessions by their latest
    activity ([last_message_at], else the latest message, else
    [created_at]), most recent first, and closed sessions by [created_at],
    most recent first. *)
Theorem sessions_page_order (db : database) (u : uuid)
    (prev : list SessionsPage.Session) :
  reachable db ->
  StronglySorted
    (fun a b =>
       (SessionsPage.status a = "active" /\ SessionsPage.status b = "closed")
       \/ (SessionsPage.status a = "active" /\ SessionsPage.status b = "active"
           /\ SessionsPage.activity_time b <= SessionsPage.activity_time a)
       \/ (SessionsPage.status a = "closed" /\ SessionsPage.status b = "closed"
           /\ SessionsPage.created_at b <= SessionsPage.created_at a))
    (SessionsPage.load (SessionPage.User u) db prev).
Proof.
  intros Hr.
  set (P := fun e : SessionsPage.Session =>
              SessionsPage.status e = "active" \/ SessionsPage.status e = "closed").
  assert (HP : Forall P (SessionsPage.load (SessionPage.User u) db prev)).
  { apply Forall_forall. intros e He. eapply load_entries_checked; eassumption. }
  apply (StronglySorted_weaken
           (fun a b => SessionsPage.compare_sessions a b <= 0) _ P);
    [intros a b Pa Pb; now apply compare_sessions_cases | exact HP |].
  revert HP. unfold SessionsPage.load.
  destruct (order_by_desc s_created_at _) as [|s0 r]; [constructor|].
  intros HP.
  apply (stable_sort_by_comparator SessionsPage.compare_sessions P).
  - intros a b Pa Pb. rewrite !compare_sessions_cases by assumption.
    destruct Pa as [Ea|Ea], Pb as [Eb|Eb]; rewrite Ea, Eb.
    + destruct (Z.le_ge_cases (SessionsPage.activity_time a)
                  (SessionsPage.activity_time b)); auto 10.
    + auto.
    + auto.
    + destruct (Z.le_ge_cases (SessionsPage.created_at a)
                  (SessionsPage.created_at b)); auto 10.
  - intros a b c Pa Pb Pc. rewrite !compare_sessions_cases by assumption.
    intros Hab Hbc.
    repeat match goal with
           | H : _ \/ _ |- _ => destruct H
           | H : _ /\ _ |- _ => destruct H
           end; try congruence; auto 10.
    + right. left. repeat split; auto. lia.
    + right. right. repeat split; auto. lia.
  - apply Forall_forall. intros e He. rewrite Forall_forall in HP.
    apply HP. now apply stable_sort_In.
Qed.

Lemma sessions_page_order_witness :
  map SessionsPage.id
    (SessionsPage.load (SessionPage.User Scenario.bob) Scenario.busy [])
  = [Scenario.pact; Scenario.tale; Scenario.feud]
  /\ StronglySorted
       (fun a b =>
          (SessionsPage.status a = "active" /\ SessionsPage.status b = "closed")
          \/ (SessionsPage.status a = "active" /\ SessionsPage.status b = "active"
              /\ SessionsPage.activity_time b <= SessionsPage.activity_time a)
          \/ (SessionsPage.status a = "closed" /\ SessionsPage.status b = "closed"
              /\ SessionsPage.created_at b <= SessionsPage.created_at a))
       (SessionsPage.load (SessionPage.User Scenario.bob) Scenario.busy []).
Proof.
  split; [reflexivity|].
  apply sessions_page_order. repeat apply reach_run. apply reach_empty.
Defined.

(** X8. The DM inbox lists the threads that have messages before those
    that have none, and the former by the time of their latest message,
    most recent first. *)
Theorem dm_inbox_order (u : uuid) (db : database) (dm : Dm.dm_database)
    (prev : list Dm.ThreadWithLatest) :
  StronglySorted
    (fun a b =>
       match Dm.latest_message a, Dm.latest_message b with
       | Some ma, Some mb => dm_created_at mb <= dm_created_at ma
       | Some _, None => True
       | None, Some _ => False
       | None, None => True
       end)
    (Dm.load (SessionPage.User u) db dm prev).
Proof.
  assert (Hc : forall a b,
            Dm.compare_threads a b <= 0 <->
            match Dm.latest_message a, Dm.latest_message b with
            | Some ma, Some mb => dm_created_at mb <= dm_created_at ma
            | Some _, None => True
            | None, Some _ => False
            | None, None => True
            end).
  { intros a b. unfold Dm.compare_threads.
    destruct (Dm.latest_message a), (Dm.latest_message b); split; intros;
      try lia; auto. }
  apply (StronglySorted_weaken (fun a b => Dm.compare_threads a b <= 0) _
           (fun _ => True)); [intros a b _ _; apply Hc | apply Forall_forall; auto |].
  unfold Dm.load.
  destruct (order_by_desc t_created_at _) as [|t0 r]; [constructor|].
  apply (stable_sort_by_comparator Dm.compare_threads (fun _ => True)).
  - intros a b _ _. rewrite !Hc.
    destruct (Dm.latest_message a), (Dm.latest_message b); auto. lia.
  - intros a b c _ _ _. rewrite !Hc.
    destruct (Dm.latest_message a), (Dm.latest_message b), (Dm.latest_message c);
      auto; try contradiction. lia.
  - apply Forall_forall. auto.
Qed.

(** X9. The sessions page shows each session the user is a party of once,
    and no other session, public or not. *)
Theorem sessions_page_lists_own_sessions (db : database) (u : uuid)
    (prev : list SessionsPage.Session) :
  Permutation
    (map SessionsPage.id (SessionsPage.load (SessionPage.User u) db prev))
    (map s_id
       (filter (fun s => String.eqb (s_user_a s) u || String.eqb (s_user_b s) u)
               (rp_sessions db))).
Proof.
  unfold SessionsPage.load, visible_rp_sessions.
  rewrite filter_absorb.
  2:{ intros s _ Hs. unfold rp_sessions_select.
      now rewrite is_participant_eqb, Hs. }
  set (own := filter (fun s => String.eqb (s_user_a s) u || String.eqb (s_user_b s) u)
                     (rp_sessions db)).
  destruct (order_by_desc s_created_at own) as [|s0 r] eqn:E.
  - apply order_by_desc_nil in E. rewrite E. constructor.
  - rewrite <- E. clear E.
    eapply perm_trans;
      [apply Permutation_map, Permutation_sym, stable_sort_perm|].
    rewrite map_map. simpl.
    apply Permutation_map, Permutation_sym. unfold order_by_desc.
    apply stable_sort_perm.
Qed.

Lemma active_closed_split (l : list SessionsPage.Session) :
  (forall e, In e l ->
     SessionsPage.status e = "active" \/ SessionsPage.status e = "closed") ->
  (List.length (SessionsPage.filteredSessions "active" l)
   + List.length (SessionsPage.filteredSessions "closed" l)
   = List.length l)%nat.
Proof.
  induction l as [|e l IH]; intros H; [reflexivity|].
  assert (IH' := IH (fun e' He' => H e' (or_intror He'))).
  unfold SessionsPage.filteredSessions in *. simpl in *.
  destruct (H e (or_introl eq_refl)) as [E|E]; rewrite E; simpl; lia.
Qed.

(** X10. On the sessions page the counts behind the "Active" and "Closed"
    buttons add up to the count behind "All", and the "all" filter shows
    every loaded session. *)
Theorem sessions_page_filters_partition (db : database) (u : uuid)
    (prev : list SessionsPage.Session) :
  reachable db ->
  let sessions := SessionsPage.load (SessionPage.User u) db prev in
  SessionsPage.filteredSessions "all" sessions = sessions
  /\ (List.length (SessionsPage.filteredSessions "active" sessions)
      + List.length (SessionsPage.filteredSessions "closed" sessions)
      = List.length sessions)%nat.
Proof.
  intros Hr sessions. split.
  - unfold SessionsPage.filteredSessions. now apply filter_all.
  - apply active_closed_split. intros e He.
    eapply load_entries_checked; eassumption.
Qed.

Lemma sessions_page_filters_partition_witness :
  let sessions :=
    SessionsPage.load (SessionPage.User Scenario.alice) Scenario.answered [] in
  (List.length (SessionsPage.filteredSessions "active" sessions)
   + List.length (SessionsPage.filteredSessions "closed" sessions) = 1)%nat.
Proof.
  assert (Hr : reachable Scenario.answered)
    by (repeat apply reach_run; apply reach_empty).
  destruct (sessions_page_filters_partition Scenario.answered Scenario.alice [] Hr)
    as [_ H].
  intros sessions. subst sessions. rewrite H. reflexivity.
Defined.

(** ** Reading a session and the unread count *)

Lemma filter_none_in {A : Type} (p : A -> bool) (l : list A) :
  (forall x, In x l -> p x = false) -> filter p l = [].
Proof.
  induction l as [|x l IH]; simpl; [reflexivity|]. intros H.
  rewrite (H x (or_introl eq_refl)). apply IH. intros y Hy. apply H. now right.
Qed.

Lemma upsert_read_mark_lookup sid uid t mid (reads : list read_mark) :
  NoDup (map Inbox.read_key reads) ->
  filter (fun r => String.eqb (rd_thread_id r) sid && String.eqb (rd_user_id r) uid)
         (SessionPage.upsert_read_mark sid uid t mid reads)
  = [mk_read_mark sid uid (Some t) (Some mid)].
Proof.
  intros Hn. unfold SessionPage.upsert_read_mark.
  set (same := fun r => String.eqb (rd_thread_id r) sid && String.eqb (rd_user_id r) uid).
  set (row := mk_read_mark sid uid (Some t) (Some mid)).
  assert (Hrow : same row = true)
    by (unfold same, row; simpl; now rewrite !String.eqb_refl).
  destruct (existsb same reads) eqn:Hex.
  - apply existsb_exists in Hex as [r0 [Hin0 Hs0]].
    assert (Hmap : forall l, filter same (map (fun r => if same r then row else r) l)
                             = map (fun _ => row) (filter same l)).
    { induction l as [|r l IH]; simpl; [reflexivity|].
      destruct (same r) eqn:E; simpl.
      - rewrite Hrow. simpl. now rewrite IH.
      - rewrite E. exact IH. }
    rewrite Hmap.
    rewrite (filter_unique Inbox.read_key same reads r0 Hn Hin0); [reflexivity|].
    intros x. unfold same, Inbox.read_key in *.
    apply andb_prop in Hs0 as [H1 H2]. apply eqb_true in H1, H2.
    rewrite andb_true_iff, !eqb_true, H1, H2.
    split; [intros [-> ->]; reflexivity | intros H; inversion H; auto].
  - rewrite filter_app. simpl. rewrite Hrow.
    rewrite (filter_none_in same reads); [reflexivity|].
    now apply existsb_key_false.
Qed.

Lemma party_load_database u s now db st :
  In s (rp_sessions db) -> NoDup (map s_id (rp_sessions db)) ->
  s_user_a s = u \/ s_user_b s = u ->
  snd (SessionPage.load (SessionPage.User u) (s_id s) now db st)
  = match hd_error
            (rev (order_by_asc m_created_at
                    (filter (fun m => String.eqb (m_session_id m) (s_id s))
                            (visible_rp_session_messages (Some u) db)))) with
    | Some latestMessage =>
        SessionPage.set_rp_session_reads db
          (SessionPage.upsert_read_mark (s_id s) u now (m_id latestMessage)
             (rp_session_reads db))
    | None => db
    end.
Proof.
  intros Hs Hpk Hu. unfold SessionPage.load.
  rewrite (visible_session_by_id (Some u) db s Hpk Hs).
  assert (Hp : String.eqb (s_user_a s) u || String.eqb (s_user_b s) u = true)
    by (destruct Hu as [<-|<-]; rewrite String.eqb_refl; auto using orb_true_r).
  unfold rp_sessions_select. rewrite is_participant_eqb, Hp. simpl.
  rewrite Hp. simpl. reflexivity.
Qed.

(** X11. When a party opens the session page at a clock reading that is
    not earlier than the [created_at] of any message of the session, the
    read mark the page writes makes the sessions page show an unread count
    of 0 for that session. Primary key of [rp_sessions] and one read mark
    for each session and user assumed. *)
Theorem reading_clears_unread (u : uuid) (s : rp_session) (now : timestamptz)
    (db : database) (st : SessionPage.page_state)
    (prev : list SessionsPage.Session) :
  In s (rp_sessions db) ->
  NoDup (map s_id (rp_sessions db)) ->
  NoDup (map Inbox.read_key (rp_session_reads db)) ->
  s_user_a s = u \/ s_user_b s = u ->
  (forall m, In m (rp_session_messages db) -> m_session_id m = s_id s ->
     m_created_at m <= now) ->
  let db' := snd (SessionPage.load (SessionPage.User u) (s_id s) now db st) in
  forall e, In e (SessionsPage.load (SessionPage.User u) db' prev) ->
    SessionsPage.id e = s_id s ->
    SessionsPage.unread_count e = 0.
Proof.
  intros Hs Hpk Hrk Hu Hnow db' e He Hid. subst db'.
  rewrite (party_load_database u s now db st Hs Hpk Hu) in He.
  set (msgs := order_by_asc m_created_at
                 (filter (fun m => String.eqb (m_session_id m) (s_id s))
                         (visible_rp_session_messages (Some u) db))) in *.
  assert (Hzero : forall (l : list rp_session_message) other t,
            (forall m, In m l -> m_session_id m = s_id s -> m_created_at m <= t) ->
            Inbox.or_zero (Inbox.count_exact
              (filter (fun m => String.eqb (m_session_id m) (s_id s)
                                && String.eqb (m_sender_id m) other
                                && (m_created_at m >? t)) l)) = 0).
  { intros l other t Hl. rewrite or_zero_count, filter_none_in; [reflexivity|].
    intros m Hm. destruct (String.eqb (m_session_id m) (s_id s)) eqn:E; [|reflexivity].
    apply eqb_true in E. specialize (Hl m Hm E).
    rewrite Z.gtb_ltb. replace (t <? m_created_at m) with false
      by (symmetry; apply Z.ltb_ge; lia).
    now rewrite andb_false_r. }
  destruct (hd_error (rev msgs)) as [latest|] eqn:Hlast.
  - (* a read mark is written *)
    apply load_status_stored in He as [s1 [Hs1 [_ [Hid1 [-> _]]]]].
    simpl in Hs1. rewrite Hid1 in Hid.
    assert (s1 = s) by (apply (NoDup_map_inj s_id (rp_sessions db)); auto).
    subst s1. cbn [SessionsPage.unread_count SessionsPage.with_details].
    unfold Inbox.unread_count. simpl rp_session_reads.
    rewrite (upsert_read_mark_lookup (s_id s) u now (m_id latest) _ Hrk).
    cbn [maybeSingle single].
    apply Hzero. intros m Hm. apply filter_In in Hm as [Hm _]. simpl in Hm.
    now apply Hnow.
  - (* the session has no message *)
    assert (Hempty : filter (fun m => String.eqb (m_session_id m) (s_id s))
                            (visible_rp_session_messages (Some u) db) = []).
    { destruct (rev msgs) eqn:Hrev; [|discriminate].
      assert (msgs = []) by (rewrite <- (rev_involutive msgs), Hrev; reflexivity).
      assert (P : Permutation
                    (filter (fun m => String.eqb (m_session_id m) (s_id s))
                            (visible_rp_session_messages (Some u) db)) msgs)
        by (unfold msgs, order_by_asc; apply stable_sort_perm).
      rewrite H in P. apply Permutation_sym in P. now apply Permutation_nil in P. }
    apply load_status_stored in He as [s1 [Hs1 [_ [Hid1 [-> _]]]]].
    rewrite Hid1 in Hid.
    assert (s1 = s) by (apply (NoDup_map_inj s_id (rp_sessions db)); auto).
    subst s1. cbn [SessionsPage.unread_count SessionsPage.with_details].
    assert (Hnone : forall p,
              filter (fun m => String.eqb (m_session_id m) (s_id s) && p m)
                     (visible_rp_session_messages (Some u) db) = []).
    { intros p. rewrite filter_andb, Hempty. reflexivity. }
    unfold Inbox.unread_count.
    destruct (maybeSingle _) as [[a b [t|] d]|].
    + rewrite or_zero_count.
      rewrite (filter_ext _ (fun m => String.eqb (m_session_id m) (s_id s)
                 && (String.eqb (m_sender_id m)
                       (if String.eqb (s_user_a s) u then s_user_b s else s_user_a s)
                     && (m_created_at m >? t))))
        by (intros m; now rewrite andb_assoc).
      now rewrite Hnone.
    + now rewrite or_zero_count, Hnone.
    + now rewrite or_zero_count, Hnone.
Qed.

Lemma reading_clears_unread_witness :
  map SessionsPage.unread_count
    (SessionsPage.load (SessionPage.User Scenario.alice)
       (snd (SessionPage.load (SessionPage.User Scenario.alice) Scenario.tale 20000
               Scenario.answered SessionPage.initial_state)) [])
  = [0].
Proof.
  assert (Hin : In Scenario.tale_now (rp_sessions Scenario.answered)) by (now left).
  assert (Hpk : NoDup (map s_id (rp_sessions Scenario.answered)))
    by (repeat constructor; simpl; intros []).
  assert (Hrk : NoDup (map Inbox.read_key (rp_session_reads Scenario.answered)))
    by constructor.
  assert (Hnow : forall m, In m (rp_session_messages Scenario.answered) ->
                   m_session_id m = s_id Scenario.tale_now -> m_created_at m <= 20000).
  { intros m [<-|[<-|[]]] _; simpl; lia. }
  pose proof (reading_clears_unread Scenario.alice Scenario.tale_now 20000
                Scenario.answered SessionPage.initial_state [] Hin Hpk Hrk
                (or_introl eq_refl) Hnow) as H.
  cbv zeta in H.
  change Scenario.tale with (s_id Scenario.tale_now).
  assert (E : exists e,
             SessionsPage.load (SessionPage.User Scenario.alice)
               (snd (SessionPage.load (SessionPage.User Scenario.alice)
                       (s_id Scenario.tale_now)
                       20000 Scenario.answered SessionPage.initial_state)) [] = [e]
             /\ SessionsPage.id e = s_id Scenario.tale_now)
    by (eexists; split; reflexivity).
  destruct E as [e [E Eid]]. rewrite E. simpl. f_equal.
  apply H; [|exact Eid]. rewrite E. now left.
Defined.



(** X13. The page's own "You don't have access to this session" is
    never reached for a signed-in user: the select policies return a
    session row only to a party or for a public session, so on whatever
    row the session query of [load] returns, the participant check
    answers "participant" (exactly for [user_a] and [user_b]) or "public
    view", never "no access". An outsider of a private session gets no
    row, which [load] reports as "Session not found". *)
Theorem access_branch_unreachable (u : uuid) (sessionId : uuid)
    (db : database) (sessionData : rp_session) :
  single (filter (fun s => String.eqb (s_id s) sessionId)
                 (visible_rp_sessions (Some u) db)) = Some sessionData ->
  SessionPage.access_check (Some u) sessionData <> SessionPage.NoAccess
  /\ SessionPage.access_check (Some u) sessionData <> SessionPage.LoginRequired
  /\ (SessionPage.access_check (Some u) sessionData = SessionPage.AsParticipant
      <-> s_user_a sessionData = u \/ s_user_b sessionData = u)
  /\ (SessionPage.access_check (Some u) sessionData = SessionPage.AsPublicView
      -> s_is_public sessionData = true).
Proof.
  intros Hs.
  assert (Hvis : rp_sessions_select (Some u) sessionData = true).
  { unfold single in Hs.
    destruct (filter _ (visible_rp_sessions (Some u) db)) as [|x [|y r]] eqn:Hf;
      try discriminate.
    inversion Hs; subst x.
    assert (Hin : In sessionData
                    (filter (fun s => String.eqb (s_id s) sessionId)
                            (visible_rp_sessions (Some u) db)))
      by (rewrite Hf; now left).
    apply filter_In in Hin as [Hin _]. now apply filter_In in Hin as [_ Hin]. }
  unfold rp_sessions_select in Hvis. rewrite is_participant_eqb in Hvis.
  unfold SessionPage.access_check.
  destruct (String.eqb (s_user_a sessionData) u) eqn:Ea,
           (String.eqb (s_user_b sessionData) u) eqn:Eb; simpl in *;
    try rewrite Hvis;
    repeat split; try discriminate; auto;
    try (intros _; apply eqb_true in Ea; now left);
    try (intros _; apply eqb_true in Eb; now right).
  apply eqb_false in Ea, Eb. intros [H|H]; contradiction.
Qed.

Lemma access_branch_unreachable_witness :
  SessionPage.access_check (Some Scenario.carol) Scenario.tale_now
  = SessionPage.AsPublicView
  /\ single (filter (fun s => String.eqb (s_id s) Scenario.duel)
                    (visible_rp_sessions (Some Scenario.alice) Scenario.two_sessions))
     = None.
Proof.
  split; [|reflexivity].
  destruct (access_branch_unreachable Scenario.carol Scenario.tale
              Scenario.two_sessions Scenario.tale_now eq_refl)
    as [Hno [Hlogin [Hparty _]]].
  destruct (SessionPage.access_check (Some Scenario.carol) Scenario.tale_now) eqn:E;
    try reflexivity; try (now elim Hno); try (now elim Hlogin).
Defined.

(** ** Response times *)

(** X14. No response time is recorded for a message unless an earlier
    message of the session from the other sender has both a
    [character_id] and an [edited_at]: the trigger tests the fetched row
    with [IS NOT NULL], which a row with a null column fails. A reply to
    out-of-character lines or to lines never edited records nothing. *)
Theorem response_time_needs_complete_row (uid : option uuid)
    (NEW : rp_session_message) (db db' : database) :
  insert_rp_session_message uid NEW db = Ok db' ->
  (forall m, In m (rp_session_messages db) ->
     m_session_id m = m_session_id NEW ->
     m_sender_id m <> m_sender_id NEW ->
     m_created_at m < m_created_at NEW ->
     m_character_id m = None \/ m_edited_at m = None) ->
  rp_response_times db' = rp_response_times db.
Proof.
  intros H Hnull. apply insert_rp_session_message_Ok in H as [_ [_ H]].
  revert H. unfold calculate_response_time.
  set (db0 := set_rp_session_messages db (rp_session_messages db ++ [NEW])).
  assert (Hframe : forall d, update_rp_sessions uid
                     (fun s => String.eqb (s_id s) (m_session_id NEW))
                     (with_last_message_at (Some (m_created_at NEW))) d = Ok db' ->
                   rp_response_times db' = rp_response_times d).
  { intros d Hd. apply update_rp_sessions_evolves in Hd as [_ [_ [_ [E _]]]];
      [exact E|apply with_last_message_at_parties]. }
  destruct (select_into (map s_is_active _)) as [[|]|];
    try (simpl; intros H; now apply Hframe in H).
  destruct (order_by_desc m_created_at
              (filter (earlier_from_other NEW) (visible_rp_session_messages uid db0)))
    as [|prev r0] eqn:Ho; unfold limit; simpl;
    try (intros H; now apply Hframe in H).
  apply order_by_desc_head in Ho as [Hin _].
  apply filter_In in Hin as [Hvis He]. apply filter_In in Hvis as [Hvis _].
  unfold earlier_from_other in He.
  apply andb_prop in He as [He Hlt]. apply andb_prop in He as [Hsid Hsnd].
  apply eqb_true in Hsid. apply negb_true_iff, eqb_false in Hsnd.
  apply Z.ltb_lt in Hlt.
  assert (Hold : In prev (rp_session_messages db)).
  { simpl in Hvis. apply in_app_or in Hvis as [Hvis|[<-|[]]]; [assumption|].
    now elim Hsnd. }
  destruct (Hnull prev Hold Hsid Hsnd Hlt) as [E|E]; rewrite E.
  - simpl. intros H. now apply Hframe in H.
  - destruct (m_character_id prev); simpl; intros H; now apply Hframe in H.
Qed.

Lemma response_time_needs_complete_row_witness :
  let line3 := mk_rp_session_message "00000004-0000-4000-8000-000000000000"
                 Scenario.tale Scenario.alice "narration" "A voice calls out."
                 (Some Scenario.hero) 15000 None in
  rp_response_times
    (run (Some Scenario.alice) (InsertMessage line3) Scenario.answered)
  = rp_response_times Scenario.answered.
Proof.
  intros line3.
  apply (response_time_needs_complete_row (Some Scenario.alice) line3).
  - vm_compute. reflexivity.
  - intros m [<-|[<-|[]]] _ Hs _.
    + now elim Hs.
    + left. reflexivity.
Defined.

(** ** Unread counts and new messages *)

(** X15. A message added to the table changes the unread count of a
    thread or session by at most one, and never lowers it. The count is
    unchanged when the message belongs to another thread or was not sent
    by the other user, so one's own messages never count as unread; it
    grows by exactly one when the message is the other user's in this
    thread and every watermark the reader holds for the thread is older
    than the message. *)
Theorem unread_count_new_message {M : Type} (thread_of sender_of : M -> uuid)
    (created_at : M -> timestamptz) (messages : list M) (reads : list read_mark)
    (thread me other : uuid) (m : M) :
  let before := Inbox.unread_count thread_of sender_of created_at
                  messages reads thread me other in
  let after := Inbox.unread_count thread_of sender_of created_at
                 (messages ++ [m]) reads thread me other in
  before <= after <= before + 1
  /\ (thread_of m <> thread \/ sender_of m <> other -> after = before)
  /\ (thread_of m = thread -> sender_of m = other ->
      (forall r t, In r reads -> rd_thread_id r = thread -> rd_user_id r = me ->
         rd_last_read_at r = Some t -> t < created_at m) ->
      after = before + 1).
Proof.
  intros before after. subst before after. unfold Inbox.unread_count.
  assert (Hone : forall p : M -> bool,
            Z.of_nat (List.length (filter p (messages ++ [m])))
            = Z.of_nat (List.length (filter p messages)) + (if p m then 1 else 0)).
  { intros p. rewrite filter_app, length_app, Nat2Z.inj_add. simpl.
    destruct (p m); reflexivity. }
  assert (Hother : thread_of m <> thread \/ sender_of m <> other ->
            String.eqb (thread_of m) thread && String.eqb (sender_of m) other = false).
  { intros [H|H]; apply eqb_false in H; rewrite H; auto using andb_false_r. }
  destruct (maybeSingle _) as [[a b [t|] d]|] eqn:Hr; rewrite !or_zero_count, Hone.
  - split; [|split].
    + destruct (_ && _ && _); lia.
    + intros H. rewrite (Hother H). simpl. lia.
    + intros Ht Hs Hw.
      assert (Hin : In (mk_read_mark a b (Some t) d)
                      (filter (fun r => String.eqb (rd_thread_id r) thread
                                        && String.eqb (rd_user_id r) me) reads)).
      { unfold maybeSingle in Hr.
        destruct (filter _ reads) as [|x [|y l]]; try discriminate.
        inversion Hr. now left. }
      apply filter_In in Hin as [Hin Hk]. apply andb_prop in Hk as [Hk1 Hk2].
      apply eqb_true in Hk1, Hk2.
      specialize (Hw _ t Hin Hk1 Hk2 eq_refl).
      apply eqb_true in Ht, Hs. rewrite Ht, Hs, Z.gtb_ltb. simpl.
      apply Z.ltb_lt in Hw. now rewrite Hw.
  - split; [|split].
    + destruct (_ && _); lia.
    + intros H. rewrite (Hother H). lia.
    + intros Ht Hs _. apply eqb_true in Ht, Hs. now rewrite Ht, Hs.
  - split; [|split].
    + destruct (_ && _); lia.
    + intros H. rewrite (Hother H). lia.
    + intros Ht Hs _. apply eqb_true in Ht, Hs. now rewrite Ht, Hs.
Qed.

Lemma unread_count_new_message_witness :
  Inbox.unread_count m_session_id m_sender_id m_created_at
    (rp_session_messages Scenario.posted ++ [Scenario.line2])
    (rp_session_reads Scenario.posted) Scenario.tale Scenario.alice Scenario.bob
  = Inbox.unread_count m_session_id m_sender_id m_created_at
      (rp_session_messages Scenario.posted)
      (rp_session_reads Scenario.posted) Scenario.tale Scenario.alice Scenario.bob
    + 1
  /\ Inbox.unread_count m_session_id m_sender_id m_created_at
       (rp_session_messages Scenario.posted ++ [Scenario.line2])
       (rp_session_reads Scenario.posted) Scenario.tale Scenario.bob Scenario.alice
     = Inbox.unread_count m_session_id m_sender_id m_created_at
         (rp_session_messages Scenario.posted)
         (rp_session_reads Scenario.posted) Scenario.tale Scenario.bob Scenario.alice.
Proof.
  split.
  - apply (unread_count_new_message m_session_id m_sender_id m_created_at
             (rp_session_messages Scenario.posted) (rp_session_reads Scenario.posted)
             Scenario.tale Scenario.alice Scenario.bob Scenario.line2);
      [reflexivity|reflexivity|intros r t []].
  - apply (unread_count_new_message m_session_id m_sender_id m_created_at
             (rp_session_messages Scenario.posted) (rp_session_reads Scenario.posted)
             Scenario.tale Scenario.bob Scenario.alice Scenario.line2).
    right. discriminate.
Defined.

Lemma heartbeat_only_touches_last_seen_witness :
  filter (fun v => negb (same_viewer_key Scenario.tale Scenario.carol v))
    (rp_session_viewers
       (SessionPage.heartbeat (Some Scenario.carol) true Scenario.tale 430000
          Scenario.watched_by_both))
  = filter (fun v => negb (same_viewer_key Scenario.tale Scenario.carol v))
      (rp_session_viewers Scenario.watched_by_both).
Proof.
  apply (heartbeat_only_touches_last_seen (Some Scenario.carol) true Scenario.tale
           430000 Scenario.watched_by_both).
  reflexivity.
Defined.

(** ** Closed sessions *)

Lemma closed_after_patch p s :
  s_status s = "closed" -> s_status (apply_patch p s) = "closed".
Proof. destruct p; simpl; auto. Qed.

Lemma run_keeps_closed uid st db :
  NoDup (map s_id (rp_sessions db)) ->
  exists f rest,
    rp_sessions (run uid st db) = map f (rp_sessions db) ++ rest
    /\ forall s, In s (rp_sessions db) ->
         s_id (f s) = s_id s
         /\ (s_status s = "closed" -> s_status (f s) = "closed").
Proof.
  intros Hpk.
  assert (Hsame : forall db', rp_sessions db' = rp_sessions db ->
            exists f rest,
              rp_sessions db' = map f (rp_sessions db) ++ rest
              /\ forall s, In s (rp_sessions db) ->
                   s_id (f s) = s_id s
                   /\ (s_status s = "closed" -> s_status (f s) = "closed")).
  { intros db' E. exists (fun s => s), []. rewrite E, map_id, app_nil_r. auto. }
  assert (Hraise : forall db', raises_max_viewers (rp_sessions db) (rp_sessions db') ->
            exists f rest,
              rp_sessions db' = map f (rp_sessions db) ++ rest
              /\ forall s, In s (rp_sessions db) ->
                   s_id (f s) = s_id s
                   /\ (s_status s = "closed" -> s_status (f s) = "closed")).
  { intros db' [f [E Hf]]. exists f, []. rewrite app_nil_r. split; [assumption|].
    intros s Hs. destruct (Hf s Hs) as [Ex _].
    assert (Ei : s_id (f s) = s_id s)
      by (change (s_id (with_max_viewers None (f s)) = s_id s); now rewrite Ex).
    assert (Es : s_status (f s) = s_status s)
      by (change (s_status (with_max_viewers None (f s)) = s_status s); now rewrite Ex).
    split; congruence. }
  assert (Hupd : forall w set d db',
            rp_sessions d = rp_sessions db ->
            (forall s, s_id (set s) = s_id s
                       /\ (s_status s = "closed" -> s_status (set s) = "closed")) ->
            update_rp_sessions uid w set d = Ok db' ->
            exists f rest,
              rp_sessions db' = map f (rp_sessions db) ++ rest
              /\ forall s, In s (rp_sessions db) ->
                   s_id (f s) = s_id s
                   /\ (s_status s = "closed" -> s_status (f s) = "closed")).
  { intros w set d db' Ed Hset H. apply update_rp_sessions_Ok in H as [-> _].
    exists (fun s => if update_target uid w s then set s else s), [].
    simpl. rewrite app_nil_r, Ed. split; [reflexivity|].
    intros s _. destruct (update_target uid w s); auto. }
  destruct st.
  - cbn [run]. unfold insert_rp_session.
    destruct (rp_sessions_status_check row); simpl; [|now apply Hsame].
    destruct (existsb _ _); simpl; [now apply Hsame|].
    destruct (rp_sessions_insert_participants uid row); simpl; [|now apply Hsame].
    exists (fun s => s), [row]. rewrite map_id. auto.
  - cbn [run].
    destruct (update_rp_sessions uid _ _ db) as [db'|e] eqn:E; simpl;
      [|now apply Hsame].
    apply (Hupd _ _ db db' eq_refl) in E; [assumption|].
    intros s. split; [now destruct (apply_patch_parties p s)|apply closed_after_patch].
  - cbn [run].
    destruct (insert_rp_session_message uid row db) as [db'|e] eqn:E; simpl;
      [|now apply Hsame].
    apply insert_rp_session_message_Ok in E as [_ [_ E]].
    apply calculate_response_time_Ok in E as [db1 [Hu [Es _]]].
    apply (Hupd _ _ db1 db' Es) in Hu; [assumption|]. auto.
  - apply Hraise. apply (max_viewers_never_decreases uid (InsertViewer row) db Hpk).
  - apply Hraise.
    apply (max_viewers_never_decreases uid (UpsertViewer sid who last_seen now) db Hpk).
  - apply Hraise.
    apply (max_viewers_never_decreases uid (UpdateViewerLastSeen sid who t) db Hpk).
  - now apply Hsame.
  - now apply Hsame.
Qed.

(** X16. No statement the application sends reopens a session: through
    any sequence of statements by any users, a stored session whose
    status is ['closed'] stays stored, and every row with its id has
    status ['closed']. The two keys of the tables assumed at the start. *)
Theorem closed_sessions_stay_closed (stmts : list (option uuid * statement))
    (db : database) (s : rp_session) :
  NoDup (map s_id (rp_sessions db)) ->
  NoDup (map viewer_key (rp_session_viewers db)) ->
  In s (rp_sessions db) ->
  s_status s = "closed" ->
  let db' := fold_left (fun d us => run (fst us) (snd us) d) stmts db in
  (exists s', In s' (rp_sessions db') /\ s_id s' = s_id s)
  /\ (forall s', In s' (rp_sessions db') -> s_id s' = s_id s ->
        s_status s' = "closed").
Proof.
  revert db s. induction stmts as [|[uid st] stmts IH]; intros db s Hpk Hvk Hs Hc; simpl.
  - split; [now exists s|].
    intros s' Hs' Hid.
    now rewrite (NoDup_map_inj s_id (rp_sessions db) s' s Hpk Hs' Hs Hid).
  - destruct (run_keeps_keys uid st db Hpk Hvk) as [Hpk' Hvk'].
    destruct (run_keeps_closed uid st db Hpk) as [f [rest [E Hf]]].
    destruct (Hf s Hs) as [Hid Hcl].
    assert (Hin : In (f s) (rp_sessions (run uid st db)))
      by (rewrite E; apply in_or_app; left; now apply in_map).
    destruct (IH (run uid st db) (f s) Hpk' Hvk' Hin (Hcl Hc)) as [[s' [Hs' Hid']] Hall].
    split.
    + exists s'. split; [assumption|congruence].
    + intros s'' Hs'' Hid''. apply Hall; [assumption|congruence].
Qed.

Lemma closed_sessions_stay_closed_witness :
  let closed := run (Some Scenario.bob) (UpdateSession Scenario.tale close_patch)
                  Scenario.answered in
  Forall (fun s' => s_id s' = Scenario.tale -> s_status s' = "closed")
    (rp_sessions
       (run (Some Scenario.alice)
          (UpdateSession Scenario.tale (is_active_patch true))
          (run (Some Scenario.carol)
             (UpsertViewer Scenario.tale Scenario.carol 400000 400001)
             closed))).
Proof.
  intros closed. apply Forall_forall.
  apply (closed_sessions_stay_closed
           [(Some Scenario.carol,
             UpsertViewer Scenario.tale Scenario.carol 400000 400001);
            (Some Scenario.alice,
             UpdateSession Scenario.tale (is_active_patch true))]
           closed
           (with_status "closed" (with_is_active false Scenario.tale_now))).
  - vm_compute. repeat constructor; simpl; intuition discriminate.
  - constructor.
  - left. reflexivity.
  - reflexivity.
Defined.

(** ** The deferred constraint on [(user_a, user_b, status)] *)

Lemma same_pair_and_status_key s r :
  SessionActions.same_pair_and_status s r = true
  <-> SessionActions.pair_and_status s = SessionActions.pair_and_status r.
Proof.
  unfold SessionActions.same_pair_and_status, SessionActions.pair_and_status.
  rewrite !andb_true_iff, !eqb_true. split.
  - intros [[-> ->] ->]. reflexivity.
  - intros H. inversion H. auto.
Qed.

Lemma unique_active_session_NoDup (l : list rp_session) :
  SessionActions.unique_active_session l = true
  <-> NoDup (map SessionActions.pair_and_status l).
Proof.
  induction l as [|s l IH]; simpl.
  - split; [constructor|reflexivity].
  - rewrite andb_true_iff, negb_true_iff, IH. split.
    + intros [Hex Hn]. constructor; [|assumption].
      intros Hin. apply in_map_iff in Hin as [r [E Hr]].
      pose proof (existsb_key_false _ _ Hex r Hr) as Hk.
      assert (SessionActions.same_pair_and_status s r = true)
        by (apply same_pair_and_status_key; congruence).
      congruence.
    + intros Hn. inversion Hn as [|? ? Hx Hl]; subst. split; [|assumption].
      destruct (existsb _ l) eqn:Hex; [|reflexivity].
      apply existsb_exists in Hex as [r [Hr Hk]].
      apply same_pair_and_status_key in Hk.
      exfalso. apply Hx. rewrite Hk. now apply in_map.
Qed.

Lemma unique_active_session_ext (l l' : list rp_session) :
  map SessionActions.pair_and_status l = map SessionActions.pair_and_status l' ->
  SessionActions.unique_active_session l = SessionActions.unique_active_session l'.
Proof.
  intros E.
  destruct (SessionActions.unique_active_session l) eqn:H,
           (SessionActions.unique_active_session l') eqn:H'; try reflexivity.
  - apply unique_active_session_NoDup in H. rewrite E in H.
    apply unique_active_session_NoDup in H. congruence.
  - apply unique_active_session_NoDup in H'. rewrite <- E in H'.
    apply unique_active_session_NoDup in H'. congruence.
Qed.

(** A request that leaves the three columns of every row alone passes
    the check at commit whenever the table passed it before. *)
Lemma commit_update_same_keys uid where_ set db :
  SessionActions.unique_active_session (rp_sessions db) = true ->
  (forall s, SessionActions.pair_and_status (set s) = SessionActions.pair_and_status s) ->
  SessionActions.commit (update_rp_sessions uid where_ set db)
  = update_rp_sessions uid where_ set db.
Proof.
  intros Hu Hset. unfold SessionActions.commit.
  destruct (update_rp_sessions uid where_ set db) as [db'|e] eqn:E; [|reflexivity].
  apply update_rp_sessions_Ok in E as [-> _]. simpl.
  rewrite (unique_active_session_ext _ (rp_sessions db)), Hu; [reflexivity|].
  rewrite map_map. apply map_ext. intros s.
  destruct (update_target uid where_ s); auto.
Qed.

(** The UPDATE of one session by one of its parties, the primary key in
    force: the WHERE clause on the id is all that selects. *)
Lemma party_update_by_id u s set db :
  NoDup (map s_id (rp_sessions db)) ->
  In s (rp_sessions db) ->
  s_user_a s = u \/ s_user_b s = u ->
  (forall r, s_user_a (set r) = s_user_a r /\ s_user_b (set r) = s_user_b r) ->
  rp_sessions_status_check (set s) = true ->
  update_rp_sessions (Some u) (fun r => String.eqb (s_id r) (s_id s)) set db
  = Ok (set_rp_sessions db
          (map (fun r => if String.eqb (s_id r) (s_id s) then set r else r)
               (rp_sessions db))).
Proof.
  intros Hpk Hs Hu Hset Hc.
  assert (Hp : is_participant (Some u) s = true).
  { rewrite is_participant_eqb.
    destruct Hu as [<-|<-]; rewrite String.eqb_refl; auto using orb_true_r. }
  assert (Ht : forall r, In r (rp_sessions db) ->
            update_target (Some u) (fun r => String.eqb (s_id r) (s_id s)) r
            = String.eqb (s_id r) (s_id s)).
  { intros r Hr. unfold update_target.
    destruct (String.eqb (s_id r) (s_id s)) eqn:E; [|reflexivity].
    apply eqb_true in E.
    rewrite (NoDup_map_inj s_id (rp_sessions db) r s Hpk Hr Hs E).
    unfold rp_sessions_select, rp_sessions_update_participants. now rewrite Hp. }
  rewrite update_rp_sessions_succeeds.
  - f_equal. f_equal. apply map_ext_in. intros r Hr. now rewrite (Ht r Hr).
  - intros r Hr Htr. rewrite (Ht r Hr) in Htr. apply eqb_true in Htr.
    rewrite (NoDup_map_inj s_id (rp_sessions db) r s Hpk Hr Hs Htr).
    split; [assumption|].
    unfold is_participant. destruct (Hset s) as [-> ->]. exact Hp.
Qed.

(** ** Closing a session *)

Lemma close_patch_succeeds uid (where_ : rp_session -> bool) db :
  update_rp_sessions uid where_ (apply_patch close_patch) db
  = Ok (set_rp_sessions db
          (map (fun r => if update_target uid where_ r
                         then apply_patch close_patch r else r)
               (rp_sessions db))).
Proof.
  apply update_rp_sessions_succeeds. intros r _ Ht. split; [reflexivity|].
  unfold update_target in Ht. apply andb_prop in Ht as [_ Ht]. exact Ht.
Qed.

(** X17. A pair of users can hold one closed session only. When the
    table already holds a closed session with the same [user_a] and
    [user_b] as the session being closed, [closeSession] fails with a
    unique violation of [unique_active_session] at commit: the database
    stays as it was, the session stays open, and the page shows the
    error of the request. *)
Theorem closeSession_refused_after_earlier_close (message : sqlstate -> string)
    (u : uuid) (s r c : rp_session) (db : database)
    (st : SessionPage.page_state) :
  SessionPage.me st = Some u ->
  SessionPage.session st = Some c ->
  In s (rp_sessions db) ->
  s_user_a s = u \/ s_user_b s = u ->
  In r (rp_sessions db) ->
  s_id r <> s_id s ->
  s_user_a r = s_user_a s ->
  s_user_b r = s_user_b s ->
  s_status r = "closed" ->
  SessionActions.closeSession message false (s_id s) db st
  = (SessionActions.setError (Some (message unique_violation))
       (SessionActions.setError None st), db).
Proof.
  intros Hme Hc Hs Hu Hr Hid Ha Hb Hst.
  unfold SessionActions.closeSession. rewrite Hme, Hc.
  cbv zeta. cbn [SessionPage.me SessionActions.setError]. rewrite Hme.
  rewrite close_patch_succeeds. unfold SessionActions.commit. cbn [bind].
  set (f := fun x => if update_target (Some u)
                          (fun s0 => String.eqb (s_id s0) (s_id s)) x
                     then apply_patch close_patch x else x).
  cbn [rp_sessions set_rp_sessions].
  destruct (SessionActions.unique_active_session (map f (rp_sessions db))) eqn:E;
    [|reflexivity].
  exfalso. apply unique_active_session_NoDup in E. rewrite map_map in E.
  apply Hid. symmetry.
  assert (Hfs : f s = apply_patch close_patch s).
  { unfold f, update_target. rewrite String.eqb_refl.
    unfold rp_sessions_select, rp_sessions_update_participants.
    rewrite is_participant_eqb.
    destruct Hu as [<-|<-]; rewrite String.eqb_refl; simpl;
      rewrite ?orb_true_r; reflexivity. }
  assert (Hfr : f r = r).
  { unfold f, update_target. apply eqb_false in Hid. now rewrite Hid. }
  assert (Heq : s = r).
  { apply (NoDup_map_inj (fun x => SessionActions.pair_and_status (f x))
             (rp_sessions db) s r E Hs Hr).
    rewrite Hfs, Hfr. unfold SessionActions.pair_and_status. simpl.
    now rewrite Ha, Hb, Hst. }
  now rewrite Heq.
Qed.

Lemma closeSession_refused_after_earlier_close_witness :
  let old := mk_rp_session "01d00000-0000-4000-8000-00000000000b"
               Scenario.alice Scenario.bob "closed" false None None 500
               None None false (Some 0) in
  let db := set_rp_sessions Scenario.answered [old; Scenario.tale_now] in
  let st := fst (SessionPage.load (SessionPage.User Scenario.bob) Scenario.tale
                   20000 db SessionPage.initial_state) in
  snd (SessionActions.closeSession (fun _ => "duplicate key value") false
         Scenario.tale db st) = db
  /\ SessionPage.error
       (fst (SessionActions.closeSession (fun _ => "duplicate key value") false
               Scenario.tale db st))
     = Some "duplicate key value".
Proof.
  intros old db st.
  assert (H := closeSession_refused_after_earlier_close
                 (fun _ => "duplicate key value")
                 Scenario.bob Scenario.tale_now old Scenario.tale_now db st
                 eq_refl eq_refl (or_intror (or_introl eq_refl))
                 (or_intror eq_refl) (or_introl eq_refl)).
  change (s_id Scenario.tale_now) with Scenario.tale in H.
  rewrite H; try reflexivity; [split; reflexivity|discriminate].
Defined.

Lemma NoDup_map_finer {A K K' : Type} (k : A -> K) (k' : A -> K') (l : list A) :
  NoDup (map k l) ->
  (forall x y, In x l -> In y l -> k' x = k' y -> k x = k y) ->
  NoDup (map k' l).
Proof.
  induction l as [|x l IH]; simpl; [constructor|].
  intros Hn H. inversion Hn as [|? ? Hx Hl]; subst. constructor.
  - intros Hin. apply in_map_iff in Hin as [y [E Hy]].
    apply Hx. rewrite <- (H y x (or_intror Hy) (or_introl eq_refl) E).
    now apply in_map.
  - apply IH; [assumption|]. intros a b Ha Hb. apply H; now right.
Qed.

(** X18. When one of the two parties closes a session and no other
    session of the same [user_a] and [user_b] is closed already,
    [closeSession] goes through: the stored row of that id, and no other
    row, gets status ['closed'] and [is_active] false, the page's copy of
    the session likewise, and no error is shown. Primary key and
    [unique_active_session] in force before the request. *)
Theorem closeSession_closes (message : sqlstate -> string)
    (u : uuid) (s c : rp_session) (db : database) (st : SessionPage.page_state) :
  SessionPage.me st = Some u ->
  SessionPage.session st = Some c ->
  NoDup (map s_id (rp_sessions db)) ->
  SessionActions.unique_active_session (rp_sessions db) = true ->
  In s (rp_sessions db) ->
  s_user_a s = u \/ s_user_b s = u ->
  (forall r, In r (rp_sessions db) ->
     s_user_a r = s_user_a s -> s_user_b r = s_user_b s ->
     s_status r = "closed" -> r = s) ->
  let out := SessionActions.closeSession message false (s_id s) db st in
  snd out
  = set_rp_sessions db
      (map (fun r => if String.eqb (s_id r) (s_id s)
                     then with_status "closed" (with_is_active false r) else r)
           (rp_sessions db))
  /\ SessionPage.error (fst out) = None
  /\ SessionPage.session (fst out)
     = Some (with_status "closed" (with_is_active false c)).
Proof.
  intros Hme Hc Hpk Huniq Hs Hu Hfirst out. subst out.
  unfold SessionActions.closeSession. rewrite Hme, Hc.
  cbv zeta. cbn [SessionPage.me SessionActions.setError]. rewrite Hme.
  rewrite (party_update_by_id u s (apply_patch close_patch) db Hpk Hs Hu);
    [|intros r; split; reflexivity|reflexivity].
  unfold SessionActions.commit. cbn [bind rp_sessions set_rp_sessions].
  set (f := fun r => if String.eqb (s_id r) (s_id s)
                     then apply_patch close_patch r else r).
  assert (E : SessionActions.unique_active_session (map f (rp_sessions db)) = true).
  { apply unique_active_session_NoDup. rewrite map_map.
    apply unique_active_session_NoDup in Huniq.
    apply (NoDup_map_finer SessionActions.pair_and_status); [assumption|].
    assert (Hone : forall x y, In x (rp_sessions db) -> In y (rp_sessions db) ->
              String.eqb (s_id x) (s_id s) = true ->
              String.eqb (s_id y) (s_id s) = false ->
              SessionActions.pair_and_status (apply_patch close_patch x)
              = SessionActions.pair_and_status y -> False).
    { intros x y Hx Hy Ex Ey Hk. apply eqb_true in Ex.
      rewrite (NoDup_map_inj s_id (rp_sessions db) x s Hpk Hx Hs Ex) in Hk.
      unfold SessionActions.pair_and_status in Hk. simpl in Hk.
      inversion Hk as [[Ha Hb Hst]].
      assert (y = s) by (apply Hfirst; auto). subst y.
      now rewrite String.eqb_refl in Ey. }
    intros x y Hx Hy. unfold f.
    destruct (String.eqb (s_id x) (s_id s)) eqn:Ex,
             (String.eqb (s_id y) (s_id s)) eqn:Ey; intros Hk.
    - apply eqb_true in Ex, Ey.
      now rewrite (NoDup_map_inj s_id (rp_sessions db) x y Hpk Hx Hy)
        by congruence.
    - exfalso. exact (Hone x y Hx Hy Ex Ey Hk).
    - exfalso. exact (Hone y x Hy Hx Ey Ex (eq_sym Hk)).
    - assumption. }
  rewrite E. repeat split.
Qed.

Lemma closeSession_closes_witness :
  let st := fst (SessionPage.load (SessionPage.User Scenario.bob) Scenario.tale
                   20000 Scenario.answered SessionPage.initial_state) in
  rp_sessions
    (snd (SessionActions.closeSession (fun _ => "refused") false Scenario.tale
            Scenario.answered st))
  = [with_status "closed" (with_is_active false Scenario.tale_now)].
Proof.
  intros st.
  destruct (closeSession_closes (fun _ => "refused") Scenario.bob
              Scenario.tale_now Scenario.tale_now Scenario.answered st)
    as [H _].
  - reflexivity.
  - reflexivity.
  - repeat constructor; simpl; intuition discriminate.
  - reflexivity.
  - left. reflexivity.
  - right. reflexivity.
  - intros r [<-|[]] _ _ _. reflexivity.
  - change (s_id Scenario.tale_now) with Scenario.tale in H. rewrite H. reflexivity.
Defined.

(** ** Pausing and resuming *)

Lemma toggleSessionActive_by_party (message : sqlstate -> string)
    (u : uuid) (s c : rp_session) (db : database) (st : SessionPage.page_state) :
  SessionPage.me st = Some u ->
  SessionPage.session st = Some c ->
  NoDup (map s_id (rp_sessions db)) ->
  SessionActions.unique_active_session (rp_sessions db) = true ->
  In s (rp_sessions db) ->
  s_user_a s = u \/ s_user_b s = u ->
  rp_sessions_status_check s = true ->
  SessionActions.toggleSessionActive message (s_id s) db st
  = (SessionActions.setSession
       (Some (with_is_active (negb (s_is_active c)) c)) st,
     set_rp_sessions db
       (map (fun r => if String.eqb (s_id r) (s_id s)
                      then with_is_active (negb (s_is_active c)) r else r)
            (rp_sessions db))).
Proof.
  intros Hme Hc Hpk Huniq Hs Hu Hchk.
  unfold SessionActions.toggleSessionActive. rewrite Hme, Hc. cbv zeta.
  rewrite commit_update_same_keys; [|assumption|reflexivity].
  rewrite (party_update_by_id u s _ db Hpk Hs Hu);
    [reflexivity|intros r; split; reflexivity|exact Hchk].
Qed.

(** Two presses on the columns the row record carries. *)
Lemma toggleSessionActive_twice_rows (message : sqlstate -> string)
    (u : uuid) (s c : rp_session) (db : database) (st : SessionPage.page_state) :
  SessionPage.me st = Some u ->
  SessionPage.session st = Some c ->
  NoDup (map s_id (rp_sessions db)) ->
  SessionActions.unique_active_session (rp_sessions db) = true ->
  In s (rp_sessions db) ->
  s_user_a s = u \/ s_user_b s = u ->
  rp_sessions_status_check s = true ->
  let once := SessionActions.toggleSessionActive message (s_id s) db st in
  let twice :=
    SessionActions.toggleSessionActive message (s_id s) (snd once) (fst once) in
  snd once
  = set_rp_sessions db
      (map (fun r => if String.eqb (s_id r) (s_id s)
                     then with_is_active (negb (s_is_active c)) r else r)
           (rp_sessions db))
  /\ SessionPage.error (fst once) = SessionPage.error st
  /\ (c = s -> twice = (st, db)).
Proof.
  intros Hme Hc Hpk Huniq Hs Hu Hchk once twice. subst twice once.
  rewrite (toggleSessionActive_by_party message u s c db st) by assumption.
  cbn [fst snd]. split; [reflexivity|]. split; [reflexivity|].
  intros ->.
  set (b := s_is_active s).
  set (f := fun r => if String.eqb (s_id r) (s_id s)
                     then with_is_active (negb b) r else r).
  assert (Hfs : f s = with_is_active (negb b) s)
    by (unfold f; now rewrite String.eqb_refl).
  assert (Hids : map s_id (map f (rp_sessions db)) = map s_id (rp_sessions db)).
  { rewrite map_map. apply map_ext. intros r. unfold f.
    now destruct (String.eqb (s_id r) (s_id s)). }
  assert (Hkeys : map SessionActions.pair_and_status (map f (rp_sessions db))
                  = map SessionActions.pair_and_status (rp_sessions db)).
  { rewrite map_map. apply map_ext. intros r. unfold f.
    now destruct (String.eqb (s_id r) (s_id s)). }
  change (s_id s) with (s_id (with_is_active (negb b) s)).
  rewrite (toggleSessionActive_by_party message u (with_is_active (negb b) s)
             (with_is_active (negb b) s)).
  - f_equal.
    + destruct st; simpl in *. subst. destruct s; simpl. subst b. simpl.
      now rewrite negb_involutive.
    + destruct db as [ss ms rts vs ws rds]; unfold set_rp_sessions; simpl in *.
      f_equal. rewrite map_map. rewrite <- (map_id ss) at 2.
      apply map_ext_in. intros r Hr. unfold f.
      destruct (String.eqb (s_id r) (s_id s)) eqn:E; simpl; rewrite E; [|reflexivity].
      apply eqb_true in E.
      rewrite (NoDup_map_inj s_id ss r s Hpk Hr Hs E).
      destruct s; simpl. subst b. simpl. now rewrite negb_involutive.
  - exact Hme.
  - reflexivity.
  - simpl. now rewrite Hids.
  - simpl. now rewrite (unique_active_session_ext _ _ Hkeys).
  - simpl. rewrite <- Hfs. now apply in_map.
  - exact Hu.
  - exact Hchk.
Qed.

(** X19. [toggleSessionActive] by a party writes the opposite of the
    page's copy of [is_active], whatever the stored value is, into the row
    of that id and into no other row; when the page's copy is the stored
    row, pressing the button twice gives back the page state, leaves the
    rows of [rp_sessions] the same in number and order with every column
    other than [updated_at] as it was before the first press ([id],
    [user_a], [user_b], [status], [is_active], [last_message_at],
    [reminder_sent_at], [created_at], [name], [style], [is_public],
    [max_viewers]), and leaves the other tables untouched. [updated_at]
    is stamped by its trigger at each press and does not come back.
    Primary key, status CHECK and [unique_active_session] in force
    before the request. *)
Theorem toggleSessionActive_twice (message : sqlstate -> string)
    (u : uuid) (s c : rp_session) (db : database) (st : SessionPage.page_state) :
  SessionPage.me st = Some u ->
  SessionPage.session st = Some c ->
  NoDup (map s_id (rp_sessions db)) ->
  SessionActions.unique_active_session (rp_sessions db) = true ->
  In s (rp_sessions db) ->
  s_user_a s = u \/ s_user_b s = u ->
  rp_sessions_status_check s = true ->
  let once := SessionActions.toggleSessionActive message (s_id s) db st in
  let twice :=
    SessionActions.toggleSessionActive message (s_id s) (snd once) (fst once) in
  rp_sessions (snd once)
  = map (fun r => if String.eqb (s_id r) (s_id s)
                  then with_is_active (negb (s_is_active c)) r else r)
        (rp_sessions db)
  /\ SessionPage.error (fst once) = SessionPage.error st
  /\ SessionPage.session (fst once)
     = Some (with_is_active (negb (s_is_active c)) c)
  /\ (c = s ->
      fst twice = st
      /\ Forall2 same_columns (rp_sessions db) (rp_sessions (snd twice))
      /\ rp_session_messages (snd twice) = rp_session_messages db
      /\ rp_response_times (snd twice) = rp_response_times db
      /\ rp_session_viewers (snd twice) = rp_session_viewers db
      /\ rp_session_reads (snd twice) = rp_session_reads db).
Proof.
  intros Hme Hc Hpk Huniq Hs Hu Hchk once twice.
  destruct (toggleSessionActive_twice_rows message u s c db st
              Hme Hc Hpk Huniq Hs Hu Hchk) as [H1 [H2 H3]].
  fold once in H1, H2, H3. fold twice in H3.
  split; [now rewrite H1|]. split; [exact H2|]. split.
  - unfold once.
    rewrite (toggleSessionActive_by_party message u s c db st) by assumption.
    reflexivity.
  - intros E. rewrite (H3 E). cbn [fst snd].
    split; [reflexivity|]. split; [apply same_columns_refl|]. repeat split.
Qed.

Lemma toggleSessionActive_twice_witness :
  let st := fst (SessionPage.load (SessionPage.User Scenario.bob) Scenario.tale
                   20000 Scenario.answered SessionPage.initial_state) in
  let once := SessionActions.toggleSessionActive (fun _ => "refused")
                Scenario.tale Scenario.answered st in
  let twice := SessionActions.toggleSessionActive (fun _ => "refused")
                 Scenario.tale (snd once) (fst once) in
  rp_sessions (snd once) = [with_is_active false Scenario.tale_now]
  /\ fst twice = st
  /\ Forall2 same_columns (rp_sessions Scenario.answered) (rp_sessions (snd twice)).
Proof.
  intros st once twice.
  destruct (toggleSessionActive_twice (fun _ => "refused") Scenario.bob
              Scenario.tale_now Scenario.tale_now Scenario.answered st)
    as [H1 [_ [_ H2]]].
  - reflexivity.
  - reflexivity.
  - repeat constructor; simpl; intuition discriminate.
  - reflexivity.
  - left. reflexivity.
  - right. reflexivity.
  - reflexivity.
  - change (s_id Scenario.tale_now) with Scenario.tale in H1, H2.
    fold once in H1, H2. fold twice in H2.
    destruct (H2 eq_refl) as [Hst [Hrows _]].
    split; [now rewrite H1|]. split; [exact Hst|exact Hrows].
Defined.

(** ** Sending a message *)

Lemma commit_Ok r db' :
  SessionActions.commit r = Ok db' ->
  r = Ok db' /\ SessionActions.unique_active_session (rp_sessions db') = true.
Proof.
  unfold SessionActions.commit. destruct r as [d|e]; simpl; [|discriminate].
  destruct (SessionActions.unique_active_session (rp_sessions d)) eqn:E;
    [|discriminate].
  intros H; inversion H; subst. auto.
Qed.

(** X20. [send] stores nothing and keeps the text in the box when the
    text is blank, when the page's copy of the session is closed, or when
    a narration is sent while the page's copy is paused; in the last two
    cases it shows an error. *)
Theorem send_refused (message : sqlstate -> string) (trim : string -> string)
    (sessionId : uuid) (messageType : SessionActions.message_type)
    (selectedCharacterId : option uuid) (id : uuid)
    (created_at now now' now'' : timestamptz) (db : database)
    (st : SessionPage.page_state) (c : SessionActions.composer)
    (session : rp_session) :
  SessionPage.session st = Some session ->
  trim (SessionActions.text c) = ""
  \/ s_status session = "closed"
  \/ (messageType = SessionActions.narration /\ s_is_active session = false) ->
  let out := SessionActions.send message trim sessionId messageType
               selectedCharacterId id created_at now now' now'' db st c in
  snd out = db
  /\ snd (fst out) = c
  /\ SessionPage.session (fst (fst out)) = Some session
  /\ (SessionPage.me st <> None -> trim (SessionActions.text c) <> "" ->
      SessionPage.error (fst (fst out)) <> None).
Proof.
  intros Hs Hguard out. subst out. unfold SessionActions.send. rewrite Hs.
  destruct (SessionPage.me st) as [u|];
    [|simpl; split; [|split; [|split]]; auto; intros H; now elim H].
  destruct (String.eqb (trim (SessionActions.text c)) "") eqn:Eb.
  - apply eqb_true in Eb. simpl. split; [|split; [|split]]; auto.
  - apply eqb_false in Eb.
    destruct (String.eqb (s_status session) "closed") eqn:Ec;
      [simpl; split; [|split; [|split]]; auto; intros _ _; discriminate|].
    apply eqb_false in Ec.
    destruct Hguard as [H|[H|[-> Hp]]]; try contradiction.
    rewrite Hp. simpl. split; [|split; [|split]]; auto. intros _ _. discriminate.
Qed.

Lemma send_refused_witness :
  let st := SessionActions.setSession
              (Some (with_status "closed" Scenario.tale_now))
              (fst (SessionPage.load (SessionPage.User Scenario.bob) Scenario.tale
                      20000 Scenario.answered SessionPage.initial_state)) in
  snd (SessionActions.send (fun _ => "refused") (fun t => t) Scenario.tale
         SessionActions.ooc None "00000005-0000-4000-8000-000000000000"
         21000 21001 21002 21003 Scenario.answered st
         (SessionActions.mk_composer "hello" None))
  = Scenario.answered.
Proof.
  intros st.
  apply (send_refused (fun _ => "refused") (fun t => t) Scenario.tale
           SessionActions.ooc None "00000005-0000-4000-8000-000000000000"
           21000 21001 21002 21003 Scenario.answered st
           (SessionActions.mk_composer "hello" None)
           (with_status "closed" Scenario.tale_now)).
  - reflexivity.
  - right. left. reflexivity.
Defined.

(** The insert of [send] by a party into a session whose stored row is
    paused: the row is appended, the trigger records no response time
    and sets [last_message_at]. *)
Lemma sent_message_into_paused_session u s messageType body ch id t db :
  NoDup (map s_id (rp_sessions db)) ->
  In s (rp_sessions db) ->
  s_user_a s = u \/ s_user_b s = u ->
  rp_sessions_status_check s = true ->
  s_is_active s = false ->
  insert_rp_session_message (Some u)
    (SessionActions.sent_message (s_id s) u messageType body ch id t) db
  = Ok (set_rp_sessions
          (set_rp_session_messages db
             (rp_session_messages db
              ++ [SessionActions.sent_message (s_id s) u messageType body ch id t]))
          (map (fun r => if String.eqb (s_id r) (s_id s)
                         then with_last_message_at (Some t) r else r)
               (rp_sessions db))).
Proof.
  intros Hpk Hs Hu Hchk Hact.
  set (row := SessionActions.sent_message (s_id s) u messageType body ch id t).
  assert (Hp : is_participant (Some u) s = true).
  { rewrite is_participant_eqb.
    destruct Hu as [<-|<-]; rewrite String.eqb_refl; auto using orb_true_r. }
  assert (Hvis : In s (visible_rp_sessions (Some u) db)).
  { apply filter_In. split; [assumption|]. unfold rp_sessions_select. now rewrite Hp. }
  unfold insert_rp_session_message.
  assert (Ht : rp_session_messages_message_type_check row = true)
    by (destruct messageType; reflexivity).
  rewrite Ht. cbn [negb].
  assert (Hr : references_rp_sessions db (m_session_id row) = true).
  { apply existsb_exists. exists s. split; [assumption|apply String.eqb_refl]. }
  rewrite Hr. cbn [negb].
  assert (Hi : rp_session_messages_insert_sender (Some u) db row = true).
  { unfold rp_session_messages_insert_sender. apply andb_true_intro. split.
    - simpl. apply String.eqb_refl.
    - apply existsb_exists. exists s. split; [assumption|].
      simpl. now rewrite String.eqb_refl, Hp. }
  rewrite Hi. cbn [negb].
  unfold calculate_response_time.
  set (db0 := set_rp_session_messages db (rp_session_messages db ++ [row])).
  assert (Hsel : filter (fun x => String.eqb (s_id x) (m_session_id row))
                        (visible_rp_sessions (Some u) db0) = [s]).
  { change (m_session_id row) with (s_id s).
    rewrite (visible_session_by_id (Some u) db0 s Hpk Hs).
    unfold rp_sessions_select. now rewrite Hp. }
  rewrite Hsel. cbn [map select_into hd_error]. rewrite Hact. cbn [bind].
  change (m_session_id row) with (s_id s).
  apply (party_update_by_id u s (with_last_message_at (Some (m_created_at row))) db0
           Hpk Hs Hu); [intros r; split; reflexivity|exact Hchk].
Qed.

Lemma commit_update_frame uid where_ set db :
  let db' := or_unchanged
               (SessionActions.commit (update_rp_sessions uid where_ set db)) db in
  rp_session_messages db' = rp_session_messages db
  /\ rp_session_reads db' = rp_session_reads db
  /\ rp_response_times db' = rp_response_times db
  /\ rp_session_viewers db' = rp_session_viewers db.
Proof.
  intros db'. subst db'.
  destruct (SessionActions.commit _) as [d|e] eqn:E; simpl; [|auto].
  apply commit_Ok in E as [E _]. apply update_rp_sessions_Ok in E as [-> _]. auto.
Qed.

(** X21. That a closed session takes no more messages rests on the
    page's copy of the session alone. When that copy is out of date (it
    says open, while the stored row has been closed and paused by the
    other party), [send] by a party stores the message in the closed
    session, and no error is shown: neither the insert policy nor the
    trigger looks at [status]. Primary key and [unique_active_session] in
    force. *)
Theorem send_reaches_closed_session (message : sqlstate -> string)
    (trim : string -> string) (messageType : SessionActions.message_type)
    (selectedCharacterId : option uuid) (id : uuid)
    (created_at now now' now'' : timestamptz) (db : database)
    (st : SessionPage.page_state) (c : SessionActions.composer)
    (u : uuid) (s copy : rp_session) :
  SessionPage.me st = Some u ->
  SessionPage.session st = Some copy ->
  trim (SessionActions.text c) <> "" ->
  s_status copy <> "closed" ->
  (messageType = SessionActions.narration -> s_is_active copy = true) ->
  NoDup (map s_id (rp_sessions db)) ->
  SessionActions.unique_active_session (rp_sessions db) = true ->
  In s (rp_sessions db) ->
  s_user_a s = u \/ s_user_b s = u ->
  s_status s = "closed" ->
  s_is_active s = false ->
  let out := SessionActions.send message trim (s_id s) messageType
               selectedCharacterId id created_at now now' now'' db st c in
  rp_session_messages (snd out)
  = rp_session_messages db
    ++ [SessionActions.sent_message (s_id s) u messageType (SessionActions.text c)
          selectedCharacterId id created_at]
  /\ SessionPage.error (fst (fst out)) = SessionPage.error st.
Proof.
  intros Hme Hcopy Htext Hopen Hnarr Hpk Huniq Hs Hu Hclosed Hpaused out. subst out.
  unfold SessionActions.send. rewrite Hme, Hcopy.
  apply eqb_false in Htext, Hopen. rewrite Htext, Hopen.
  assert (Hg : (match messageType with
                | SessionActions.narration => true
                | SessionActions.ooc => false
                end && negb (s_is_active copy)) = false).
  { destruct messageType; [reflexivity|]. now rewrite (Hnarr eq_refl). }
  rewrite Hg. cbv zeta.
  assert (Hins : SessionActions.commit
                   (insert_rp_session_message (Some u)
                      (SessionActions.sent_message (s_id s) u messageType
                         (SessionActions.text c) selectedCharacterId id created_at) db)
                 = Ok (set_rp_sessions
                         (set_rp_session_messages db
                            (rp_session_messages db
                             ++ [SessionActions.sent_message (s_id s) u messageType
                                   (SessionActions.text c) selectedCharacterId id
                                   created_at]))
                         (map (fun r => if String.eqb (s_id r) (s_id s)
                                        then with_last_message_at (Some created_at) r
                                        else r)
                              (rp_sessions db)))).
  { rewrite (sent_message_into_paused_session u s messageType (SessionActions.text c)
               selectedCharacterId id created_at db Hpk Hs Hu)
      by (try assumption; unfold rp_sessions_status_check; rewrite Hclosed; reflexivity).
    unfold SessionActions.commit. cbn [bind rp_sessions set_rp_sessions].
    rewrite (unique_active_session_ext _ (rp_sessions db)), Huniq; [reflexivity|].
    rewrite map_map. apply map_ext. intros r.
    now destruct (String.eqb (s_id r) (s_id s)). }
  rewrite Hins. cbv beta iota. cbn [fst snd].
  match goal with
  | |- context [or_unchanged
                  (SessionActions.commit (update_rp_sessions ?i ?w ?f ?d)) ?d] =>
      destruct (commit_update_frame i w f d) as [Em _]
  end.
  split; [|reflexivity]. rewrite Em. reflexivity.
Qed.

Lemma send_reaches_closed_session_witness :
  let st := fst (SessionPage.load (SessionPage.User Scenario.bob) Scenario.tale
                   20000 Scenario.answered SessionPage.initial_state) in
  let closed := run (Some Scenario.alice) (UpdateSession Scenario.tale close_patch)
                  Scenario.answered in
  let out := SessionActions.send (fun _ => "refused") (fun t => t) Scenario.tale
               SessionActions.ooc None "00000005-0000-4000-8000-000000000000"
               21000 21001 21002 21003 closed st
               (SessionActions.mk_composer "still there?" None) in
  map s_status (rp_sessions closed) = ["closed"]
  /\ map m_body (rp_session_messages (snd out))
     = ["The gate creaks open."; "brb"; "still there?"].
Proof.
  intros st closed out. split; [reflexivity|].
  destruct (send_reaches_closed_session (fun _ => "refused") (fun t => t)
              SessionActions.ooc None "00000005-0000-4000-8000-000000000000"
              21000 21001 21002 21003 closed st
              (SessionActions.mk_composer "still there?" None)
              Scenario.bob
              (with_status "closed" (with_is_active false Scenario.tale_now))
              Scenario.tale_now)
    as [H _].
  - reflexivity.
  - reflexivity.
  - discriminate.
  - discriminate.
  - discriminate.
  - repeat constructor; simpl; intuition discriminate.
  - reflexivity.
  - left. reflexivity.
  - right. reflexivity.
  - reflexivity.
  - reflexivity.
  - change (s_id (with_status "closed" (with_is_active false Scenario.tale_now)))
      with Scenario.tale in H.
    fold out in H. rewrite H. reflexivity.
Defined.

Lemma insert_rp_session_message_reads uid NEW db db' :
  insert_rp_session_message uid NEW db = Ok db' ->
  rp_session_reads db' = rp_session_reads db.
Proof.
  intros H. apply insert_rp_session_message_Ok in H as [_ [_ H]].
  revert H. unfold calculate_response_time.
  set (db0 := set_rp_session_messages db (rp_session_messages db ++ [NEW])).
  assert (Hframe : forall d, rp_session_reads d = rp_session_reads db ->
            update_rp_sessions uid
              (fun s => String.eqb (s_id s) (m_session_id NEW))
              (with_last_message_at (Some (m_created_at NEW))) d = Ok db' ->
            rp_session_reads db' = rp_session_reads db).
  { intros d Ed Hd. apply update_rp_sessions_Ok in Hd as [-> _]. exact Ed. }
  destruct (select_into (map s_is_active _)) as [[|]|];
    try (simpl; intros H; now apply (Hframe db0)).
  destruct (select_into (limit 1 _)) as [prev|];
    [|simpl; intros H; now apply (Hframe db0)].
  destruct (record_is_not_null (Some prev));
    [|simpl; intros H; now apply (Hframe db0)].
  destruct (to_integer _) as [secs|e]; simpl; [|discriminate].
  intros H. now apply Hframe in H.
Qed.

(** X22. When the insert of [send] goes through for a party, the message
    is the new last row of [rp_session_messages]; the sender's read mark
    for the session is the one row with the first clock reading and the
    id of the new message; the stored session carries the second clock
    reading of the client as [last_message_at], in place of the
    [created_at] the trigger had written, and no [reminder_sent_at]; the
    text box is emptied; and the inactivity effect cannot call for a
    reminder before five minutes have passed since the third clock
    reading. Primary key, status CHECK and the key of the read marks in
    force. *)
Theorem send_outcome (message : sqlstate -> string)
    (trim : string -> string) (messageType : SessionActions.message_type)
    (selectedCharacterId : option uuid) (id : uuid)
    (created_at now now' now'' : timestamptz) (db db1 : database)
    (st : SessionPage.page_state) (c : SessionActions.composer)
    (u : uuid) (s copy : rp_session) :
  SessionPage.me st = Some u ->
  SessionPage.session st = Some copy ->
  trim (SessionActions.text c) <> "" ->
  s_status copy <> "closed" ->
  (messageType = SessionActions.narration -> s_is_active copy = true) ->
  NoDup (map s_id (rp_sessions db)) ->
  NoDup (map Inbox.read_key (rp_session_reads db)) ->
  In s (rp_sessions db) ->
  s_user_a s = u \/ s_user_b s = u ->
  rp_sessions_status_check s = true ->
  SessionActions.commit
    (insert_rp_session_message (Some u)
       (SessionActions.sent_message (s_id s) u messageType (SessionActions.text c)
          selectedCharacterId id created_at) db) = Ok db1 ->
  let out := SessionActions.send message trim (s_id s) messageType
               selectedCharacterId id created_at now now' now'' db st c in
  rp_session_messages (snd out)
  = rp_session_messages db
    ++ [SessionActions.sent_message (s_id s) u messageType (SessionActions.text c)
          selectedCharacterId id created_at]
  /\ rp_sessions (snd out)
     = map (fun r => if String.eqb (s_id r) (s_id s)
                     then with_last_message_at (Some now')
                            (with_reminder_sent_at None r)
                     else r)
           (rp_sessions db)
  /\ filter (fun r => String.eqb (rd_thread_id r) (s_id s)
                      && String.eqb (rd_user_id r) u)
            (rp_session_reads (snd out))
     = [mk_read_mark (s_id s) u (Some now) (Some id)]
  /\ snd (fst out) = SessionActions.mk_composer "" None
  /\ (forall t t', t < now'' + 5 * (1000 * 60) ->
        SessionPage.inactivity_effect
          (SessionPage.session (fst (fst out))) (SessionPage.me (fst (fst out)))
          (SessionActions.inactivityReminder (snd (fst out))) t t' = false).
Proof.
  intros Hme Hcopy Htext Hopen Hnarr Hpk Hrk Hs Hu Hchk Hins out. subst out.
  unfold SessionActions.send. rewrite Hme, Hcopy.
  apply eqb_false in Htext, Hopen. rewrite Htext, Hopen.
  assert (Hg : (match messageType with
                | SessionActions.narration => true
                | SessionActions.ooc => false
                end && negb (s_is_active copy)) = false).
  { destruct messageType; [reflexivity|]. now rewrite (Hnarr eq_refl). }
  rewrite Hg. cbv zeta. rewrite Hins. cbv beta iota. cbn [fst snd].
  apply commit_Ok in Hins as [Hins Huniq].
  pose proof (insert_rp_session_message_reads _ _ _ _ Hins) as Hreads.
  apply insert_rp_session_message_Ok in Hins as [_ [_ Hins]].
  apply calculate_response_time_Ok in Hins as [d [Hupd [Eds [Edm _]]]].
  cbn [rp_sessions rp_session_messages set_rp_session_messages] in Eds, Edm.
  change (m_session_id (SessionActions.sent_message (s_id s) u messageType
                          (SessionActions.text c) selectedCharacterId id created_at))
    with (s_id s) in Hupd.
  change (m_created_at (SessionActions.sent_message (s_id s) u messageType
                          (SessionActions.text c) selectedCharacterId id created_at))
    with created_at in Hupd.
  rewrite (party_update_by_id u s (with_last_message_at (Some created_at)) d) in Hupd;
    [|now rewrite Eds|now rewrite Eds|assumption|intros r; split; reflexivity|assumption].
  injection Hupd as Edb1. rewrite Eds in Edb1.
  set (f := fun r => if String.eqb (s_id r) (s_id s)
                     then with_last_message_at (Some created_at) r else r) in *.
  assert (Hs1 : rp_sessions db1 = map f (rp_sessions db)) by (now rewrite <- Edb1).
  assert (Hm1 : rp_session_messages db1
                = rp_session_messages db
                  ++ [SessionActions.sent_message (s_id s) u messageType
                        (SessionActions.text c) selectedCharacterId id created_at])
    by (now rewrite <- Edb1).
  set (db2 := SessionPage.set_rp_session_reads db1
                (SessionPage.upsert_read_mark (s_id s) u now id (rp_session_reads db1))).
  assert (Hids : map s_id (map f (rp_sessions db)) = map s_id (rp_sessions db)).
  { rewrite map_map. apply map_ext. intros r. unfold f.
    now destruct (String.eqb (s_id r) (s_id s)). }
  assert (Hfs : f s = with_last_message_at (Some created_at) s)
    by (unfold f; now rewrite String.eqb_refl).
  assert (Hlast : SessionActions.commit
                    (update_rp_sessions (Some u)
                       (fun s0 => String.eqb (s_id s0) (s_id s))
                       (apply_patch (sent_patch now')) db2)
                  = Ok (set_rp_sessions db2
                          (map (fun r => if String.eqb (s_id r) (s_id s)
                                         then apply_patch (sent_patch now') r else r)
                               (rp_sessions db2)))).
  { rewrite commit_update_same_keys;
      [|unfold db2; simpl; exact Huniq|reflexivity].
    change (s_id s) with (s_id (with_last_message_at (Some created_at) s)).
    apply (party_update_by_id u (with_last_message_at (Some created_at) s)).
    - unfold db2. simpl. now rewrite Hs1, Hids.
    - unfold db2. simpl. rewrite Hs1, <- Hfs. now apply in_map.
    - exact Hu.
    - intros r. split; reflexivity.
    - exact Hchk. }
  rewrite Hlast. cbn [or_unchanged].
  split; [|split; [|split; [|split]]].
  - unfold db2. simpl. exact Hm1.
  - unfold db2. cbn [rp_sessions set_rp_sessions SessionPage.set_rp_session_reads].
    rewrite Hs1, map_map. apply map_ext. intros r. unfold f.
    destruct (String.eqb (s_id r) (s_id s)) eqn:E; simpl; rewrite E; [|reflexivity].
    destruct r; reflexivity.
  - unfold db2. simpl. rewrite Hreads. now apply upsert_read_mark_lookup.
  - reflexivity.
  - intros t t' Ht.
    cbn [fst snd SessionActions.setSession SessionPage.session SessionPage.me
         SessionActions.inactivityReminder].
    rewrite Hme. unfold SessionPage.inactivity_effect.
    destruct (s_is_active _); [|reflexivity].
    unfold SessionPage.checkInactivity.
    cbn [s_last_message_at with_last_message_at with_reminder_sent_at].
    replace (5 * (1000 * 60) <=? t - now'') with false
      by (symmetry; apply Z.leb_gt; lia).
    reflexivity.
Qed.

Lemma send_outcome_witness :
  let st := fst (SessionPage.load (SessionPage.User Scenario.alice) Scenario.tale
                   14000 Scenario.answered SessionPage.initial_state) in
  let db := snd (SessionPage.load (SessionPage.User Scenario.alice) Scenario.tale
                   14000 Scenario.answered SessionPage.initial_state) in
  let out := SessionActions.send (fun _ => "refused") (fun t => t) Scenario.tale
               SessionActions.narration (Some Scenario.hero)
               "00000004-0000-4000-8000-000000000000" 15000 15001 15002 15003
               db st (SessionActions.mk_composer "A voice calls out." None) in
  map m_body (rp_session_messages (snd out))
  = ["The gate creaks open."; "brb"; "A voice calls out."]
  /\ map s_last_message_at (rp_sessions (snd out)) = [Some 15002].
Proof.
  intros st db out.
  destruct (send_outcome (fun _ => "refused") (fun t => t)
              SessionActions.narration (Some Scenario.hero)
              "00000004-0000-4000-8000-000000000000" 15000 15001 15002 15003
              db
              (run (Some Scenario.alice)
                 (InsertMessage
                    (SessionActions.sent_message Scenario.tale Scenario.alice
                       SessionActions.narration "A voice calls out."
                       (Some Scenario.hero)
                       "00000004-0000-4000-8000-000000000000" 15000)) db)
              st (SessionActions.mk_composer "A voice calls out." None)
              Scenario.alice Scenario.tale_now Scenario.tale_now)
    as [Hm [Hs _]].
  - reflexivity.
  - reflexivity.
  - discriminate.
  - discriminate.
  - reflexivity.
  - repeat constructor; simpl; intuition discriminate.
  - repeat constructor; simpl; intuition discriminate.
  - left. reflexivity.
  - left. reflexivity.
  - reflexivity.
  - vm_compute. reflexivity.
  - change (s_id Scenario.tale_now) with Scenario.tale in Hm, Hs.
    fold out in Hm, Hs. rewrite Hm, Hs. split; reflexivity.
Defined.

(** ** The viewer list and the viewer's own row *)

Lemma filter_touch_own sid u t (l : list rp_session_viewer) :
  filter (same_viewer_key sid u)
         (map (fun v => if same_viewer_key sid u v then with_last_seen t v else v) l)
  = map (with_last_seen t) (filter (same_viewer_key sid u) l).
Proof.
  induction l as [|v l IH]; simpl; [reflexivity|].
  destruct (same_viewer_key sid u v) eqn:K.
  - unfold same_viewer_key in *. simpl. rewrite K. simpl. now rewrite IH.
  - rewrite K. exact IH.
Qed.

(** [trackViewer] by a signed-in user in a public session: afterwards the
    table holds one row of that user for the session, and its [last_seen]
    is the clock reading sent. *)
Lemma trackViewer_own_row u s t db_now db :
  Forall (fun x => rp_sessions_status_check x = true) (rp_sessions db) ->
  In s (rp_sessions db) -> s_is_public s = true ->
  NoDup (map viewer_key (rp_session_viewers db)) ->
  let tracked := SessionPage.trackViewer (Some u) (s_id s) t db_now db in
  (exists row,
     filter (same_viewer_key (s_id s) u) (rp_session_viewers tracked) = [row]
     /\ v_last_seen row = t)
  /\ filter (fun v => negb (same_viewer_key (s_id s) u v))
            (rp_session_viewers tracked)
     = filter (fun v => negb (same_viewer_key (s_id s) u v)) (rp_session_viewers db)
  /\ map (with_max_viewers None) (rp_sessions tracked)
     = map (with_max_viewers None) (rp_sessions db).
Proof.
  intros Hst Hs Hp Hn tracked. subst tracked.
  assert (Hself : forall j l0,
            viewer_is_self (Some u) (mk_rp_session_viewer (s_id s) u j l0) = true)
    by (intros; unfold viewer_is_self; simpl; apply String.eqb_refl).
  unfold SessionPage.trackViewer, upsert_rp_session_viewer.
  rewrite Hself. cbn [negb].
  rewrite (public_session_viewer_visible (Some u) s db
             (mk_rp_session_viewer (s_id s) u db_now t) Hs Hp eq_refl).
  cbn [negb].
  destruct (existsb (same_viewer_key (s_id s) u) (rp_session_viewers db)) eqn:Hex.
  - match goal with
    | |- context [fire_update_triggers ?a ?c ?d] =>
        destruct (fire_update_triggers_total a c d Hst) as [db1 [E [Ev Es]]]
    end.
    rewrite E. cbn [or_unchanged]. simpl in Ev, Es.
    split; [|split; [rewrite Ev; apply filter_others_touch|exact Es]].
    apply existsb_exists in Hex as [v0 [Hv0 Hk0]].
    exists (with_last_seen t v0). split; [|reflexivity].
    rewrite Ev, filter_touch_own. 
    rewrite (filter_unique viewer_key _ (rp_session_viewers db) v0 Hn Hv0);
      [reflexivity|].
    intros x. unfold same_viewer_key, viewer_key in *.
    apply andb_prop in Hk0 as [H1 H2]. apply eqb_true in H1, H2.
    rewrite andb_true_iff, !eqb_true, H1, H2.
    split; [intros [-> ->]; reflexivity | intros H; inversion H; auto].
  - unfold insert_rp_session_viewer. rewrite Hself. cbn [negb v_session_id v_user_id].
    assert (Hfk : references_rp_sessions db (s_id s) = true).
    { unfold references_rp_sessions. apply existsb_exists. exists s.
      split; [assumption|apply String.eqb_refl]. }
    rewrite Hfk, Hex. cbn [negb].
    match goal with
    | |- context [update_session_max_viewers ?a ?n ?o ?d] =>
        destruct (update_session_max_viewers_total a n o d Hst) as [db1 [E [Ev Es]]]
    end.
    rewrite E. cbn [or_unchanged]. simpl in Ev, Es.
    assert (Hown : same_viewer_key (s_id s) u
                     (mk_rp_session_viewer (s_id s) u db_now t) = true)
      by (unfold same_viewer_key; simpl; now rewrite !String.eqb_refl).
    split; [|split; [|exact Es]].
    2:{ rewrite Ev, filter_app. simpl. rewrite Hown. simpl. apply app_nil_r. }
    exists (mk_rp_session_viewer (s_id s) u db_now t). split; [|reflexivity].
    rewrite Ev, filter_app.
    rewrite (filter_none_in (same_viewer_key (s_id s) u) (rp_session_viewers db))
      by (now apply existsb_key_false).
    simpl. now rewrite Hown.
Qed.

(** C3. In a public session the list [loadViewers] hands to the page is
    made of the session's viewer rows whose [last_seen] is no older than
    two minutes before the clock reading and whose user is neither
    [user_a] nor [user_b], ordered by [joined_at] descending and cut to ten
    entries: every entry is such a viewer, the list is sorted, it has at
    most ten entries, and such a viewer is missing from it only when the
    list is full of viewers that joined no earlier. A signed-in user who
    views the session has a viewer row: after [trackViewer] the table
    holds exactly one row of that user for the session, with the clock
    reading sent as [last_seen]. The heartbeat [trackViewer] arms has a
    period of 30000 ms, and after its [n]-th firing that one row carries
    the time of the firing as [last_seen], the rows of other users being
    left alone. [rp_session_viewers] is taken with its UNIQUE constraint
    and [rp_sessions] with its status CHECK in force. *)
Theorem viewer_list_and_heartbeat (me : option uuid) (s : rp_session)
    (now : timestamptz) (db : database) (u : uuid) (t db_now t0 : timestamptz)
    (n : nat) :
  In s (rp_sessions db) ->
  s_is_public s = true ->
  NoDup (map viewer_key (rp_session_viewers db)) ->
  Forall (fun x => rp_sessions_status_check x = true) (rp_sessions db) ->
  let viewers := SessionPage.loadViewers me s (s_id s) now db in
  let qualifies v :=
    v_session_id v = s_id s /\ now - 2 * 60 * 1000 <= v_last_seen v
    /\ v_user_id v <> s_user_a s /\ v_user_id v <> s_user_b s in
  let tracked := SessionPage.trackViewer (Some u) (s_id s) t db_now db in
  viewers = SessionPage.viewer_list_spec s (s_id s) now db
  /\ (List.length viewers <= 10)%nat
  /\ StronglySorted
       (fun a b => SessionPage.viewer_joined_at b <= SessionPage.viewer_joined_at a)
       viewers
  /\ (forall x, In x viewers ->
        exists v, In v (rp_session_viewers db) /\ qualifies v
                  /\ x = SessionPage.viewer_of db v)
  /\ (forall v, In v (rp_session_viewers db) -> qualifies v ->
        In (SessionPage.viewer_of db v) viewers
        \/ (List.length viewers = 10%nat
            /\ forall x, In x viewers ->
                 v_joined_at v <= SessionPage.viewer_joined_at x))
  /\ SessionPage.heartbeat_interval = 30 * 1000
  /\ rp_session_viewers (SessionPage.heartbeats (Some u) (s_id s) t0 (S n) db)
     = map (fun v => if same_viewer_key (s_id s) u v
                     then with_last_seen (t0 + Z.of_nat (S n) * (30 * 1000)) v
                     else v)
           (rp_session_viewers db)
  /\ (exists row,
        filter (same_viewer_key (s_id s) u) (rp_session_viewers tracked) = [row]
        /\ v_session_id row = s_id s /\ v_user_id row = u
        /\ v_last_seen row = t
        /\ filter (same_viewer_key (s_id s) u)
             (rp_session_viewers
                (SessionPage.heartbeats (Some u) (s_id s) t0 (S n) tracked))
           = [with_last_seen (t0 + Z.of_nat (S n) * (30 * 1000)) row]
        /\ filter (fun v => negb (same_viewer_key (s_id s) u v))
             (rp_session_viewers
                (SessionPage.heartbeats (Some u) (s_id s) t0 (S n) tracked))
           = filter (fun v => negb (same_viewer_key (s_id s) u v))
               (rp_session_viewers db)).
Proof.
  intros Hs Hp Hn Hst viewers qualifies tracked.
  assert (Hq : forall v, SessionPage.active_spectator s (s_id s) now v = true
                         <-> qualifies v).
  { intros v. unfold SessionPage.active_spectator, qualifies.
    rewrite !andb_true_iff, !negb_true_iff, !eqb_false, eqb_true, Z.leb_le.
    tauto. }
  assert (E : viewers = SessionPage.viewer_list_spec s (s_id s) now db)
    by (apply loadViewers_refines; assumption).
  set (L := order_by_desc v_joined_at
              (filter (SessionPage.active_spectator s (s_id s) now)
                      (rp_session_viewers db))).
  assert (HL : StronglySorted (fun a b => v_joined_at b <= v_joined_at a) L)
    by apply order_by_desc_sorted.
  assert (HLin : forall v, In v L <-> In v (rp_session_viewers db) /\ qualifies v).
  { intros v. unfold L, order_by_desc. rewrite stable_sort_In, filter_In, Hq.
    reflexivity. }
  assert (E' : viewers = map (SessionPage.viewer_of db) (firstn 10 L)) by exact E.
  split; [exact E|]. split; [|split; [|split; [|split; [|split; [|split]]]]].
  - rewrite E', length_map. apply firstn_le_length.
  - rewrite E'. apply (sorted_map v_joined_at); [reflexivity|].
    now apply sorted_firstn.
  - intros x Hx. rewrite E' in Hx. apply in_map_iff in Hx as [v [<- Hv]].
    apply In_firstn, HLin in Hv as [Hv Hqv]. now exists v.
  - intros v Hv Hqv.
    destruct (sorted_prefix_complete v_joined_at 10 L v HL) as [Hin|[Hlen Hall]].
    + apply HLin. now split.
    + left. rewrite E'. now apply in_map.
    + right. rewrite E', length_map. split; [assumption|].
      intros x Hx. apply in_map_iff in Hx as [w [<- Hw]]. now apply Hall.
  - reflexivity.
  - exact (proj1 (heartbeats_touch_own_row u s t0 db n Hst Hs Hp)).
  - destruct (trackViewer_own_row u s t db_now db Hst Hs Hp Hn)
      as [[row [Hrow Hseen]] [Hothers Es]].
    fold tracked in Hrow, Hothers, Es.
    destruct (public_session_forget _ _ s Es Hs Hp) as [s' [Hs' [Eid Hp']]].
    destruct (heartbeats_touch_own_row u s' t0 tracked n
                (status_check_forget _ _ Es Hst) Hs' Hp') as [Ev _].
    rewrite Eid in Ev.
    assert (Hin : In row (filter (same_viewer_key (s_id s) u)
                                 (rp_session_viewers tracked)))
      by (rewrite Hrow; now left).
    apply filter_In in Hin as [_ Hk]. unfold same_viewer_key in Hk.
    apply andb_prop in Hk as [Hk1 Hk2]. apply eqb_true in Hk1, Hk2.
    exists row. split; [exact Hrow|]. split; [exact Hk1|]. split; [exact Hk2|].
    split; [exact Hseen|]. split.
    + rewrite Ev.
      change (t0 + Z.of_nat (S n) * 30000) with (t0 + Z.of_nat (S n) * (30 * 1000)).
      rewrite filter_touch_own, Hrow. reflexivity.
    + rewrite Ev, filter_others_touch. exact Hothers.
Qed.

Lemma viewer_list_and_heartbeat_witness :
  let dave : uuid := "da4e0000-0000-4000-8000-000000000004" in
  map SessionPage.viewer_user_id
    (SessionPage.loadViewers (Some Scenario.carol) Scenario.tale_now
       Scenario.tale 450000 Scenario.watched)
  = [Scenario.carol]
  /\ filter (same_viewer_key Scenario.tale dave)
       (rp_session_viewers
          (SessionPage.heartbeats (Some dave) Scenario.tale 420500 2
             (SessionPage.trackViewer (Some dave) Scenario.tale 420000 420001
                Scenario.watched)))
     = [mk_rp_session_viewer Scenario.tale dave 420001 480500].
Proof.
  intros dave.
  assert (Hin : In Scenario.tale_now (rp_sessions Scenario.watched)).
  { vm_compute. left. reflexivity. }
  assert (Hn : NoDup (map viewer_key (rp_session_viewers Scenario.watched))).
  { vm_compute. repeat constructor; simpl; intuition discriminate. }
  assert (Hst : Forall (fun x => rp_sessions_status_check x = true)
                  (rp_sessions Scenario.watched)).
  { vm_compute. repeat constructor. }
  destruct (viewer_list_and_heartbeat (Some Scenario.carol) Scenario.tale_now
              450000 Scenario.watched dave 420000 420001 420500 1
              Hin eq_refl Hn Hst)
    as [E [_ [_ [_ [_ [_ [_ [row [Hrow [_ [_ [_ [Hbeat _]]]]]]]]]]]]].
  split.
  - change Scenario.tale with (s_id Scenario.tale_now). rewrite E. reflexivity.
  - assert (Er : [row] = [mk_rp_session_viewer Scenario.tale dave 420001 420000])
      by (rewrite <- Hrow; reflexivity).
    injection Er as ->.
    change Scenario.tale with (s_id Scenario.tale_now). rewrite Hbeat. reflexivity.
Defined.

(** ** Messages and the parties of their session *)

